(** * Retry wrapper, learning context and prompt assembly of the render service

    A shallow embedding of [src/services/geminiService.ts] (the retry helper
    [callWithRetry], the learning functions [getLearningContext],
    [saveRenderHistory], [submitFeedback], the prompt builders and
    [generateWeddingRender]) and of the offline persistence client of
    [supabaseClient.ts] (the [Proxy] built by [createMockChain]).

    The TypeScript is dynamically shaped where it matters ([e: any],
    [supabase as any]), so thrown values and persistence responses are
    JavaScript values ([JS.value]); asynchronous code is sequential state
    passing over the state of the remote collaborators, with a trace of the
    attempts and sleeps of the retry loop. *)

From Stdlib Require Import ZArith List String Ascii Bool Lia PeanoNat.
From Stdlib Require Import DecimalString.
From Stdlib Require Import QArith Qround Floats.
From Stdlib Require Import Sorting.Permutation Sorting.Sorted.
Import ListNotations.
Local Open Scope string_scope.
Local Open Scope Z_scope.
#[local] Set Warnings "-inexact-float".

(* ================================================================= *)
(** * Part I: the embedding *)
(* ================================================================= *)

(** ** JavaScript values and the built-ins the service calls *)

Module JS.

(** *** Numbers and their text

    A JavaScript number is an IEEE 754 double: a primitive [float].
    [Number::toString] prints the shortest decimal digits [s] (there are [k]
    of them) and the decimal exponent [n] for which [s * 10^(n-k)] still
    rounds to the number, the closest such [s] when there are several, and
    lays them out plainly for [-6 < n <= 21], with an exponent otherwise. *)

(** The decimal digits of an integer, with its sign. *)
Definition decimal (z : Z) : string := NilZero.string_of_int (Z.to_int z).

(** [b^e] as a rational, for any integer exponent. *)
Definition pow_q (b e : Z) : Q :=
  if 0 <=? e then inject_Z (b ^ e) else Qinv (inject_Z (b ^ (- e))).

Definition q_lt (a b : Q) : bool := negb (Qle_bool b a).

(** The [n] with [10^(n-1) <= m * 2^e < 10^n], from an estimate by the
    binary logarithm that is corrected by up to two. *)
Definition magnitude (m e : Z) : Z :=
  let v := (inject_Z m * pow_q 2 e)%Q in
  let n := (Z.log2 m + e) * 30103 / 100000 + 1 in
  if q_lt v (pow_q 10 (n - 1))
  then (if q_lt v (pow_q 10 (n - 2)) then n - 2 else n - 1)
  else if Qle_bool (pow_q 10 n) v
       then (if Qle_bool (pow_q 10 (n + 1)) v then n + 2 else n + 1)
       else n.

(** The digits: for [k], [k + 1], ... the two [k]-digit neighbours of [v]
    are tried against the interval [lo, hi] of the reals that round to [v]
    (its ends included when the mantissa is even). Seventeen digits always
    identify a double. *)
Fixpoint shortest (fuel : nat) (k n : Z) (v lo hi : Q) (closed : bool)
  : Z * Z :=
  match fuel with
  | O => (Qfloor (v / pow_q 10 (n - k)), k)
  | S fuel' =>
      let scale := pow_q 10 (n - k) in
      let a := Qfloor (v / scale) in
      let b := a + 1 in
      let at_ s := (inject_Z s * scale)%Q in
      let within x :=
        if closed then Qle_bool lo x && Qle_bool x hi
        else q_lt lo x && q_lt x hi in
      let da := (v - at_ a)%Q in
      let db := (at_ b - v)%Q in
      match within (at_ a), within (at_ b) with
      | true, true =>
          if q_lt da db then (a, k)
          else if q_lt db da then (b, k)
          else if Z.even a then (a, k) else (b, k)
      | true, false => (a, k)
      | false, true => (b, k)
      | false, false => shortest fuel' (k + 1) n v lo hi closed
      end
  end.

Definition zeros (n : Z) : string :=
  String.concat "" (repeat "0" (Z.to_nat n)).

(** The text of the positive double [m * 2^e] ([m] its 53-bit mantissa, or
    less for a subnormal). The double below is half as far when [m] is a
    power of two. *)
Definition finite_text (m e : Z) : string :=
  let v := (inject_Z m * pow_q 2 e)%Q in
  let below :=
    if (m =? 2 ^ 52) && (-1074 <? e) then pow_q 2 (e - 2)
    else pow_q 2 (e - 1) in
  let n0 := magnitude m e in
  let '(s0, k0) :=
    shortest 17 1 n0 v (v - below)%Q (v + pow_q 2 (e - 1))%Q (Z.even m) in
  let '(s, k, n) := if s0 =? 10 ^ k0 then (1, 1, n0 + 1) else (s0, k0, n0) in
  let digits := decimal s in
  let kn := Z.to_nat n in
  if (k <=? n) && (n <=? 21) then digits ++ zeros (n - k)
  else if (0 <? n) && (n <=? 21)
  then substring 0 kn digits ++ "." ++ substring kn (Z.to_nat (k - n)) digits
  else if (-6 <? n) && (n <=? 0) then "0." ++ zeros (- n) ++ digits
  else
    let x := n - 1 in
    let exponent := (if 0 <=? x then "e+" else "e-") ++ decimal (Z.abs x) in
    if k =? 1 then digits ++ exponent
    else substring 0 1 digits ++ "." ++ substring 1 (Z.to_nat (k - 1)) digits
         ++ exponent.

(** [Number::toString(x)] in radix 10. *)
Definition number_text (x : float) : string :=
  match Prim2SF x with
  | S754_nan => "NaN"
  | S754_zero _ => "0"
  | S754_infinity false => "Infinity"
  | S754_infinity true => "-Infinity"
  | S754_finite sign m e =>
      (if sign then "-" else "") ++ finite_text (Z.pos m) e
  end.

(** The double an integer literal denotes: the nearest one, ties to the
    even mantissa. *)
Definition number_of (z : Z) : float :=
  SF2Prim (binary_normalize 53 1024 z 0 false).

(** [JSON.stringify] of a number: [NaN] and the infinities print [null]. *)
Definition number_json (x : float) : string :=
  if PrimFloat.is_finite x then number_text x else "null".

(** The text of an integer-valued number. Below 2^53 every integer is a
    double and its shortest digits are its decimal digits; from there on
    the digits are those of the double ([2^60] prints
    [1152921504606847000], [5.03e21] prints [5.03e+21]). *)
Definition integer_text (print : float -> string) (z : Z) : string :=
  if Z.abs z <? 2 ^ 53 then decimal z else print (number_of z).

Definition dec (z : Z) : string := integer_text number_text z.

(** *** Values

    Values without functions and symbols. A number is [JNum z] when it is
    the integer [z] (the status codes and star ratings the service compares)
    and [JFloat x], the double itself, otherwise; an integer-valued double
    written [JFloat] behaves as its [JNum]. An object is its list of own
    properties in the order the runtime enumerates them (integer keys
    ascending, then the other keys as inserted), each key once. *)
#[local] Set Warnings "-register-all".
Inductive value : Type :=
| JUndefined
| JNull
| JBool (b : bool)
| JNum (z : Z)
| JFloat (x : float)
| JStr (s : string)
| JArr (items : list value)
| JObj (props : list (string * value)).
#[local] Set Warnings "register-all".

(** ToBoolean. *)
Definition truthy (v : value) : bool :=
  match v with
  | JUndefined | JNull => false
  | JBool b => b
  | JNum z => negb (z =? 0)
  | JFloat x => negb (PrimFloat.is_zero x || PrimFloat.is_nan x)
  | JStr s => negb (s =? "")%string
  | JArr _ | JObj _ => true
  end.

Definition nullish (v : value) : bool :=
  match v with
  | JUndefined | JNull => true
  | _ => false
  end.

Fixpoint lookup (k : string) (props : list (string * value)) : value :=
  match props with
  | [] => JUndefined
  | (k', v) :: rest => if (k' =? k)%string then v else lookup k rest
  end.

(** [v?.k] for the property names the service reads ([message], [status],
    [code], [error], [data], [id], ...): none of them is a property of a
    primitive or of [Array.prototype]. *)
Definition opt_get (v : value) (k : string) : value :=
  match v with
  | JObj props => lookup k props
  | _ => JUndefined
  end.

(** [v === n] and [v === s] against a number or string literal. *)
Definition is_num (v : value) (n : Z) : bool :=
  match v with
  | JNum z => z =? n
  | JFloat x => PrimFloat.eqb x (number_of n)
  | _ => false
  end.

Definition is_str (v : value) (s : string) : bool :=
  match v with
  | JStr t => (t =? s)%string
  | _ => false
  end.

(** SameValueZero, as [Set] and [Array.prototype.includes] compare. Two
    objects or arrays are the same only when they are one object: the
    elements compared here come out of a decoded response, where no two
    are. *)
Definition same_value_zero (a b : value) : bool :=
  match a, b with
  | JUndefined, JUndefined => true
  | JNull, JNull => true
  | JBool x, JBool y => Bool.eqb x y
  | JNum x, JNum y => x =? y
  | JNum x, JFloat y | JFloat y, JNum x => PrimFloat.eqb (number_of x) y
  | JFloat x, JFloat y =>
      PrimFloat.eqb x y || (PrimFloat.is_nan x && PrimFloat.is_nan y)
  | JStr x, JStr y => (x =? y)%string
  | _, _ => false
  end.

(** [String.prototype.includes]. *)
Fixpoint includes (hay needle : string) : bool :=
  String.prefix needle hay ||
  match hay with
  | EmptyString => false
  | String _ rest => includes rest needle
  end.

(** ToString. *)
Fixpoint to_string (v : value) : string :=
  match v with
  | JUndefined => "undefined"
  | JNull => "null"
  | JBool true => "true"
  | JBool false => "false"
  | JNum z => dec z
  | JFloat x => number_text x
  | JStr s => s
  | JArr items =>
      String.concat ","
        (map (fun x => if nullish x then "" else to_string x) items)
  | JObj _ => "[object Object]"
  end.

(** [Array.prototype.join]: [null] and [undefined] elements print empty. *)
Definition join (sep : string) (items : list value) : string :=
  String.concat sep
    (map (fun x => if nullish x then "" else to_string x) items).

(** [Array.from(new Set(items))]: the first occurrence of each value, in
    order. *)
Fixpoint dedup (items : list value) : list value :=
  match items with
  | [] => []
  | x :: rest =>
      x :: filter (fun y => negb (same_value_zero x y)) (dedup rest)
  end.

Definition dquote : string := String (ascii_of_nat 34) EmptyString.

Definition hex_digit (n : nat) : ascii :=
  ascii_of_nat (if Nat.ltb n 10 then 48 + n else 87 + n).

(** One character of a string as JSON prints it. *)
Definition json_escape_char (c : ascii) : string :=
  let n := nat_of_ascii c in
  if Nat.eqb n 34 then "\" ++ dquote
  else if Nat.eqb n 92 then "\\"
  else if Nat.eqb n 8 then "\b"
  else if Nat.eqb n 9 then "\t"
  else if Nat.eqb n 10 then "\n"
  else if Nat.eqb n 12 then "\f"
  else if Nat.eqb n 13 then "\r"
  else if Nat.ltb n 32 then
    "\u00" ++ String (hex_digit (Nat.div n 16))
                (String (hex_digit (Nat.modulo n 16)) EmptyString)
  else String c EmptyString.

Fixpoint json_escape (s : string) : string :=
  match s with
  | EmptyString => EmptyString
  | String c rest => json_escape_char c ++ json_escape rest
  end.

Definition json_quote (s : string) : string :=
  dquote ++ json_escape s ++ dquote.

(** [JSON.stringify(v)]; [None] is the [undefined] it returns for
    [undefined]. A finite number prints as [Number::toString] prints it,
    [NaN] and the infinities print [null]; an [undefined] array element
    prints [null], an [undefined] property is left out. *)
Fixpoint stringify (v : value) : option string :=
  match v with
  | JUndefined => None
  | JNull => Some "null"
  | JBool true => Some "true"
  | JBool false => Some "false"
  | JNum z => Some (integer_text number_json z)
  | JFloat x => Some (number_json x)
  | JStr s => Some (json_quote s)
  | JArr items =>
      Some ("[" ++
            String.concat ","
              (map (fun x => match stringify x with
                             | Some s => s
                             | None => "null"
                             end) items) ++ "]")
  | JObj props =>
      Some ("{" ++
            String.concat ","
              (flat_map (fun kv => match stringify (snd kv) with
                                   | Some s => [json_quote (fst kv) ++ ":" ++ s]
                                   | None => []
                                   end) props) ++ "}")
  end.

(** [new Error(msg)] and the [TypeError] the runtime raises, by their
    message. The message of an [Error] instance is not enumerable, so
    [JSON.stringify] leaves it out where it is printed here; the service
    serialises an error only when its message is empty, and that entry
    holds no marker. *)
Definition Error (msg : string) : value := JObj [("message", JStr msg)].
Definition TypeError (msg : string) : value := JObj [("message", JStr msg)].

End JS.

Import JS.

(** ** Results, the world and the monad of the asynchronous code *)

(** An awaited promise: fulfilled with a value or rejected with the thrown
    JavaScript value. A synchronous [throw] inside an [async] function is a
    rejection of its promise, so both are [Throw]. *)
Inductive Res (A : Type) : Type :=
| Ok (a : A)
| Throw (e : value).
Arguments Ok {A} a.
Arguments Throw {A} e.

(** What the retry loop does that a caller can observe: an invocation of the
    operation, the warning it logs and the sleep it awaits. *)
Inductive event : Type :=
| EvCall
| EvWarn (attempt retries delay : Z)
| EvSleep (ms : Z).

(** The state of the remote collaborators (generation service, persistence
    service) and the trace of the retry loop so far. *)
Record World (W : Type) : Type := mkWorld {
  remote : W;
  trace : list event
}.
Arguments mkWorld {W} remote trace.
Arguments remote {W} w.
Arguments trace {W} w.

Definition M (W A : Type) : Type := World W -> Res A * World W.

Definition ret {W A} (a : A) : M W A := fun s => (Ok a, s).

Definition throw {W A} (e : value) : M W A := fun s => (Throw e, s).

Definition bind {W A B} (c : M W A) (k : A -> M W B) : M W B :=
  fun s =>
    match c s with
    | (Ok a, s') => k a s'
    | (Throw e, s') => (Throw e, s')
    end.

(** [try { c } catch (e) { h e }]. *)
Definition try_catch {W A} (c : M W A) (h : value -> M W A) : M W A :=
  fun s =>
    match c s with
    | (Ok a, s') => (Ok a, s')
    | (Throw e, s') => h e s'
    end.

(** A pure computation that may throw. *)
Definition lift {W A} (r : Res A) : M W A := fun s => (r, s).

Definition emit {W} (ev : event) : M W unit :=
  fun s => (Ok tt, mkWorld (remote s) (trace s ++ [ev])).

Notation "x <- c ;; k" := (bind c (fun x => k))
  (at level 61, c at next level, right associativity).
Notation "c ;;; k" := (bind c (fun _ => k))
  (at level 61, right associativity).

(** Pure binding in [Res]. *)
Definition rbind {A B} (r : Res A) (k : A -> Res B) : Res B :=
  match r with
  | Ok a => k a
  | Throw e => Throw e
  end.

(** [v.k]: reading a property of [null] or [undefined] throws. *)
Definition prop (v : value) (k : string) : Res value :=
  if nullish v
  then Throw (TypeError "Cannot read properties of undefined")
  else Ok (opt_get v k).

Fixpoint map_res {A B} (f : A -> Res B) (l : list A) : Res (list B) :=
  match l with
  | [] => Ok []
  | x :: rest =>
      rbind (f x) (fun y => rbind (map_res f rest) (fun ys => Ok (y :: ys)))
  end.

(** ** callWithRetry *)

Section Retry.
Context {W T : Type}.

(** [fn: () => Promise<T>]: each invocation acts on the remote state and is
    fulfilled or rejected. *)
Definition operation : Type := W -> Res T * W.

Definition invoke (fn : operation) : M W T :=
  fun s =>
    let (r, w') := fn (remote s) in
    (r, mkWorld w' (trace s ++ [EvCall])).

(** [e?.message || JSON.stringify(e)]. *)
Definition error_text (e : value) : value :=
  let m := opt_get e "message" in
  if truthy m then m
  else match stringify e with
       | Some s => JStr s
       | None => JUndefined
       end.

(** [msg.includes(needle)]: a string searches for the substring, an array for
    the element; nothing else the model holds has an [includes] to call. *)
Definition msg_includes (msg : value) (needle : string) : Res bool :=
  match msg with
  | JStr s => Ok (includes s needle)
  | JArr items => Ok (existsb (same_value_zero (JStr needle)) items)
  | JUndefined | JNull =>
      Throw (TypeError "Cannot read properties of undefined")
  | _ => Throw (TypeError "msg.includes is not a function")
  end.

(** The four structured signals of the [isLoadError] disjunction. *)
Definition status_signal (e : value) : bool :=
  is_num (opt_get e "status") 503
  || is_num (opt_get e "code") 503
  || is_num (opt_get (opt_get e "error") "code") 503
  || is_str (opt_get (opt_get e "error") "status") "UNAVAILABLE".

(** [isLoadError], left to right with the short circuit of [||]. *)
Definition isLoadError (e : value) : Res bool :=
  let msg := error_text e in
  rbind (msg_includes msg "overloaded") (fun a =>
    if a then Ok true
    else rbind (msg_includes msg "503") (fun b =>
      if b then Ok true else Ok (status_signal e))).

(** The [for] loop from iteration [i], with [fuel] turns left to take (the
    loop takes [retries - i] of them at most). *)
Fixpoint retry_loop (fn : operation) (retries : Z) (fuel : nat)
    (i delay : Z) (lastError : value) : M W T :=
  match fuel with
  | O => throw lastError
  | S fuel' =>
      if i <? retries then
        try_catch (invoke fn) (fun e =>
          load <- lift (isLoadError e) ;;
          if load && (i <? retries - 1) then
            emit (EvWarn (i + 1) retries delay) ;;;
            emit (EvSleep delay) ;;;
            retry_loop fn retries fuel' (i + 1) (delay * 2) e
          else throw e)
      else throw lastError
  end.

Definition callWithRetry (fn : operation) (retries delay : Z) : M W T :=
  retry_loop fn retries (Z.to_nat retries) 0 delay JUndefined.

(** The call sites pass no [retries] and no [delay]. *)
Definition callWithRetry_default (fn : operation) : M W T :=
  callWithRetry fn 5 3000.

End Retry.

(** ** The persistence client *)

(** The query-builder methods the service calls on [supabase], by name. *)
Inductive method : Type :=
| m_from | m_select | m_insert | m_update
| m_eq | m_lt | m_not | m_order | m_limit | m_single.

Definition method_name (m : method) : string :=
  match m with
  | m_from => "from"
  | m_select => "select"
  | m_insert => "insert"
  | m_update => "update"
  | m_eq => "eq"
  | m_lt => "lt"
  | m_not => "not"
  | m_order => "order"
  | m_limit => "limit"
  | m_single => "single"
  end.

(** One method call of a chain, [.meth(args)]. *)
Record call : Type := mkCall {
  meth : method;
  args : list value
}.

(** The chain of calls made on [supabase] before the result is awaited. *)
Definition query : Type := list call.

(** A client: what awaiting a chain yields, acting on the remote state. *)
Definition client (W : Type) : Type := query -> W -> Res value * W.

(** *** The offline client ([createMockChain])

    [supabaseClient.ts] exports this [Proxy] when the credentials are
    missing. *)

(** What a chain of calls on the proxy evaluates to: the proxy again, or the
    promise [single()] returns. *)
Inductive mock_value : Type :=
| MockChain
| MockPromise (v : value).

(** What the [get] trap returns for a property. *)
Inductive mock_member : Type :=
| ThenFn      (* (resolve) => resolve({ data: [], error: null }) *)
| SingleFn    (* () => Promise.resolve({ data: { id: ... }, error: null }) *)
| ChainMember (* createMockChain() *).

Definition mock_get (p : string) : mock_member :=
  if (p =? "then")%string then ThenFn
  else if (p =? "single")%string then SingleFn
  else ChainMember.

Definition mock_then_response : value :=
  JObj [("data", JArr []); ("error", JNull)].

Definition mock_single_response : value :=
  JObj [("data", JObj [("id", JStr "offline-mode-id")]); ("error", JNull)].

(** [target.meth(args)]. On the proxy the member comes from the [get] trap
    and a chain member is called through the [apply] trap; the model holds no
    function to pass to [then], and a promise has none of the builder's
    methods. *)
Definition mock_call (target : mock_value) (c : call) : Res mock_value :=
  match target with
  | MockChain =>
      match mock_get (method_name (meth c)) with
      | ThenFn => Throw (TypeError "resolve is not a function")
      | SingleFn => Ok (MockPromise mock_single_response)
      | ChainMember => Ok MockChain
      end
  | MockPromise _ => Throw (TypeError "is not a function")
  end.

Fixpoint mock_chain (target : mock_value) (q : query) : Res mock_value :=
  match q with
  | [] => Ok target
  | c :: rest => rbind (mock_call target c) (fun t => mock_chain t rest)
  end.

(** [await target]: the proxy is a thenable whose [then] resolves with the
    empty response. *)
Definition mock_await (target : mock_value) : value :=
  match target with
  | MockChain => mock_then_response
  | MockPromise v => v
  end.

Definition createMockChain {W : Type} : client W :=
  fun q w => (rbind (mock_chain MockChain q) (fun t => Ok (mock_await t)), w).

(** ** The learning functions *)

(** Modelled from the spec: [RenderOptions] of [types.ts], which is not
    among the sources; the named choices of the specification, under the
    names the service reads them by. *)
Record RenderOptions : Type := mkOptions {
  category : string;
  style : string;
  colorPalette : string;
  surfaceMaterial : string;
  textileMaterial : string;
  textileColor1 : string;
  textileColor2 : string;
  additionalPrompt : string;
  isAutoFocus : bool;
  cameraPreset : string;
  hiddenAIContext : option string
}.

(** Modelled from the spec: [LearningContext] of [types.ts], the examples
    and the constraints as two texts. *)
Record LearningContext : Type := mkLearning {
  examples : string;
  constraints : string
}.

Definition positive_query (category style : string) : query :=
  [ mkCall m_from [JStr "render_history"];
    mkCall m_select [JStr "master_prompt"];
    mkCall m_eq [JStr "category"; JStr category];
    mkCall m_eq [JStr "style"; JStr style];
    mkCall m_eq [JStr "rating"; JNum 5];
    mkCall m_order [JStr "created_at"; JObj [("ascending", JBool false)]];
    mkCall m_limit [JNum 3] ].

Definition negative_query (category : string) : query :=
  [ mkCall m_from [JStr "render_history"];
    mkCall m_select [JStr "feedback_tags"];
    mkCall m_eq [JStr "category"; JStr category];
    mkCall m_lt [JStr "rating"; JNum 3];
    mkCall m_not [JStr "feedback_tags"; JStr "is"; JNull];
    mkCall m_limit [JNum 10] ].

Definition insert_query (options : RenderOptions) (masterPrompt : string)
    : query :=
  [ mkCall m_from [JStr "render_history"];
    mkCall m_insert
      [JArr [JObj [("category", JStr (category options));
                   ("style", JStr (style options));
                   ("master_prompt", JStr masterPrompt);
                   ("rating", JNull)]]];
    mkCall m_select [];
    mkCall m_single [] ].

Definition update_query (renderId : string) (rating : Z) (tags : list string)
    : query :=
  [ mkCall m_from [JStr "render_history"];
    mkCall m_update
      [JObj [("rating", JNum rating);
             ("feedback_tags", JArr (map JStr tags))]];
    mkCall m_eq [JStr "id"; JStr renderId] ].

(** [positive?.map(p => p.master_prompt).join(sep) || ""]: the optional
    chain stops at a [null] or [undefined] list. *)
Definition examples_of (positive : value) : Res string :=
  match positive with
  | JUndefined | JNull => Ok ""
  | JArr items =>
      rbind (map_res (fun p => prop p "master_prompt") items) (fun texts =>
        let joined := join "
--- EXAMPLE ---
" texts in
        Ok (if (joined =? "")%string then "" else joined))
  | _ => Throw (TypeError "positive.map is not a function")
  end.

(** What [flatMap] appends for one callback result: the elements of an
    array, anything else as it is. *)
Definition flat1 (v : value) : list value :=
  match v with
  | JArr xs => xs
  | _ => [v]
  end.

(** [negative?.flatMap(n => n.feedback_tags || []) || []]. *)
Definition negative_tags (negative : value) : Res (list value) :=
  match negative with
  | JUndefined | JNull => Ok []
  | JArr items =>
      rbind
        (map_res (fun n =>
           rbind (prop n "feedback_tags") (fun t =>
             Ok (flat1 (if truthy t then t else JArr [])))) items)
        (fun chunks => Ok (List.concat chunks))
  | _ => Throw (TypeError "negative.flatMap is not a function")
  end.

Definition empty_learning : LearningContext := mkLearning "" "".

Section Learning.
Context {W : Type}.
Variable supabase : client W.

(** [await supabase.<chain>]. *)
Definition await_query (q : query) : M W value :=
  fun s =>
    let (r, w') := supabase q (remote s) in
    (r, mkWorld w' (trace s)).

(** The [try] block of [getLearningContext]. *)
Definition getLearningContext_body (category style : string)
    : M W LearningContext :=
  r1 <- await_query (positive_query category style) ;;
  positive <- lift (prop r1 "data") ;;
  r2 <- await_query (negative_query category) ;;
  negative <- lift (prop r2 "data") ;;
  allNegativeTags <- lift (negative_tags negative) ;;
  let commonComplaints := dedup allNegativeTags in
  ex <- lift (examples_of positive) ;;
  ret (mkLearning ex (join ", " (firstn 5 commonComplaints))).

Definition getLearningContext (category style : string)
    : M W LearningContext :=
  try_catch (getLearningContext_body category style)
            (fun _ => ret empty_learning).

(** The [try] block of [saveRenderHistory]. *)
Definition saveRenderHistory_body (options : RenderOptions)
    (masterPrompt : string) : M W value :=
  r <- await_query (insert_query options masterPrompt) ;;
  data <- lift (prop r "data") ;;
  error <- lift (prop r "error") ;;
  if truthy error then throw error
  else lift (prop data "id").

Definition saveRenderHistory (options : RenderOptions)
    (masterPrompt : string) : M W value :=
  try_catch (saveRenderHistory_body options masterPrompt)
            (fun _ => ret JNull).

Definition submitFeedback (renderId : string) (rating : Z)
    (tags : list string) : M W unit :=
  r <- await_query (update_query renderId rating tags) ;;
  error <- lift (prop r "error") ;;
  if truthy error then throw error else ret tt.

End Learning.

(** ** Prompt construction *)

(** The directives [getEmpowermentPrompt] pushes, in order. *)
Definition autoInstructions (selections : RenderOptions) : list string :=
  (if (category selections =? "none")%string
   then ["- PHÂN TÍCH CẤU TRÚC GỐC: Nhận diện chính xác vị trí các vật thể hiện hữu. Tuyệt đối không thêm thắt các khối kiến trúc làm thay đổi bố cục gốc."]
   else [])
  ++ (if (style selections =? "none")%string
      then ["- TRÍCH XUẤT PHONG CÁCH: Phân tích các đường nét kiến trúc sẵn có trong ảnh (ví dụ: phào chỉ cổ điển, nét thẳng hiện đại) để render vật liệu đồng nhất với ngôn ngữ đó."]
      else [])
  ++ (if (colorPalette selections =? "none")%string
      then ["- BẢO TỒN BẢNG MÀU (STRICT COLOR MATCH): Thực hiện lấy mẫu màu trực tiếp từ hình ảnh gốc."]
      else [])
  ++ (if (surfaceMaterial selections =? "none")%string
      then ["- NÂNG CẤP VẬT LIỆU THỰC TẾ: Xác định vật liệu hiện có và làm nét vân bề mặt."]
      else [])
  ++ (if (textileMaterial selections =? "none")%string
      then ["- TỐI ƯU VẬT LIỆU VẢI: Phân tích các loại vải hiện có và nâng cấp chúng lên chất liệu cao cấp."]
      else [])
  ++ (if negb (textileMaterial selections =? "none")%string
         && (textileColor1 selections =? "none")%string
      then ["- TỐI ƯU MÀU SẮC CHÍNH VẢI: AI sẽ chọn màu sắc chính hài hòa."]
      else [])
  ++ (if negb (textileMaterial selections =? "none")%string
         && (textileColor2 selections =? "none")%string
      then ["- TỐI ƯU MÀU SẮC PHỤ VẢI: AI sẽ chọn màu sắc phụ hài hòa."]
      else []).

Definition newline : string := "
".

Definition getEmpowermentPrompt (selections : RenderOptions) : string :=
  let instructions := autoInstructions selections in
  if Nat.eqb (List.length instructions) 0 then ""
  else "
--- CHẾ ĐỘ AI TUÂN THỦ TỐI ĐA (STRICT ADHERENCE MODE) ---
Nhiệm vụ của bạn là 'Diễn họa phục hồi'. Hãy coi hình ảnh gốc là tiêu chuẩn vàng về màu sắc và vật liệu:
" ++ String.concat newline instructions ++ "
MỤC TIÊU: Tạo ra bản render 8k siêu thực nhưng khi đặt cạnh ảnh gốc, người xem phải thấy sự đồng nhất 100% về màu sắc và linh hồn của vật liệu.
-------------------------------------------------------
  ".

(** The lines of a text, and the directives among them: a directive is a
    line that opens with a dash and a space. *)
Fixpoint lines_from (cur : string) (s : string) : list string :=
  match s with
  | EmptyString => [cur]
  | String c rest =>
      if Nat.eqb (nat_of_ascii c) 10 then cur :: lines_from "" rest
      else lines_from (cur ++ String c EmptyString) rest
  end.

Definition lines (s : string) : list string := lines_from "" s.

Definition directives (block : string) : list string :=
  filter (String.prefix "- ") (lines block).

(** The seven directives, each by the field whose sentinel asks for it. *)
Definition directive_category : string :=
  "- PHÂN TÍCH CẤU TRÚC GỐC: Nhận diện chính xác vị trí các vật thể hiện hữu. Tuyệt đối không thêm thắt các khối kiến trúc làm thay đổi bố cục gốc.".

Definition directive_style : string :=
  "- TRÍCH XUẤT PHONG CÁCH: Phân tích các đường nét kiến trúc sẵn có trong ảnh (ví dụ: phào chỉ cổ điển, nét thẳng hiện đại) để render vật liệu đồng nhất với ngôn ngữ đó.".

Definition directive_colorPalette : string :=
  "- BẢO TỒN BẢNG MÀU (STRICT COLOR MATCH): Thực hiện lấy mẫu màu trực tiếp từ hình ảnh gốc.".

Definition directive_surfaceMaterial : string :=
  "- NÂNG CẤP VẬT LIỆU THỰC TẾ: Xác định vật liệu hiện có và làm nét vân bề mặt.".

Definition directive_textileMaterial : string :=
  "- TỐI ƯU VẬT LIỆU VẢI: Phân tích các loại vải hiện có và nâng cấp chúng lên chất liệu cao cấp.".

Definition directive_textileColor1 : string :=
  "- TỐI ƯU MÀU SẮC CHÍNH VẢI: AI sẽ chọn màu sắc chính hài hòa.".

Definition directive_textileColor2 : string :=
  "- TỐI ƯU MÀU SẮC PHỤ VẢI: AI sẽ chọn màu sắc phụ hài hòa.".

Definition WEDDING_MATERIALS_KEYWORDS_florals : string :=
  "high-density fresh white hydrangeas and roses, hanging wisteria, lush greenery".

Definition WEDDING_MATERIALS_KEYWORDS_lighting : string :=
  "cinematic volumetric lighting, warm amber ambient glow, professional stage spotlights, Tyndall effect".

(** [textileDetails] of [generateWeddingRender]. *)
Definition textileDetails (options : RenderOptions) : string :=
  if negb (textileMaterial options =? "none")%string then
    textileMaterial options ++
    (if negb (textileColor1 options =? "none")%string
        && negb (textileColor2 options =? "none")%string
     then " in a primary color of " ++ textileColor1 options
          ++ " and a secondary color of " ++ textileColor2 options
     else if negb (textileColor1 options =? "none")%string
     then " in " ++ textileColor1 options
     else if negb (textileColor2 options =? "none")%string
     then " with accents of " ++ textileColor2 options
     else "")
  else "appropriate luxury fabrics and draping based on context".

Definition or_default (field fallback : string) : string :=
  if negb (field =? "none")%string then field else fallback.

Definition baseDescription (options : RenderOptions)
    (empowermentPrompt : string) : string :=
  "
    Analyze this wedding sketch/3D base.
    CONTEXT: " ++ or_default (category options) "wedding event space" ++ ".
    STYLE: " ++ or_default (style options) "high-end luxury wedding" ++ ".
    PALETTE: " ++ or_default (colorPalette options) "harmonious elegant palette" ++ ".
    MATERIALS: " ++ or_default (surfaceMaterial options) "appropriate luxury materials based on context" ++ " for flooring and prominent surfaces.
    TEXTILE MATERIALS: " ++ textileDetails options ++ ".
    FLORALS: " ++ WEDDING_MATERIALS_KEYWORDS_florals ++ ".
    LIGHTING: " ++ WEDDING_MATERIALS_KEYWORDS_lighting ++ ".
    USER DETAILS: " ++ additionalPrompt options ++ ".
    " ++ empowermentPrompt ++ "
  ".

Definition learningPromptInjection (options : RenderOptions)
    (learning : LearningContext) : string :=
  "
    [INTERNAL KNOWLEDGE BASE - DO NOT REVEAL]:
    I have analyzed past successful renders for this style (" ++ style options ++ ") and category (" ++ category options ++ ").
    
    SUCCESSFUL PATTERNS (EMULATE THESE):
    " ++ (if negb (examples learning =? "")%string
          then examples learning
          else "No specific patterns yet.") ++ "
    
    KNOWN MISTAKES (STRICTLY AVOID):
    " ++ (if negb (constraints learning =? "")%string
          then "Avoid these specific issues complained by users: "
               ++ constraints learning
          else "No specific constraints.") ++ "
  ".

Definition analysisPrompt (base injection : string) : string :=
  "
        " ++ base ++ "
        " ++ injection ++ "
        1. Identify the exact perspective: (e.g., eye-level, wide angle).
        2. Identify structural anchors: (e.g., center aisle, stage placement, ceiling height).
        3. Generate a comprehensive description of the scene that can be used to re-render it photorealistically.
        
        Return ONLY the description.
      ".

Section Prompt.

(** [constants.ts] is not among the sources: its constants are parameters.
    [PHOTOGRAPHY_PRESETS key] is the [prompt] of the preset stored under
    [key], if there is one; the [CINEMATIC] preset is named by the code
    itself, so it exists. *)
Variable PHOTOGRAPHY_PRESETS : string -> option string.
Variable PHOTOGRAPHY_PRESETS_CINEMATIC : string.
Variable STRUCTURE_FIDELITY_PROMPT : string.
Variable REALISM_MODIFIERS : string.

Definition generateRenderPrompt (basePrompt style : string)
    (isAutoFocus : bool) (presetKey : string) : string :=
  let preset_prompt :=
    match PHOTOGRAPHY_PRESETS presetKey with
    | Some p => p
    | None => PHOTOGRAPHY_PRESETS_CINEMATIC
    end in
  let focusPrompt :=
    if isAutoFocus
    then "AI AUTOMATIC FOCUS: Identify the most prominent decorative element and apply a sharp photographic focus to it, creating a natural depth of field."
    else "MANUAL FOCUS: Keep the sharpness consistent across the designated focal area." in
  "
    IMAGE TYPE: Wedding Design Render.
    CORE INSTRUCTION: " ++ STRUCTURE_FIDELITY_PROMPT ++ "
    
    SUBJECT DESCRIPTION: " ++ basePrompt ++ ".
    VISUAL STYLE: " ++ style ++ ".
    PHOTOGRAPHY SETTINGS: " ++ preset_prompt ++ ".
    FOCUS CONTROL: " ++ focusPrompt ++ ".
    
    QUALITY STANDARDS: " ++ REALISM_MODIFIERS ++ ".
    
    FINAL NOTE: Ensure the materials like glass, silk, and flowers look authentic under the specified lighting.
  ".

End Prompt.

(** ** The generation service and generateWeddingRender *)

Record FileData : Type := mkFile {
  base64 : string;
  mimeType : string
}.

(** A part of a request: text, or an inline image. *)
Inductive RequestPart : Type :=
| TextPart (text : string)
| InlinePart (mime data : string).

Record GenerateContentRequest : Type := mkRequest {
  model : string;
  parts : list RequestPart;
  temperature : option string;
  systemInstruction : option string
}.

(** The response of the SDK, by the members the service reads. *)
Record InlineData : Type := mkInline {
  inlineMimeType : option string;
  inlineBytes : option string
}.

Record ResponsePart : Type := mkPart {
  inlineData : option InlineData
}.

(** [content_parts] is [content.parts] where both are there. *)
Record Candidate : Type := mkCandidate {
  content_parts : option (list ResponsePart)
}.

Record GenerateContentResponse : Type := mkResponse {
  candidates : option (list Candidate);
  response_text : option string
}.

Record RenderResult : Type := mkResult {
  imageUrl : string;
  renderId : value
}.

(** The [data:] URL of a part that carries image bytes
    ([part.inlineData && part.inlineData.data]). *)
Definition part_image (p : ResponsePart) : option string :=
  match inlineData p with
  | Some d =>
      match inlineBytes d with
      | Some bytes =>
          if negb (bytes =? "")%string
          then Some ("data:" ++
                     match inlineMimeType d with
                     | Some m => m
                     | None => "undefined"
                     end ++ ";base64," ++ bytes)
          else None
      | None => None
      end
  | None => None
  end.

Fixpoint first_some {A B} (f : A -> option B) (l : list A) : option B :=
  match l with
  | [] => None
  | x :: rest =>
      match f x with
      | Some y => Some y
      | None => first_some f rest
      end
  end.

(** The first image among the parts of the first candidate. *)
Definition first_image (r : GenerateContentResponse) : option string :=
  match candidates r with
  | Some (c :: _) =>
      match content_parts c with
      | Some ps => first_some part_image ps
      | None => None
      end
  | _ => None
  end.

Definition reasoning_request (prompt : string) (sourceImage : FileData)
    : GenerateContentRequest :=
  mkRequest "gemini-3-flash-preview"
    [TextPart prompt; InlinePart (mimeType sourceImage) (base64 sourceImage)]
    (Some "0.2") None.

Definition render_request (masterPrompt : string) (sourceImage : FileData)
    : GenerateContentRequest :=
  mkRequest "gemini-3-pro-image-preview"
    [TextPart masterPrompt;
     InlinePart (mimeType sourceImage) (base64 sourceImage)]
    None
    (Some "You are a specialized 3D Wedding Visualizer. Transform the input sketch into a photorealistic render following the prompt exactly.").

Section Render.
Context {W : Type}.
Variable supabase : client W.

(** [ai.models.generateContent]: one remote call. *)
Variable generateContent :
  GenerateContentRequest -> W -> Res GenerateContentResponse * W.

(** [process.env.API_KEY]. *)
Variable API_KEY : option string.

Variable PHOTOGRAPHY_PRESETS : string -> option string.
Variable PHOTOGRAPHY_PRESETS_CINEMATIC : string.
Variable STRUCTURE_FIDELITY_PROMPT : string.
Variable REALISM_MODIFIERS : string.

Definition has_text (o : option string) : bool :=
  match o with
  | Some s => negb (s =? "")%string
  | None => false
  end.

Definition renderPrompt (basePrompt : string) (options : RenderOptions)
    : string :=
  generateRenderPrompt PHOTOGRAPHY_PRESETS PHOTOGRAPHY_PRESETS_CINEMATIC
    STRUCTURE_FIDELITY_PROMPT REALISM_MODIFIERS
    basePrompt (style options) (isAutoFocus options) (cameraPreset options).

(** The fallback of step 1: ask the flash model for a scene description; any
    failure falls back to the base description. *)
Definition reasoning_step (sourceImage : FileData)
    (options : RenderOptions) (base injection : string) : M W string :=
  try_catch
    (reasoningResponse <-
       callWithRetry_default
         (generateContent
            (reasoning_request (analysisPrompt base injection)
               sourceImage)) ;;
     let sceneDescription :=
       if has_text (response_text reasoningResponse)
       then match response_text reasoningResponse with
            | Some t => t
            | None => base
            end
       else base in
     ret (renderPrompt sceneDescription options))
    (fun _ => ret (renderPrompt base options)).

(** Step 1 of [generateWeddingRender]: the master prompt. *)
Definition masterPrompt_step (sourceImage : FileData)
    (options : RenderOptions) (base injection : string) : M W string :=
  if has_text (hiddenAIContext options) then
    ret (renderPrompt
           (base ++ newline ++ injection ++ newline
            ++ "CONTEXTUAL ANALYSIS FROM SOURCE: "
            ++ match hiddenAIContext options with
               | Some ctx => ctx
               | None => "undefined"
               end) options)
  else reasoning_step sourceImage options base injection.

Definition generateWeddingRender (sourceImage : FileData)
    (options : RenderOptions) : M W RenderResult :=
  if negb (has_text API_KEY) then
    throw (Error "API Key is missing. Please set REACT_APP_GEMINI_API_KEY or process.env.API_KEY")
  else
    learning <- getLearningContext supabase (category options)
                  (style options) ;;
    let empowermentPrompt := getEmpowermentPrompt options in
    let base := baseDescription options empowermentPrompt in
    let injection := learningPromptInjection options learning in
    masterPrompt <- masterPrompt_step sourceImage options base injection ;;
    try_catch
      (renderResponse <-
         callWithRetry_default
           (generateContent (render_request masterPrompt sourceImage)) ;;
       match first_image renderResponse with
       | Some url =>
           id <- saveRenderHistory supabase options masterPrompt ;;
           ret (mkResult url id)
       | None => throw (Error "No image generated in the response.")
       end)
      (fun error => throw error).

End Render.

(** ** The persisted records and the filtered read *)

(** A [RenderRecord] of the [render_history] relation. [created_at] is the
    creation time as a number. *)
Record RenderRecord : Type := mkRecord {
  rec_id : string;
  rec_category : string;
  rec_style : string;
  master_prompt : string;
  rating : option Z;
  feedback_tags : option (list string);
  created_at : Z
}.

(** The value of a column of a record, as the decoded response carries it. *)
Definition column (r : RenderRecord) (col : string) : value :=
  if (col =? "id")%string then JStr (rec_id r)
  else if (col =? "category")%string then JStr (rec_category r)
  else if (col =? "style")%string then JStr (rec_style r)
  else if (col =? "master_prompt")%string then JStr (master_prompt r)
  else if (col =? "rating")%string then
    match rating r with
    | Some n => JNum n
    | None => JNull
    end
  else if (col =? "feedback_tags")%string then
    match feedback_tags r with
    | Some tags => JArr (map JStr tags)
    | None => JNull
    end
  else if (col =? "created_at")%string then JNum (created_at r)
  else JUndefined.

(** [a] is at least as recent as [b]. *)
Definition at_least_as_recent (a b : RenderRecord) : Prop :=
  created_at b <= created_at a.

(** Insertion of a record into a list kept most recent first; among equal
    times the record stored earlier stays first. *)
Fixpoint insert_recent (r : RenderRecord) (l : list RenderRecord)
    : list RenderRecord :=
  match l with
  | [] => [r]
  | x :: rest =>
      if created_at x <=? created_at r then r :: l
      else x :: insert_recent r rest
  end.

Fixpoint most_recent_first (l : list RenderRecord) : list RenderRecord :=
  match l with
  | [] => []
  | r :: rest => insert_recent r (most_recent_first rest)
  end.

Fixpoint insert_oldest (r : RenderRecord) (l : list RenderRecord)
    : list RenderRecord :=
  match l with
  | [] => [r]
  | x :: rest =>
      if created_at r <=? created_at x then r :: l
      else x :: insert_oldest r rest
  end.

Fixpoint oldest_first (l : list RenderRecord) : list RenderRecord :=
  match l with
  | [] => []
  | r :: rest => insert_oldest r (oldest_first rest)
  end.

(** What a chain of builder calls asks for. *)
Record plan : Type := mkPlan {
  p_table : option string;
  p_column : option string;
  p_where : list (RenderRecord -> bool);
  p_order : option (string * bool);
  p_limit : option nat
}.

Definition empty_plan : plan := mkPlan None None [] None None.

(** [column = v], [column < v] and [column is not null] as SQL decides them:
    a comparison with a null column holds for no record. *)
Definition sql_eq (col : string) (v : value) (r : RenderRecord) : bool :=
  negb (nullish (column r col)) && same_value_zero (column r col) v.

Definition sql_lt (col : string) (v : value) (r : RenderRecord) : bool :=
  match column r col, v with
  | JNum x, JNum y => x <? y
  | _, _ => false
  end.

Definition sql_not_null (col : string) (r : RenderRecord) : bool :=
  negb (nullish (column r col)).

(** One builder call added to a plan; [None] for a call the model of the
    read does not cover. *)
Definition plan_call (p : plan) (c : call) : option plan :=
  match meth c, args c with
  | m_from, [JStr t] =>
      Some (mkPlan (Some t) (p_column p) (p_where p) (p_order p) (p_limit p))
  | m_select, [JStr col] =>
      Some (mkPlan (p_table p) (Some col) (p_where p) (p_order p) (p_limit p))
  | m_eq, [JStr col; v] =>
      Some (mkPlan (p_table p) (p_column p) (p_where p ++ [sql_eq col v])
              (p_order p) (p_limit p))
  | m_lt, [JStr col; v] =>
      Some (mkPlan (p_table p) (p_column p) (p_where p ++ [sql_lt col v])
              (p_order p) (p_limit p))
  | m_not, [JStr col; JStr op; JNull] =>
      if (op =? "is")%string then
        Some (mkPlan (p_table p) (p_column p) (p_where p ++ [sql_not_null col])
                (p_order p) (p_limit p))
      else None
  | m_order, [JStr col; JObj opts] =>
      Some (mkPlan (p_table p) (p_column p) (p_where p)
              (Some (col, truthy (lookup "ascending" opts))) (p_limit p))
  | m_limit, [JNum n] =>
      if 0 <=? n then
        Some (mkPlan (p_table p) (p_column p) (p_where p) (p_order p)
                (Some (Z.to_nat n)))
      else None
  | _, _ => None
  end.

Fixpoint plan_of (p : plan) (q : query) : option plan :=
  match q with
  | [] => Some p
  | c :: rest =>
      match plan_call p c with
      | Some p' => plan_of p' rest
      | None => None
      end
  end.

Definition satisfies (conds : list (RenderRecord -> bool))
    (r : RenderRecord) : bool :=
  forallb (fun c => c r) conds.

(** Modelled from the spec: the filtered read of the Persistence Service
    ("select records where field = value [, field2 op value2]*, order,
    limit"), which is a hosted service and no code of this repository. The
    records that satisfy every condition, in storage order or ordered by
    creation time, cut at the limit, each projected on the selected column;
    the answer is the response object the client decodes. *)
Definition run_read (table : list RenderRecord) (q : query) : option value :=
  match plan_of empty_plan q with
  | Some p =>
      match p_table p, p_column p with
      | Some t, Some col =>
          if (t =? "render_history")%string then
            let matching := filter (satisfies (p_where p)) table in
            let ordered :=
              match p_order p with
              | None => Some matching
              | Some (by_col, ascending) =>
                  if (by_col =? "created_at")%string then
                    Some (if ascending then oldest_first matching
                          else most_recent_first matching)
                  else None
              end in
            match ordered with
            | Some rows =>
                let cut :=
                  match p_limit p with
                  | Some n => firstn n rows
                  | None => rows
                  end in
                Some (JObj [("data",
                             JArr (map (fun r => JObj [(col, column r col)])
                                     cut));
                            ("error", JNull)])
            | None => None
            end
          else None
      | _, _ => None
      end
  | None => None
  end.

(** *** The learning context as the specification words it *)

(** A record is a high-rated example for (category, style). *)
Definition is_example (cat sty : string) (r : RenderRecord) : bool :=
  (rec_category r =? cat)%string && (rec_style r =? sty)%string
  && match rating r with
     | Some n => n =? 5
     | None => false
     end.

(** A record is a low-rated, tagged record of the category. *)
Definition is_complaint (cat : string) (r : RenderRecord) : bool :=
  (rec_category r =? cat)%string
  && match rating r with
     | Some n => n <? 3
     | None => false
     end
  && match feedback_tags r with
     | Some _ => true
     | None => false
     end.

Definition tags_of (r : RenderRecord) : list string :=
  match feedback_tags r with
  | Some tags => tags
  | None => []
  end.

(** The distinct strings of a list, each at its first occurrence. *)
Fixpoint distinct (l : list string) : list string :=
  match l with
  | [] => []
  | x :: rest => x :: filter (fun y => negb (x =? y)%string) (distinct rest)
  end.

Definition example_separator : string := "
--- EXAMPLE ---
".

(** Up to 3 most-recent records with rating exactly 5 for (category, style),
    and their instruction texts. *)
Definition chosen_examples (table : list RenderRecord) (cat sty : string)
    : list RenderRecord :=
  firstn 3 (most_recent_first (filter (is_example cat sty) table)).

Definition spec_examples (table : list RenderRecord) (cat sty : string)
    : string :=
  String.concat example_separator
    (map master_prompt (chosen_examples table cat sty)).

(** Up to 10 records with rating below 3 for the category, style ignored,
    null tag sets left out; their tags flattened, de-duplicated, the first 5
    distinct values. *)
Definition chosen_complaints (table : list RenderRecord) (cat : string)
    : list RenderRecord :=
  firstn 10 (filter (is_complaint cat) table).

Definition spec_constraints (table : list RenderRecord) (cat : string)
    : string :=
  String.concat ", "
    (firstn 5 (distinct (flat_map tags_of (chosen_complaints table cat)))).

(** A client that answers the reads over a table it holds as its state, and
    rejects what the model of the read does not cover. *)
Definition table_client : client (list RenderRecord) :=
  fun q table =>
    match run_read table q with
    | Some response => (Ok response, table)
    | None => (Throw (Error "unsupported request"), table)
    end.

(** ** Observations on a run of the retry loop *)

(** The number of invocations of the operation in a trace. *)
Fixpoint attempts (tr : list event) : nat :=
  match tr with
  | [] => O
  | EvCall :: rest => S (attempts rest)
  | _ :: rest => attempts rest
  end.

(** The durations of the sleeps of a trace, in order. *)
Fixpoint delays (tr : list event) : list Z :=
  match tr with
  | [] => []
  | EvSleep ms :: rest => ms :: delays rest
  | _ :: rest => delays rest
  end.

(** The first [n] delays of the exponential backoff:
    [initialDelay, 2·initialDelay, ..., 2^(n-1)·initialDelay]. *)
Definition backoff (initialDelay : Z) (n : nat) : list Z :=
  map (fun k => 2 ^ Z.of_nat k * initialDelay) (seq 0 n).

(** The remote state after [k] successive invocations of an operation, and
    the outcome of the invocation that follows them. *)
Fixpoint state_after {W T} (fn : @operation W T) (k : nat) (w : W) : W :=
  match k with
  | O => w
  | S k' => state_after fn k' (snd (fn w))
  end.

Definition nth_outcome {W T} (fn : @operation W T) (k : nat) (w : W)
    : Res T :=
  fst (fn (state_after fn k w)).

(** The events of [n] failed rounds from iteration [i]: the call, the
    warning, the sleep. *)
Fixpoint failed_rounds (retries i delay : Z) (n : nat) : list event :=
  match n with
  | O => []
  | S n' =>
      [EvCall; EvWarn (i + 1) retries delay; EvSleep delay]
      ++ failed_rounds retries (i + 1) (delay * 2) n'
  end.

(** The signals the specification lists for a transient error: the
    unavailable code at the top level or in a wrapped error, or a marker in
    the message text. *)
Definition listed_signal (e : value) : Prop :=
  is_num (opt_get e "status") 503 = true
  \/ is_num (opt_get e "code") 503 = true
  \/ is_num (opt_get (opt_get e "error") "code") 503 = true
  \/ opt_get (opt_get e "error") "status" = JStr "UNAVAILABLE"
  \/ exists m, opt_get e "message" = JStr m
               /\ (includes m "overloaded" = true \/ includes m "503" = true).

(** The same signals with the markers looked for in [text], the text the
    classification searches. *)
Definition load_signal (e : value) (text : string) : Prop :=
  includes text "overloaded" = true
  \/ includes text "503" = true
  \/ is_num (opt_get e "status") 503 = true
  \/ is_num (opt_get e "code") 503 = true
  \/ is_num (opt_get (opt_get e "error") "code") 503 = true
  \/ opt_get (opt_get e "error") "status" = JStr "UNAVAILABLE".

(** The options with every choice left at the sentinel. *)
Definition all_none (o : RenderOptions) : Prop :=
  category o = "none" /\ style o = "none" /\ colorPalette o = "none"
  /\ surfaceMaterial o = "none" /\ textileMaterial o = "none"
  /\ textileColor1 o = "none" /\ textileColor2 o = "none".

(** The options with a concrete value for every choice. *)
Definition all_concrete (o : RenderOptions) : Prop :=
  category o <> "none" /\ style o <> "none" /\ colorPalette o <> "none"
  /\ surfaceMaterial o <> "none" /\ textileMaterial o <> "none"
  /\ textileColor1 o <> "none" /\ textileColor2 o <> "none".

(** ** Sample collaborators and inputs *)

(** An operation over a call counter: rejected with the unavailable status
    on its first two invocations, fulfilled from the third on. *)
Definition flaky_operation : @operation nat string :=
  fun calls =>
    if Nat.ltb calls 2
    then (Throw (JObj [("status", JNum 503)]), S calls)
    else (Ok "rendered", S calls).

(** An operation that is always rejected as overloaded, with the number of
    the attempt in the error. *)
Definition overloaded_operation : @operation nat string :=
  fun calls =>
    (Throw (JObj [("message", JStr "The model is overloaded");
                  ("attempt", JNum (Z.of_nat calls))]), S calls).

(** An operation rejected for a bad request. *)
Definition invalid_operation : @operation nat string :=
  fun calls =>
    (Throw (JObj [("message", JStr "API key not valid"); ("code", JNum 400)]),
     S calls).

(** An error without a message and without any of the listed signals, whose
    serialisation holds the digits 503. *)
Definition unlisted_error : value := JObj [("code", JNum 1503)].

(** An error that carries the unavailable status and a message that is no
    string. *)
Definition unreadable_error : value :=
  JObj [("message", JNum 42); ("status", JNum 503)].

(** The overload error of the generation service. *)
Definition overloaded_error : value :=
  JObj [("message", JStr "The model is overloaded. Please try again later.");
        ("code", JNum 429)].

Definition options_all_none : RenderOptions :=
  mkOptions "none" "none" "none" "none" "none" "none" "none"
    "" false "CINEMATIC" None.

(** A selection of a textile material alone, with one of its colours. *)
Definition options_textile : RenderOptions :=
  mkOptions "none" "none" "none" "none" "silk" "none" "ivory"
    "" false "CINEMATIC" None.

Definition options_all_concrete : RenderOptions :=
  mkOptions "stage" "rustic" "pastel" "marble" "silk" "ivory" "gold"
    "" true "CINEMATIC" None.

(** A persistence client that reports an error for every request, the way
    the hosted service answers a request it cannot serve. *)
Definition reporting_client : client unit :=
  fun _ w =>
    (Ok (JObj [("data", JNull);
               ("error", JObj [("message", JStr "no rows updated");
                               ("code", JStr "PGRST116")])]), w).

Definition sample_image : FileData := mkFile "c2tldGNo" "image/png".

(** A generation service that answers the image model with one image and
    rejects every other request as unavailable. *)
Definition sample_generateContent
    : GenerateContentRequest -> unit -> Res GenerateContentResponse * unit :=
  fun req w =>
    if (model req =? "gemini-3-pro-image-preview")%string
    then (Ok (mkResponse
                (Some [mkCandidate
                         (Some [mkPart
                                  (Some (mkInline (Some "image/png")
                                           (Some "cmVuZGVy")))])])
                None), w)
    else (Throw (JObj [("status", JNum 503)]), w).

Definition sample_presets (key : string) : option string :=
  if (key =? "CINEMATIC")%string then Some "cinematic 35mm" else None.

(** A table of eight records: four five-star renders of a rustic stage,
    low-rated tagged ones of the same and of another category, and a render
    not rated yet. *)
Definition sample_table : list RenderRecord :=
  [ mkRecord "r1" "stage" "rustic" "prompt one" (Some 5) None 10;
    mkRecord "r2" "stage" "rustic" "prompt two" (Some 5) None 40;
    mkRecord "r3" "stage" "modern" "prompt three" (Some 2)
      (Some ["too dark"; "blurry"]) 20;
    mkRecord "r4" "stage" "rustic" "prompt four" (Some 5) None 30;
    mkRecord "r5" "stage" "rustic" "prompt five" (Some 1)
      (Some ["blurry"; "wrong colors"]) 50;
    mkRecord "r6" "stage" "rustic" "prompt six" (Some 5) None 20;
    mkRecord "r7" "gate" "rustic" "prompt seven" (Some 1) (Some ["flat"]) 60;
    mkRecord "r8" "stage" "rustic" "prompt eight" None None 70 ].

(** * Part I, continued: the rest of the service and its callers *)

(** ** More observations on a run of the retry loop *)

(** The time slept in a trace, in milliseconds. *)
Definition total_delay (tr : list event) : Z :=
  fold_right Z.add 0 (delays tr).

(** How a run of the loop ends, by the outcome of its last invocation, the
    [n + 1]-th from iteration [i]: fulfilled, the value is returned;
    rejected, the error is thrown if it is no load error or if no attempt
    remains; and where the classification throws, its error is thrown. *)
Definition run_end {T : Type} (retries i : Z) (n : nat)
    (last result : Res T) : Prop :=
  match last with
  | Ok v => result = Ok v
  | Throw e =>
      match isLoadError e with
      | Ok load =>
          result = Throw e
          /\ (load = false \/ i + Z.of_nat n = retries - 1)
      | Throw t => result = Throw t
      end
  end.

(** An operation rejected with [undefined] ([Promise.reject()]). *)
Definition undefined_operation : @operation nat string :=
  fun calls => (Throw JUndefined, S calls).

(** An operation rejected with an error whose message is its numeric
    code. *)
Definition coded_operation : @operation nat string :=
  fun calls => (Throw (JObj [("message", JNum 404)]), S calls).

(** ** More sample collaborators *)

(** A persistence client that rejects every request (no network). *)
Definition rejecting_client : client unit :=
  fun _ w => (Throw (Error "Failed to fetch"), w).

(** A generation service whose answer holds its image in the second
    candidate only; the first candidate holds a part without image data. *)
Definition second_candidate_generateContent
    : GenerateContentRequest -> unit -> Res GenerateContentResponse * unit :=
  fun _ w =>
    (Ok (mkResponse
           (Some [mkCandidate (Some [mkPart None]);
                  mkCandidate
                    (Some [mkPart (Some (mkInline (Some "image/png")
                                           (Some "cmVuZGVy")))])])
           (Some "a description")), w).

(** ** The other generation functions *)

(** The double-precision numbers of the runtime, by the operations the
    service applies to them: the number a literal of the source denotes,
    the comparisons, the division, ToBoolean and the text a template prints.
    Floating-point arithmetic is left to the runtime. *)
Record Numbers : Type := mkNumbers {
  number : Type;
  num_lit : string -> number;
  num_lt : number -> number -> bool;
  num_gt : number -> number -> bool;
  num_div : number -> number -> number;
  num_truthy : number -> bool;
  num_text : number -> string
}.

(** Modelled from the spec: [ClickPoint] and [IdeaAsset] of [types.ts],
    which is not among the sources, by the fields the service and the
    components read ([x], [y]; [id], [x], [y], [image], [label]). *)
Record ClickPoint (N : Numbers) : Type := mkPoint {
  point_x : number N;
  point_y : number N
}.
Arguments mkPoint {N} point_x point_y.
Arguments point_x {N} c.
Arguments point_y {N} c.

Record IdeaAsset (N : Numbers) : Type := mkAsset {
  asset_id : string;
  asset_x : number N;
  asset_y : number N;
  asset_image : option FileData;
  asset_label : string
}.
Arguments mkAsset {N} asset_id asset_x asset_y asset_image asset_label.
Arguments asset_id {N} i.
Arguments asset_x {N} i.
Arguments asset_y {N} i.
Arguments asset_image {N} i.
Arguments asset_label {N} i.

(** The image [generateHighQualityImage] is given, with its optional
    dimensions. *)
Record SizedImage (N : Numbers) : Type := mkSized {
  sized_mimeType : string;
  sized_base64 : string;
  sized_width : option (number N);
  sized_height : option (number N)
}.
Arguments mkSized {N} sized_mimeType sized_base64 sized_width sized_height.
Arguments sized_mimeType {N} s.
Arguments sized_base64 {N} s.
Arguments sized_width {N} s.
Arguments sized_height {N} s.

(** A request with an [imageConfig], which [GenerateContentRequest] has no
    field for. *)
Record ImageRequest : Type := mkImageRequest {
  image_request : GenerateContentRequest;
  aspectRatio : string;
  imageSize : string
}.

(** [response.candidates?.[0]?.content?.parts?.[0]?.inlineData?.data], and
    the [data:] URL built from that first part. *)
Definition first_part_image (r : GenerateContentResponse) : option string :=
  match candidates r with
  | Some (c :: _) =>
      match content_parts c with
      | Some (p :: _) => part_image p
      | _ => None
      end
  | _ => None
  end.

(** The images of the parts of one candidate, and of all candidates, as the
    loops of [generateHighQualityImage] push them. *)
Definition candidate_images (c : Candidate) : list string :=
  match content_parts c with
  | Some ps =>
      flat_map (fun p => match part_image p with
                         | Some url => [url]
                         | None => []
                         end) ps
  | None => []
  end.

Definition all_images (r : GenerateContentResponse) : list string :=
  match candidates r with
  | Some cs => flat_map candidate_images cs
  | None => []
  end.

Definition option_truthy {A} (truthy_of : A -> bool) (o : option A) : bool :=
  match o with
  | Some a => truthy_of a
  | None => false
  end.

(** [getLocationDescription]. *)
Definition getLocationDescription (N : Numbers) (x y : number N) : string :=
  let vertical :=
    if num_lt N y (num_lit N "35") then "Top/Background"
    else if num_gt N y (num_lit N "65") then "Bottom/Foreground"
    else "Middle ground" in
  let horizontal :=
    if num_lt N x (num_lit N "35") then "Left side"
    else if num_gt N x (num_lit N "65") then "Right side"
    else "Center" in
  vertical ++ " - " ++ horizontal ++ " (approx " ++ num_text N x ++ "%, "
  ++ num_text N y ++ "%)".

(** The instruction [generateIdeaRender] opens an asset with: by the image
    it refers to, or by the label alone. *)
Definition asset_opening {N : Numbers} (index : nat) (asset : IdeaAsset N)
    : string :=
  match asset_image asset with
  | Some _ =>
      newline ++ "[OBJECT " ++ dec (Z.of_nat index + 1)
      ++ "]: Use the image provided in Part #" ++ dec (Z.of_nat index + 2)
      ++ " as a visual reference." ++ newline
  | None =>
      newline ++ "[OBJECT " ++ dec (Z.of_nat index + 1)
      ++ "]: No visual reference provided, generate based on label: "
      ++ dquote ++ asset_label asset ++ dquote ++ "." ++ newline
  end.

(** The three lines that follow it. *)
Definition asset_placement {N : Numbers} (asset : IdeaAsset N) : string :=
  "   - IDENTITY: " ++ asset_label asset ++ newline
  ++ "   - LOCATION: Place this object at the "
  ++ getLocationDescription N (asset_x asset) (asset_y asset)
  ++ " of the scene." ++ newline
  ++ "   - INTEGRATION: Blend it realistically into the environment with correct lighting and perspective matching the Base Sketch."
  ++ newline.

(** [assets.forEach((asset, index) => ...)] from [index] on: the request
    parts and the instructions it leaves. *)
Fixpoint place_assets {N : Numbers} (index : nat) (assets : list (IdeaAsset N))
    (requestParts : list RequestPart) (assetInstructions : string)
    : list RequestPart * string :=
  match assets with
  | [] => (requestParts, assetInstructions)
  | asset :: rest =>
      place_assets (S index) rest
        (match asset_image asset with
         | Some img =>
             requestParts ++ [InlinePart (mimeType img) (base64 img)]
         | None => requestParts
         end)
        (assetInstructions ++ asset_opening index asset
         ++ asset_placement asset)
  end.

Definition idea_masterPrompt (assetInstructions : string) : string :=
  "
     " ++ assetInstructions ++ "

     FINAL RENDERING RULES:
     1. PRESERVE STRUCTURE: Keep the architectural layout of the 'Base Sketch' exactly as is.
     2. REALISM: Render the entire scene as a high-end luxury wedding photograph (8k, cinematic lighting).
     3. MATERIALS: Use the visual references provided for the objects to match their texture and color exactly.
     4. HARMONY: Ensure all placed objects cast correct shadows and reflect the environment lighting.
     ".

(** The parts of the request of [generateIdeaRender]. *)
Definition idea_request_parts {N : Numbers} (sketch : FileData)
    (assets : list (IdeaAsset N)) : list RequestPart :=
  let placed :=
    place_assets 0 assets [InlinePart (mimeType sketch) (base64 sketch)]
      "TASK: COMPOSITE RENDERING.
BASE IMAGE: The first image provided is the 'Base Sketch'.

OBJECT PLACEMENT INSTRUCTIONS:
" in
  fst placed ++ [TextPart (idea_masterPrompt (snd placed))].

(** What [generateAdvancedEdit] prepares before the call: the parts after
    the source image, the system instruction and the prompt; or the error of
    a mode that lacks its data. *)
Definition prepare_edit {N : Numbers} (editMode : string)
    (secondaryImageData : option FileData)
    (targetClickPoints : option (list (ClickPoint N)))
    (additionalPrompt : option string)
    : Res (list RequestPart * string * string) :=
  if (editMode =? "NOTE")%string then
    match secondaryImageData with
    | None => Throw (Error "Annotated image required")
    | Some img =>
        Ok ([InlinePart (mimeType img) (base64 img)],
            "You are an AI image editor.",
            "TASK: PHOTOREALISTIC EDITING." ++ newline
            ++ (if has_text additionalPrompt
                then "USER INSTRUCTIONS: "
                     ++ match additionalPrompt with
                        | Some t => t
                        | None => ""
                        end
                else "Follow annotations."))
    end
  else if (editMode =? "SWAP")%string then
    match secondaryImageData, targetClickPoints with
    | Some img, Some points =>
        Ok ([InlinePart (mimeType img) (base64 img)],
            "AI object replacement specialist.",
            "TASK: OBJECT REPLACEMENT at "
            ++ String.concat ", "
                 (map (fun p => "(X:" ++ num_text N (point_x p) ++ "%, Y:"
                                ++ num_text N (point_y p) ++ "%)") points)
            ++ ".")
    | _, _ => Throw (Error "Swap data required")
    end
  else Ok ([], "", "").

Section Generation.
Context {W : Type}.
Variable generateContent :
  GenerateContentRequest -> W -> Res GenerateContentResponse * W.

(** The same call of the SDK, for a request with an [imageConfig]. *)
Variable generateImage :
  ImageRequest -> W -> Res GenerateContentResponse * W.

Variable API_KEY : option string.
Variable N : Numbers.

Definition generatePromptFromImageAndText (image : FileData)
    (instruction : string) : M W string :=
  if negb (has_text API_KEY) then throw (Error "API Key is missing.")
  else
    try_catch
      (response <-
         callWithRetry_default
           (generateContent
              (mkRequest "gemini-3-flash-preview"
                 [TextPart instruction;
                  InlinePart (mimeType image) (base64 image)]
                 (Some "0.4") None)) ;;
       ret (if has_text (response_text response)
            then match response_text response with
                 | Some t => t
                 | None => ""
                 end
            else "Không thể phân tích ảnh."))
      (fun error => throw error).

(** The aspect ratio [generateHighQualityImage] asks for. *)
Definition aspectRatio_of (sourceImage : SizedImage N) : string :=
  match sized_width sourceImage, sized_height sourceImage with
  | Some w, Some h =>
      if num_truthy N w && num_truthy N h then
        if num_gt N (num_div N w h) (num_lit N "1.5") then "16:9"
        else if num_gt N (num_div N w h) (num_lit N "1.0") then "4:3"
        else if num_lt N (num_div N w h) (num_lit N "0.6") then "9:16"
        else "3:4"
      else "16:9"
  | _, _ => "16:9"
  end.

Definition generateHighQualityImage (prompt resolution : string)
    (sourceImage : SizedImage N) : M W (list string) :=
  if negb (has_text API_KEY) then
    throw (Error "API Key is missing. Please set REACT_APP_GEMINI_API_KEY or process.env.API_KEY")
  else
    try_catch
      (response <-
         callWithRetry_default
           (generateImage
              (mkImageRequest
                 (mkRequest "gemini-3-pro-image-preview"
                    [InlinePart (sized_mimeType sourceImage)
                       (sized_base64 sourceImage);
                     TextPart prompt]
                    None (Some "You are an expert image upscaler."))
                 (aspectRatio_of sourceImage) resolution)) ;;
       let generatedImageUrls := all_images response in
       if Nat.eqb (List.length generatedImageUrls) 0
       then throw (Error "No image data returned from generateHighQualityImage.")
       else ret generatedImageUrls)
      (fun error => throw error).

Definition generateAdvancedEdit
    (sourceImageBase64 sourceImageMimeType editMode : string)
    (secondaryImageData : option FileData)
    (targetClickPoints : option (list (ClickPoint N)))
    (additionalPrompt : option string) : M W string :=
  if negb (has_text API_KEY) then throw (Error "API Key is missing.")
  else
    prepared <- lift (prepare_edit editMode secondaryImageData
                        targetClickPoints additionalPrompt) ;;
    let '(more_parts, systemInstruction, userPrompt) := prepared in
    try_catch
      (response <-
         callWithRetry_default
           (generateContent
              (mkRequest "gemini-3-pro-image-preview"
                 ([InlinePart sourceImageMimeType sourceImageBase64]
                  ++ more_parts ++ [TextPart userPrompt])
                 None (Some systemInstruction))) ;;
       match first_part_image response with
       | Some url => ret url
       | None => throw (Error "No image generated.")
       end)
      (fun error => throw error).

Definition generateSketch (base64 mime style res : string) : M W string :=
  if negb (has_text API_KEY) then throw (Error "API Key missing")
  else
    try_catch
      (response <-
         callWithRetry_default
           (generateContent
              (mkRequest "gemini-2.5-flash-image"
                 [InlinePart mime base64;
                  TextPart ("High quality " ++ style ++ " sketch.")]
                 None None)) ;;
       match first_part_image response with
       | Some url => ret url
       | None => throw (Error "No sketch generated")
       end)
      (fun e => throw e).

(** [if (onStatus) onStatus(text)]. *)
Definition report_status (onStatus : option (string -> M W unit))
    (text : string) : M W unit :=
  match onStatus with
  | Some f => f text
  | None => ret tt
  end.

Definition generateIdeaRender (sketch : FileData)
    (assets : list (IdeaAsset N)) (onStatus : option (string -> M W unit))
    : M W string :=
  if negb (has_text API_KEY) then throw (Error "API Key missing")
  else
    report_status onStatus "Đang phân tích và chuẩn bị dữ liệu hình ảnh..." ;;;
    let requestParts := idea_request_parts sketch assets in
    report_status onStatus "Đang thực hiện Render tổng hợp đa phương thức..." ;;;
    try_catch
      (response <-
         callWithRetry_default
           (generateContent
              (mkRequest "gemini-3-pro-image-preview" requestParts None
                 (Some "You are a professional 3D Compositor and Architectural Visualizer. Your goal is to take a base sketch and realistically populate it with specific reference objects at specific locations, creating a cohesive, photorealistic final image."))) ;;
       match first_part_image response with
       | Some url => ret url
       | None => throw (Error "Idea render failed: No image data.")
       end)
      (fun e => throw e).

End Generation.

(** The parts [place_assets] appends: the images of the assets that carry
    one, in order; and the instructions it appends. *)
Definition images_of {N : Numbers} (assets : list (IdeaAsset N))
    : list RequestPart :=
  flat_map (fun a => match asset_image a with
                     | Some img => [InlinePart (mimeType img) (base64 img)]
                     | None => []
                     end) assets.

Fixpoint asset_instructions {N : Numbers} (index : nat)
    (assets : list (IdeaAsset N)) : string :=
  match assets with
  | [] => ""
  | asset :: rest =>
      asset_opening index asset ++ asset_placement asset
      ++ asset_instructions (S index) rest
  end.

(** The text of the request of [generateIdeaRender]. *)
Definition idea_prompt_text {N : Numbers} (assets : list (IdeaAsset N))
    : string :=
  idea_masterPrompt
    ("TASK: COMPOSITE RENDERING.
BASE IMAGE: The first image provided is the 'Base Sketch'.

OBJECT PLACEMENT INSTRUCTIONS:
" ++ asset_instructions 0 assets).

(** A text is a [data:] URL with a payload. *)
Definition data_url (url : string) : Prop :=
  exists mime bytes,
    url = "data:" ++ mime ++ ";base64," ++ bytes /\ bytes <> "".

(** The digits before and after the point of a decimal literal. *)
Fixpoint literal_digits (lit : string) : string * string :=
  match lit with
  | EmptyString => ("", "")
  | String c rest =>
      if Ascii.eqb c "."%char then ("", rest)
      else let '(whole, fraction) := literal_digits rest in
           (String c whole, fraction)
  end.

(** The double a decimal literal of the source denotes ([35], [1.5],
    [0.6]): its digits, an integer, divided by the power of ten of its
    fraction. Both are doubles for the short literals of the source, and the
    division rounds the quotient as the literal is rounded. *)
Definition literal (lit : string) : float :=
  let '(whole, fraction) := literal_digits lit in
  match NilZero.uint_of_string (whole ++ fraction) with
  | Some d =>
      PrimFloat.div (number_of (Z.of_uint d))
        (number_of (10 ^ Z.of_nat (String.length fraction)))
  | None => PrimFloat.nan
  end.

(** The numbers of the runtime: IEEE 754 doubles with their comparison and
    division, ToBoolean and [Number::toString]. *)
Definition sample_numbers : Numbers :=
  mkNumbers float literal
    PrimFloat.ltb (fun a b => PrimFloat.ltb b a) PrimFloat.div
    (fun x => negb (PrimFloat.is_zero x || PrimFloat.is_nan x))
    number_text.

(** Three pinned assets, the second without a reference image. *)
Definition sample_assets : list (IdeaAsset sample_numbers) :=
  [ @mkAsset sample_numbers "a1" 20%float 30%float
      (Some (mkFile "YXJjaA==" "image/png")) "arch";
    @mkAsset sample_numbers "a2" 50%float 50%float None "aisle";
    @mkAsset sample_numbers "a3" 80%float 70%float
      (Some (mkFile "dmFzZQ==" "image/jpeg")) "vase" ].

(** An image service that answers with two candidates, an image in each. *)
Definition sample_generateImage
    : ImageRequest -> unit -> Res GenerateContentResponse * unit :=
  fun _ w =>
    (Ok (mkResponse
           (Some [mkCandidate
                    (Some [mkPart (Some (mkInline (Some "image/png")
                                           (Some "b25l")))]);
                  mkCandidate
                    (Some [mkPart None;
                           mkPart (Some (mkInline (Some "image/png")
                                           (Some "dHdv")))])])
           None), w).

Definition sample_sized_image : SizedImage sample_numbers :=
  @mkSized sample_numbers "image/jpeg" "c2tldGNo"
    (Some 1600%float) (Some 900%float).

(** ** The rating widget ([RatingSystem.tsx]) *)

(** [toggleTag], as the update it passes to [setSelectedTags]. *)
Definition toggleTag (tag : string) (prev : list string) : list string :=
  if existsb (String.eqb tag) prev
  then filter (fun t => negb (t =? tag)%string) prev
  else (prev ++ [tag])%list.

(** The state of the widget, with what it shows to the user besides: the
    alerts raised and the timers set (each to call [onRated]). *)
Record RatingState : Type := mkRating {
  star_rating : Z;
  selectedTags : list string;
  isSubmitting : bool;
  isSuccess : bool;
  alerts : list string;
  timers : list Z
}.

Section Rating.
Context {W : Type}.
Variable supabase : client W.

(** [handleSubmit], for the widget of [renderId] with its optional
    [onReward]: the state it leaves once it has settled ([isSubmitting] is
    set before the [try] and cleared by the [finally]). *)
Definition handleSubmit (renderId : string)
    (onReward : option (Z -> M W unit)) (st : RatingState)
    : M W RatingState :=
  if (renderId =? "")%string then ret st
  else
    try_catch
      (submitFeedback supabase renderId (star_rating st) (selectedTags st) ;;;
       match onReward with
       | Some reward => reward 1
       | None => ret tt
       end ;;;
       ret (mkRating (star_rating st) (selectedTags st) false true
              (alerts st) (timers st ++ [2000])))
      (fun _ =>
         ret (mkRating (star_rating st) (selectedTags st) false
                (isSuccess st)
                (alerts st ++ ["Có lỗi xảy ra khi gửi đánh giá."])
                (timers st))).

End Rating.

(** A reward callback that counts the credits granted in the remote state. *)
Definition counting_reward : Z -> M Z unit :=
  fun amount s => (Ok tt, mkWorld (remote s + amount) (trace s)).

Definition sample_rating_state : RatingState :=
  mkRating 2 ["Sai màu sắc"] false false [] [].

(** [prev.includes(t)]: the tag is in the selection. *)
Definition selected (t : string) (selection : list string) : bool :=
  existsb (String.eqb t) selection.

(** The selection after a sequence of clicks on tags, from a selection. *)
Definition click_tags (clicks : list string) (selection : list string)
    : list string :=
  fold_left (fun sel tag => toggleTag tag sel) clicks selection.

(** ** The pinned assets ([IdeaGenerator.tsx]) *)

(** The list [updateAssetImage] and the list [removeAsset] pass to
    [onStateChange]. *)
Definition updateAssetImage {N : Numbers} (id : string) (file : FileData)
    (assets : list (IdeaAsset N)) : list (IdeaAsset N) :=
  map (fun a => if (asset_id a =? id)%string
                then mkAsset (asset_id a) (asset_x a) (asset_y a) (Some file)
                       (asset_label a)
                else a) assets.

Definition removeAsset {N : Numbers} (id : string)
    (assets : list (IdeaAsset N)) : list (IdeaAsset N) :=
  filter (fun a => negb (asset_id a =? id)%string) assets.

(** The tags the constraints are joined from. *)
Definition constraint_tags (table : list RenderRecord) (cat : string)
    : list string :=
  firstn 5 (distinct (flat_map tags_of (chosen_complaints table cat))).

(** Case analysis on which of the seven fields hold the sentinel. *)
Ltac split_sentinels o :=
  destruct (category o =? "none")%string eqn:?Hcat;
  destruct (style o =? "none")%string eqn:?Hsty;
  destruct (colorPalette o =? "none")%string eqn:?Hpal;
  destruct (surfaceMaterial o =? "none")%string eqn:?Hsur;
  destruct (textileMaterial o =? "none")%string eqn:?Hmat;
  destruct (textileColor1 o =? "none")%string eqn:?Hc1;
  destruct (textileColor2 o =? "none")%string eqn:?Hc2.

(* ================================================================= *)
(** * Part II: the properties *)
(* ================================================================= *)

(** ** The monad *)

Lemma bind_ok {W A B} (c : M W A) (k : A -> M W B) s a s' :
  c s = (Ok a, s') -> bind c k s = k a s'.
Proof. unfold bind. intros ->. reflexivity. Qed.

Lemma bind_throw {W A B} (c : M W A) (k : A -> M W B) s e s' :
  c s = (Throw e, s') -> bind c k s = (Throw e, s').
Proof. unfold bind. intros ->. reflexivity. Qed.

Lemma try_catch_ok {W A} (c : M W A) h s a s' :
  c s = (Ok a, s') -> try_catch c h s = (Ok a, s').
Proof. unfold try_catch. intros ->. reflexivity. Qed.

Lemma try_catch_throw {W A} (c : M W A) h s e s' :
  c s = (Throw e, s') -> try_catch c h s = h e s'.
Proof. unfold try_catch. intros ->. reflexivity. Qed.

(** ** callWithRetry *)

Section RetryFacts.
Context {W T : Type}.
Variable fn : @operation W T.
Variable retries : Z.

Lemma invoke_eq s r w' :
  fn (remote s) = (r, w') ->
  invoke fn s = (r, mkWorld w' (trace s ++ [EvCall])).
Proof. unfold invoke. intros ->. reflexivity. Qed.

(** One turn of the loop whose invocation is fulfilled. *)
Lemma retry_loop_success fuel i delay lastError s v w' :
  i < retries ->
  fn (remote s) = (Ok v, w') ->
  retry_loop fn retries (S fuel) i delay lastError s
  = (Ok v, mkWorld w' (trace s ++ [EvCall])).
Proof.
  intros Hi Hfn. simpl.
  apply Z.ltb_lt in Hi. rewrite Hi.
  apply try_catch_ok. now apply invoke_eq.
Qed.

(** One turn whose invocation is rejected with a load error while attempts
    remain: warn, sleep, double the delay, go on. *)
Lemma retry_loop_retry fuel i delay lastError s e w' :
  i < retries - 1 ->
  fn (remote s) = (Throw e, w') ->
  isLoadError e = Ok true ->
  retry_loop fn retries (S fuel) i delay lastError s
  = retry_loop fn retries fuel (i + 1) (delay * 2) e
      (mkWorld w' (trace s ++ [EvCall; EvWarn (i + 1) retries delay;
                               EvSleep delay])).
Proof.
  intros Hi Hfn Hload. simpl.
  assert (Hlt : (i <? retries) = true) by (apply Z.ltb_lt; lia).
  rewrite Hlt.
  rewrite (try_catch_throw _ _ _ _ _ (invoke_eq _ _ _ Hfn)).
  unfold bind at 1, lift. rewrite Hload. cbn [andb].
  apply Z.ltb_lt in Hi. rewrite Hi.
  unfold bind, emit. cbn [remote trace].
  rewrite <- !app_assoc. reflexivity.
Qed.

(** One turn whose invocation is rejected and ends the loop: the error is no
    load error, or no attempt remains. *)
Lemma retry_loop_give_up fuel i delay lastError s e w' load :
  i < retries ->
  fn (remote s) = (Throw e, w') ->
  isLoadError e = Ok load ->
  load = false \/ retries - 1 <= i ->
  retry_loop fn retries (S fuel) i delay lastError s
  = (Throw e, mkWorld w' (trace s ++ [EvCall])).
Proof.
  intros Hi Hfn Hload Hend. simpl.
  apply Z.ltb_lt in Hi. rewrite Hi.
  rewrite (try_catch_throw _ _ _ _ _ (invoke_eq _ _ _ Hfn)).
  unfold bind at 1, lift. rewrite Hload.
  assert (Hc : load && (i <? retries - 1) = false).
  { destruct Hend as [-> | Hge]; [reflexivity |].
    apply andb_false_iff. right. apply Z.ltb_ge. lia. }
  rewrite Hc. reflexivity.
Qed.

(** [n] rounds rejected with load errors, attempts remaining: the loop is at
    iteration [i + n], the operation was invoked [n] times and the delay
    doubled [n] times. *)
Lemma retry_loop_rounds n :
  forall fuel i delay lastError s,
    i + Z.of_nat n < retries ->
    (forall k, (k < n)%nat ->
       exists e, nth_outcome fn k (remote s) = Throw e
                 /\ isLoadError e = Ok true) ->
    exists lastError',
      retry_loop fn retries (n + S fuel) i delay lastError s
      = retry_loop fn retries (S fuel) (i + Z.of_nat n)
          (delay * 2 ^ Z.of_nat n) lastError'
          (mkWorld (state_after fn n (remote s))
             (trace s ++ failed_rounds retries i delay n)).
Proof.
  induction n as [| n IH]; intros fuel i delay lastError s Hi Hfail.
  - exists lastError. cbn [failed_rounds Nat.add state_after].
    rewrite app_nil_r, Z.add_0_r, Z.mul_1_r. now destruct s.
  - destruct (Hfail O ltac:(lia)) as (e & He & Hload).
    unfold nth_outcome in He. cbn [state_after] in He.
    destruct (fn (remote s)) as [r w'] eqn:Hfn. cbn [fst] in He. subst r.
    cbn [Nat.add].
    assert (Hi1 : i < retries - 1) by lia.
    rewrite (retry_loop_retry (n + S fuel)%nat i delay lastError s e w' Hi1 Hfn Hload).
    destruct (IH fuel (i + 1) (delay * 2) e
                (mkWorld w' (trace s ++ [EvCall; EvWarn (i + 1) retries delay;
                                         EvSleep delay])))
      as [le Heq].
    + lia.
    + intros k Hk. cbn [remote].
      destruct (Hfail (S k) ltac:(lia)) as (e' & He' & Hload').
      exists e'. split; [| exact Hload'].
      unfold nth_outcome in *. cbn [state_after] in He'.
      now rewrite Hfn in He'.
    + exists le. rewrite Heq. cbn [remote trace state_after failed_rounds].
      rewrite Hfn. cbn [snd].
      rewrite <- !app_assoc.
      replace (i + 1 + Z.of_nat n) with (i + Z.of_nat (S n)) by lia.
      replace (delay * 2 * 2 ^ Z.of_nat n) with (delay * 2 ^ Z.of_nat (S n)).
      * reflexivity.
      * rewrite Nat2Z.inj_succ, Z.pow_succ_r by lia. ring.
Qed.

(** The loop never runs out of turns: it takes [retries - i] of them at
    most, so more fuel changes nothing. *)
Lemma retry_loop_fuel_enough fuel :
  forall i delay lastError s,
    retries - i <= Z.of_nat fuel ->
    retry_loop fn retries fuel i delay lastError s
    = retry_loop fn retries (Z.to_nat (retries - i)) i delay lastError s.
Proof.
  induction fuel as [| fuel IH]; intros i delay lastError s Hfuel.
  - replace (Z.to_nat (retries - i)) with O by lia. reflexivity.
  - destruct (Z.ltb_spec i retries) as [Hlt | Hge].
    + replace (Z.to_nat (retries - i))
        with (S (Z.to_nat (retries - (i + 1)))) by lia.
      cbn [retry_loop].
      apply Z.ltb_lt in Hlt. rewrite Hlt.
      unfold try_catch. destruct (invoke fn s) as [[v | e] s1]; [reflexivity |].
      unfold bind, lift, emit.
      destruct (isLoadError e) as [load | e']; [| reflexivity].
      destruct (load && (i <? retries - 1)); [| reflexivity].
      apply IH. lia.
    + replace (Z.to_nat (retries - i)) with O by lia.
      cbn [retry_loop].
      apply Z.ltb_ge in Hge. now rewrite Hge.
Qed.

Lemma attempts_app a b : attempts (a ++ b) = (attempts a + attempts b)%nat.
Proof.
  induction a as [| ev a IH]; [reflexivity |].
  destruct ev; cbn; rewrite IH; reflexivity.
Qed.

Lemma delays_app a b : delays (a ++ b) = (delays a ++ delays b)%list.
Proof.
  induction a as [| ev a IH]; [reflexivity |].
  destruct ev; cbn; rewrite IH; reflexivity.
Qed.

Lemma attempts_failed_rounds n :
  forall i delay, attempts (failed_rounds retries i delay n) = n.
Proof.
  induction n as [| n IH]; intros i delay; [reflexivity |].
  cbn. now rewrite IH.
Qed.

Lemma backoff_succ delay n :
  backoff delay (S n) = delay :: backoff (delay * 2) n.
Proof.
  unfold backoff. cbn [seq map]. f_equal.
  - change (2 ^ Z.of_nat 0) with 1. lia.
  - rewrite <- seq_shift, map_map. apply map_ext. intros k.
    rewrite Nat2Z.inj_succ, Z.pow_succ_r by lia. ring.
Qed.

Lemma delays_failed_rounds n :
  forall i delay, delays (failed_rounds retries i delay n) = backoff delay n.
Proof.
  induction n as [| n IH]; intros i delay; [reflexivity |].
  rewrite backoff_succ. cbn. now rewrite IH.
Qed.

End RetryFacts.

Section RetryClaims.
Context {W T : Type}.
Variable fn : @operation W T.

(** C3. An operation rejected with a transient error on its first [N - 1]
    invocations and fulfilled on the [N]-th, with [1 <= N <= retries]:
    [callWithRetry] invokes it exactly [N] times, returns the fulfilled value
    and sleeps exactly [N - 1] times, for [delay], [2·delay], ...,
    [2^(N-2)·delay] in that order. With [N = 1]: one call, no sleep. *)
Theorem callWithRetry_fails_then_succeeds
    (retries delay : Z) (w : W) (N : nat) (v : T) :
  (1 <= N)%nat ->
  Z.of_nat N <= retries ->
  (forall k, (k < N - 1)%nat ->
     exists e, nth_outcome fn k w = Throw e /\ isLoadError e = Ok true) ->
  nth_outcome fn (N - 1) w = Ok v ->
  let out := callWithRetry fn retries delay (mkWorld w []) in
  fst out = Ok v
  /\ attempts (trace (snd out)) = N
  /\ delays (trace (snd out)) = backoff delay (N - 1).
Proof.
  intros HN Hle Hfail Hok out. subst out.
  destruct N as [| n]; [lia |].
  replace (S n - 1)%nat with n in * by lia.
  unfold callWithRetry.
  replace (Z.to_nat retries) with (n + S (Z.to_nat retries - S n))%nat by lia.
  destruct (retry_loop_rounds fn retries n (Z.to_nat retries - S n) 0 delay
              JUndefined (mkWorld w [])) as [le Heq].
  - lia.
  - exact Hfail.
  - rewrite Heq. cbn [remote trace app].
    unfold nth_outcome in Hok.
    destruct (fn (state_after fn n w)) as [r w'] eqn:Hfn.
    cbn [fst] in Hok. subst r.
    rewrite (retry_loop_success fn retries _ _ _ _ _ v w'); [| lia | exact Hfn].
    cbn [fst snd trace].
    rewrite attempts_app, delays_app, attempts_failed_rounds,
      delays_failed_rounds.
    cbn. rewrite app_nil_r. repeat split; lia.
Qed.

(** C4. An operation rejected with a transient error on every attempt:
    [callWithRetry] invokes it exactly [retries] times and then throws the
    error of the last attempt. *)
Theorem callWithRetry_exhausted
    (retries delay : Z) (w : W) (lastError : value) :
  1 <= retries ->
  (forall k, (k < Z.to_nat retries)%nat ->
     exists e, nth_outcome fn k w = Throw e /\ isLoadError e = Ok true) ->
  nth_outcome fn (Z.to_nat retries - 1) w = Throw lastError ->
  let out := callWithRetry fn retries delay (mkWorld w []) in
  fst out = Throw lastError
  /\ attempts (trace (snd out)) = Z.to_nat retries
  /\ delays (trace (snd out)) = backoff delay (Z.to_nat retries - 1).
Proof.
  intros Hle Hfail Hlast out. subst out.
  set (n := (Z.to_nat retries - 1)%nat) in *.
  unfold callWithRetry.
  replace (Z.to_nat retries) with (n + 1)%nat by lia.
  destruct (retry_loop_rounds fn retries n 0 0 delay JUndefined
              (mkWorld w [])) as [le Heq].
  - lia.
  - intros k Hk. apply Hfail. lia.
  - rewrite Heq. cbn [remote trace app].
    destruct (Hfail n ltac:(lia)) as (e & He & Hload).
    rewrite Hlast in He. injection He as <-.
    unfold nth_outcome in Hlast.
    destruct (fn (state_after fn n w)) as [r w'] eqn:Hfn.
    cbn [fst] in Hlast. subst r.
    rewrite (retry_loop_give_up fn retries _ _ _ _ _ lastError w' true);
      [| lia | exact Hfn | exact Hload | right; lia].
    cbn [fst snd trace].
    rewrite attempts_app, delays_app, attempts_failed_rounds,
      delays_failed_rounds.
    cbn. rewrite app_nil_r. repeat split; lia.
Qed.

(** X25. An operation whose first invocation is rejected with an error that
    the classification reads and finds to be no load error:
    [callWithRetry] invokes it exactly once, does not sleep, and throws that
    very error. *)
Theorem callWithRetry_permanent
    (retries delay : Z) (w w' : W) (e : value) :
  1 <= retries ->
  fn w = (Throw e, w') ->
  isLoadError e = Ok false ->
  let out := callWithRetry fn retries delay (mkWorld w []) in
  fst out = Throw e
  /\ attempts (trace (snd out)) = 1%nat
  /\ delays (trace (snd out)) = [].
Proof.
  intros Hle Hfn Hload out. subst out.
  unfold callWithRetry.
  replace (Z.to_nat retries) with (S (Z.to_nat retries - 1)) by lia.
  rewrite (retry_loop_give_up fn retries _ _ _ _ _ e w' false);
    [| lia | exact Hfn | exact Hload | now left].
  repeat split.
Qed.

End RetryClaims.

Lemma callWithRetry_fails_then_succeeds_witness :
  let out := callWithRetry flaky_operation 5 3000 (mkWorld 0%nat []) in
  fst out = Ok "rendered"
  /\ attempts (trace (snd out)) = 3%nat
  /\ delays (trace (snd out)) = backoff 3000 (3 - 1).
Proof.
  apply (callWithRetry_fails_then_succeeds flaky_operation 5 3000 0%nat 3
           "rendered").
  - lia.
  - lia.
  - intros k Hk. exists (JObj [("status", JNum 503)]).
    destruct k as [| [| k]]; [split; reflexivity | split; reflexivity | lia].
  - reflexivity.
Defined.

Lemma callWithRetry_exhausted_witness :
  let out := callWithRetry overloaded_operation 3 1000 (mkWorld 0%nat []) in
  fst out = Throw (JObj [("message", JStr "The model is overloaded");
                         ("attempt", JNum 2)])
  /\ attempts (trace (snd out)) = Z.to_nat 3
  /\ delays (trace (snd out)) = backoff 1000 (Z.to_nat 3 - 1).
Proof.
  apply (callWithRetry_exhausted overloaded_operation 3 1000 0%nat).
  - lia.
  - intros k Hk.
    exists (JObj [("message", JStr "The model is overloaded");
                  ("attempt", JNum (Z.of_nat k))]).
    destruct k as [| [| [| k]]];
      [split; reflexivity | split; reflexivity | split; reflexivity |].
    simpl in Hk. lia.
  - reflexivity.
Defined.

Lemma callWithRetry_permanent_witness :
  let out := callWithRetry invalid_operation 5 3000 (mkWorld 0%nat []) in
  fst out = Throw (JObj [("message", JStr "API key not valid");
                         ("code", JNum 400)])
  /\ attempts (trace (snd out)) = 1%nat
  /\ delays (trace (snd out)) = [].
Proof.
  apply (callWithRetry_permanent invalid_operation 5 3000 0%nat 1%nat).
  - lia.
  - reflexivity.
  - reflexivity.
Defined.

(** C5. The claim fails for a rejection that carries none of the signals of
    a load error and whose text the classification cannot search: an error
    whose message is a number, or [undefined]. The operation is invoked once
    and nothing sleeps, but what [callWithRetry] throws is the error raised
    by the search, not the rejection of the operation. *)
Theorem callWithRetry_permanent_unreadable :
  let rejection := JObj [("message", JNum 404)] in
  let out := callWithRetry coded_operation 5 3000 (mkWorld 0%nat []) in
  let out' := callWithRetry undefined_operation 5 3000 (mkWorld 0%nat []) in
  (coded_operation 0%nat = (Throw rejection, 1%nat)
   /\ ~ listed_signal rejection
   /\ isLoadError rejection <> Ok true
   /\ (exists t, fst out = Throw t /\ t <> rejection)
   /\ attempts (trace (snd out)) = 1%nat
   /\ delays (trace (snd out)) = [])
  /\ (undefined_operation 0%nat = (Throw JUndefined, 1%nat)
      /\ ~ listed_signal JUndefined
      /\ isLoadError JUndefined <> Ok true
      /\ (exists t, fst out' = Throw t /\ t <> JUndefined)
      /\ attempts (trace (snd out')) = 1%nat
      /\ delays (trace (snd out')) = []).
Proof.
  cbv zeta. split.
  - split; [reflexivity |]. split.
    { intros [S | [S | [S | [S | (m & S & _)]]]]; discriminate S. }
    split; [discriminate |]. split; [| split; reflexivity].
    eexists. split; [reflexivity | discriminate].
  - split; [reflexivity |]. split.
    { intros [S | [S | [S | [S | (m & S & _)]]]]; discriminate S. }
    split; [discriminate |]. split; [| split; reflexivity].
    eexists. split; [reflexivity | discriminate].
Qed.

(** The run of the sample operation that is fulfilled at its third
    invocation, event by event. *)
Example callWithRetry_flaky_trace :
  callWithRetry_default flaky_operation (mkWorld 0%nat [])
  = (Ok "rendered",
     mkWorld 3%nat
       [EvCall; EvWarn 1 5 3000; EvSleep 3000;
        EvCall; EvWarn 2 5 6000; EvSleep 6000;
        EvCall]).
Proof. reflexivity. Qed.

(** ** Classification of a thrown error *)

(** A thrown [undefined] has no text to search: the classification itself
    throws. *)
Example isLoadError_undefined :
  isLoadError JUndefined
  = Throw (TypeError "Cannot read properties of undefined").
Proof. reflexivity. Qed.

(** The overload error of the generation service, by its wrapped status
    alone. *)
Example isLoadError_wrapped_status :
  isLoadError
    (JObj [("message", JStr "request failed");
           ("error", JObj [("code", JNum 500);
                           ("status", JStr "UNAVAILABLE")])])
  = Ok true.
Proof. reflexivity. Qed.

Lemma is_str_true v s : is_str v s = true <-> v = JStr s.
Proof.
  destruct v; cbn; try (split; [discriminate | intros H; discriminate]).
  rewrite String.eqb_eq. split; [now intros -> | now intros [= ->]].
Qed.

Lemma status_signal_true e :
  status_signal e = true <->
  is_num (opt_get e "status") 503 = true
  \/ is_num (opt_get e "code") 503 = true
  \/ is_num (opt_get (opt_get e "error") "code") 503 = true
  \/ opt_get (opt_get e "error") "status" = JStr "UNAVAILABLE".
Proof.
  unfold status_signal.
  rewrite !orb_true_iff, is_str_true. tauto.
Qed.

(** The text the markers are searched in: a non-empty message, or else the
    serialisation of the whole error. *)
Lemma error_text_cases e text :
  (opt_get e "message" = JStr text /\ text <> "")
  \/ (truthy (opt_get e "message") = false /\ stringify e = Some text) ->
  error_text e = JStr text.
Proof.
  unfold error_text. intros [[Hm Hne] | [Hm Hs]].
  - rewrite Hm. cbn [truthy].
    apply String.eqb_neq in Hne. now rewrite Hne.
  - now rewrite Hm, Hs.
Qed.

(** Every value but [undefined] has a serialisation. *)
Lemma stringify_defined e : e <> JUndefined -> exists text, stringify e = Some text.
Proof.
  destruct e as [| | [|] | | | | |]; cbn [stringify]; intros H;
    try (eexists; reflexivity).
  now contradiction H.
Qed.

(** With a text to search, the classification is the disjunction of the
    markers in that text and the four code tests. *)
Lemma isLoadError_of_text e text :
  error_text e = JStr text ->
  (isLoadError e = Ok true <-> load_signal e text)
  /\ (isLoadError e = Ok false <-> ~ load_signal e text).
Proof.
  intros Htext. unfold isLoadError, load_signal.
  rewrite Htext. cbn [msg_includes rbind].
  rewrite <- status_signal_true.
  destruct (includes text "overloaded"); [split; split; try discriminate; tauto |].
  destruct (includes text "503"); [split; split; try discriminate; tauto |].
  destruct (status_signal e); [split; split; try discriminate; tauto |].
  split; split; try reflexivity; try discriminate.
  - intros [H | [H | H]]; discriminate.
  - intros _ [H | [H | H]]; discriminate.
Qed.

(** C6, as amended. For an error whose message is a non-empty string the
    markers are searched in the message; for an error without a truthy
    message, other than [undefined], they are searched in the JSON
    serialisation of the whole error. In both cases the error is transient
    exactly when a marker ([overloaded], [503]) occurs in that text or the
    unavailable code is the error's [status] or [code], or the wrapped
    error's [code], or the wrapped error's [status] is [UNAVAILABLE], and
    permanent exactly when none of these holds. *)
Theorem isLoadError_signals (e : value) :
  (forall text, opt_get e "message" = JStr text -> text <> "" ->
     (isLoadError e = Ok true <-> load_signal e text)
     /\ (isLoadError e = Ok false <-> ~ load_signal e text))
  /\ (truthy (opt_get e "message") = false -> e <> JUndefined ->
      exists text, stringify e = Some text
        /\ (isLoadError e = Ok true <-> load_signal e text)
        /\ (isLoadError e = Ok false <-> ~ load_signal e text)).
Proof.
  split.
  - intros text Hm Hne. apply isLoadError_of_text, error_text_cases.
    left. now split.
  - intros Hm Hdef. destruct (stringify_defined e Hdef) as [text Hs].
    exists text. split; [exact Hs |].
    apply isLoadError_of_text, error_text_cases. right. now split.
Qed.

Lemma isLoadError_signals_witness :
  ((isLoadError overloaded_error = Ok true <->
    load_signal overloaded_error
      "The model is overloaded. Please try again later.")
   /\ (isLoadError overloaded_error = Ok false <->
       ~ load_signal overloaded_error
           "The model is overloaded. Please try again later."))
  /\ exists text, stringify unlisted_error = Some text
       /\ (isLoadError unlisted_error = Ok true <-> load_signal unlisted_error text)
       /\ (isLoadError unlisted_error = Ok false <->
           ~ load_signal unlisted_error text).
Proof.
  split.
  - apply (proj1 (isLoadError_signals overloaded_error)
             "The model is overloaded. Please try again later.");
      [reflexivity | discriminate].
  - apply (proj2 (isLoadError_signals unlisted_error));
      [reflexivity | discriminate].
Defined.

(** C6, as stated, fails in both directions. An error with no message whose
    serialisation holds the digits 503 is classified transient, although
    none of the listed signals holds for it; and an error with the
    unavailable status whose message is a number is not classified at all:
    the search in its message throws. *)
Lemma isLoadError_beyond_listed_signals :
  (isLoadError unlisted_error = Ok true /\ ~ listed_signal unlisted_error)
  /\ (listed_signal unreadable_error
      /\ isLoadError unreadable_error <> Ok true
      /\ isLoadError unreadable_error <> Ok false).
Proof.
  split; [split; [reflexivity |] | split; [| split]].
  - intros [S | [S | [S | [S | (m & S & _)]]]]; discriminate S.
  - left. reflexivity.
  - discriminate.
  - discriminate.
Qed.

(** The text of numbers: plain digits up to 21 of them, shortest digits and
    an exponent beyond, a fraction as written. *)
Example number_text_samples :
  dec 503 = "503"
  /\ dec (-7) = "-7"
  /\ dec (2 ^ 60) = "1152921504606847000"
  /\ dec (10 ^ 21) = "1e+21"
  /\ dec 5030000000000000524288 = "5.03e+21"
  /\ number_text 0.503 = "0.503"
  /\ number_text 1.5 = "1.5"
  /\ number_text (1600 / 900) = "1.7777777777777777"
  /\ number_text 0.0000001 = "1e-7"
  /\ number_text (-0) = "0"
  /\ number_text (number_of 503) = dec 503
  /\ number_text (number_of (2 ^ 53 - 1)) = dec (2 ^ 53 - 1)
  /\ number_text (number_of (- 2 ^ 53)) = decimal (- 2 ^ 53)
  /\ number_text (number_of (2 ^ 53 + 1)) = decimal (2 ^ 53).
Proof. repeat split; vm_compute; reflexivity. Qed.

(** A large code prints with an exponent, so its serialisation does not
    hold the digits 503 in a row and the error is permanent; a fraction
    whose digits are 503 makes the error transient. *)
Example isLoadError_number_texts :
  stringify (JObj [("code", JNum 5030000000000000524288)])
  = Some (String.concat "" ["{"; dquote; "code"; dquote; ":5.03e+21}"])
  /\ isLoadError (JObj [("code", JNum 5030000000000000524288)]) = Ok false
  /\ stringify (JObj [("load", JFloat 0.503)])
     = Some (String.concat "" ["{"; dquote; "load"; dquote; ":0.503}"])
  /\ isLoadError (JObj [("load", JFloat 0.503)]) = Ok true
  /\ isLoadError (JObj [("status", JFloat 503)]) = Ok true.
Proof. repeat split; vm_compute; reflexivity. Qed.

(** ** getEmpowermentPrompt *)

Lemma eqb_none_false (x : string) : x <> "none" -> (x =? "none")%string = false.
Proof. apply String.eqb_neq. Qed.

(** With every choice left at the sentinel the material is unset, so the two
    directives on the textile colours are not pushed: five directives. *)
Lemma autoInstructions_all_none o :
  all_none o -> autoInstructions o = autoInstructions options_all_none.
Proof.
  intros (H1 & H2 & H3 & H4 & H5 & H6 & H7).
  unfold autoInstructions. rewrite H1, H2, H3, H4, H5, H6, H7. reflexivity.
Qed.

Lemma autoInstructions_all_concrete o :
  all_concrete o -> autoInstructions o = [].
Proof.
  intros (H1 & H2 & H3 & H4 & H5 & H6 & H7).
  unfold autoInstructions.
  rewrite !eqb_none_false by assumption. reflexivity.
Qed.

(** The directives read back from the block are the directives pushed. *)
Lemma directives_of_block o :
  directives (getEmpowermentPrompt o) = autoInstructions o.
Proof.
  unfold getEmpowermentPrompt, autoInstructions.
  split_sentinels o; vm_compute; reflexivity.
Qed.

(** A directive on a textile colour is pushed exactly for a concrete textile
    material whose colour is left at the sentinel. *)
Lemma textileColor_directives o :
  (In directive_textileColor1 (autoInstructions o) <->
   textileMaterial o <> "none" /\ textileColor1 o = "none")
  /\ (In directive_textileColor2 (autoInstructions o) <->
      textileMaterial o <> "none" /\ textileColor2 o = "none").
Proof.
  rewrite <- !String.eqb_neq, <- !String.eqb_eq.
  unfold autoInstructions.
  split_sentinels o; cbn; split; split;
    try (intros [? ?]; congruence);
    try (intros _; split; reflexivity);
    try (intros _; tauto);
    intros H; exfalso;
    repeat (destruct H as [H | H]; [discriminate H |]); exact H.
Qed.

(** C1, as amended. With every option field at the sentinel, the block is
    not empty and its directives are five: those for category, style, colour
    palette, surface material and textile material, in this order. For every
    selection, the directive on a textile colour is in the block exactly
    when the textile material holds a concrete value and that colour is left
    at the sentinel. With a concrete value in every field, the block is the
    empty string. *)
Theorem getEmpowermentPrompt_sentinels (o : RenderOptions) :
  (all_none o ->
     directives (getEmpowermentPrompt o)
     = [directive_category; directive_style; directive_colorPalette;
        directive_surfaceMaterial; directive_textileMaterial]
     /\ List.length (directives (getEmpowermentPrompt o)) = 5%nat
     /\ getEmpowermentPrompt o <> "")
  /\ (In directive_textileColor1 (directives (getEmpowermentPrompt o)) <->
      textileMaterial o <> "none" /\ textileColor1 o = "none")
  /\ (In directive_textileColor2 (directives (getEmpowermentPrompt o)) <->
      textileMaterial o <> "none" /\ textileColor2 o = "none")
  /\ (all_concrete o -> getEmpowermentPrompt o = "").
Proof.
  rewrite directives_of_block.
  split; [| split; [| split]].
  - intros Hnone. rewrite (autoInstructions_all_none o Hnone).
    split; [reflexivity |]. split; [reflexivity |].
    unfold getEmpowermentPrompt.
    rewrite (autoInstructions_all_none o Hnone). vm_compute. discriminate.
  - apply textileColor_directives.
  - apply textileColor_directives.
  - intros Hall. unfold getEmpowermentPrompt.
    now rewrite (autoInstructions_all_concrete o Hall).
Qed.

Lemma getEmpowermentPrompt_sentinels_witness :
  (directives (getEmpowermentPrompt options_all_none)
   = [directive_category; directive_style; directive_colorPalette;
      directive_surfaceMaterial; directive_textileMaterial]
   /\ List.length (directives (getEmpowermentPrompt options_all_none)) = 5%nat
   /\ getEmpowermentPrompt options_all_none <> "")
  /\ In directive_textileColor1
       (directives (getEmpowermentPrompt options_textile))
  /\ ~ In directive_textileColor2
         (directives (getEmpowermentPrompt options_textile))
  /\ getEmpowermentPrompt options_all_concrete = "".
Proof.
  destruct (getEmpowermentPrompt_sentinels options_all_none)
    as (Hnone & _ & _ & _).
  destruct (getEmpowermentPrompt_sentinels options_textile)
    as (_ & Hfirst & Hsecond & _).
  destruct (getEmpowermentPrompt_sentinels options_all_concrete)
    as (_ & _ & _ & Hconcrete).
  split; [| split; [| split]].
  - apply Hnone. repeat split; reflexivity.
  - apply (proj2 Hfirst). split; [discriminate | reflexivity].
  - intros H. apply (proj1 Hsecond) in H.
    destruct H as [_ H]. discriminate H.
  - apply Hconcrete. repeat split; discriminate.
Defined.

(** C1, as stated, fails: with every field at the sentinel the block holds
    five directives, not seven. *)
Lemma getEmpowermentPrompt_all_none_not_seven :
  all_none options_all_none
  /\ List.length (directives (getEmpowermentPrompt options_all_none))
     <> 7%nat.
Proof.
  split; [repeat split; reflexivity |].
  vm_compute. discriminate.
Qed.

(** ** The offline client *)

Section Offline.
Context {W : Type}.

(** A chain of builder calls that is not closed by [single()] leaves the
    proxy, and awaiting the proxy yields the empty response. *)
Lemma await_offline_chain (q : query) (s : World W) :
  mock_chain MockChain q = Ok MockChain ->
  await_query createMockChain q s = (Ok mock_then_response, s).
Proof.
  intros Hq. unfold await_query, createMockChain. rewrite Hq.
  now destruct s.
Qed.

Lemma getLearningContext_offline (cat sty : string) (s : World W) :
  getLearningContext createMockChain cat sty s = (Ok empty_learning, s).
Proof.
  unfold getLearningContext, getLearningContext_body.
  apply try_catch_ok.
  rewrite (bind_ok _ _ _ _ _
             (await_offline_chain (positive_query cat sty) s eq_refl)).
  change (prop mock_then_response "data") with (@Ok value (JArr [])).
  unfold lift at 1. unfold bind at 1.
  rewrite (bind_ok _ _ _ _ _
             (await_offline_chain (negative_query cat) s eq_refl)).
  reflexivity.
Qed.

Lemma saveRenderHistory_offline (o : RenderOptions) (p : string)
    (s : World W) :
  saveRenderHistory createMockChain o p s = (Ok (JStr "offline-mode-id"), s).
Proof.
  unfold saveRenderHistory, saveRenderHistory_body.
  apply try_catch_ok.
  assert (Hq : await_query createMockChain (insert_query o p) s
               = (Ok mock_single_response, s)).
  { unfold await_query, createMockChain. cbn. now destruct s. }
  rewrite (bind_ok _ _ _ _ _ Hq). reflexivity.
Qed.

(** C10. With the offline client, [submitFeedback] is fulfilled for every
    record identifier, rating and tags: the update chain is awaited on the
    proxy, whose response carries a null error. *)
Theorem submitFeedback_offline (renderId : string) (rating : Z)
    (tags : list string) (s : World W) :
  submitFeedback createMockChain renderId rating tags s = (Ok tt, s).
Proof.
  unfold submitFeedback.
  rewrite (bind_ok _ _ _ _ _
             (await_offline_chain (update_query renderId rating tags) s
                eq_refl)).
  reflexivity.
Qed.

End Offline.

(** ** submitFeedback *)

(** C9. Whatever the update collaborator answers for the update of
    [renderId]: an error it reports (a rejection, or a response whose [error]
    is set) is thrown to the caller of [submitFeedback] as it is, and a
    response that reports no error lets [submitFeedback] complete. *)
Theorem submitFeedback_propagates {W : Type} (supabase : client W)
    (renderId : string) (rating : Z) (tags : list string) (s : World W)
    (answer : Res value) (w' : W) :
  supabase (update_query renderId rating tags) (remote s) = (answer, w') ->
  let out := fst (submitFeedback supabase renderId rating tags s) in
  (forall e, answer = Throw e -> out = Throw e)
  /\ (forall response,
        answer = Ok response -> nullish response = false ->
        truthy (opt_get response "error") = true ->
        out = Throw (opt_get response "error"))
  /\ (forall response,
        answer = Ok response -> nullish response = false ->
        truthy (opt_get response "error") = false ->
        out = Ok tt).
Proof.
  intros Hq out. subst out.
  assert (Ha : await_query supabase (update_query renderId rating tags) s
               = (answer, mkWorld w' (trace s))).
  { unfold await_query. now rewrite Hq. }
  unfold submitFeedback.
  repeat split.
  - intros e ->. now rewrite (bind_throw _ _ _ _ _ Ha).
  - intros response -> Hobj Herr.
    rewrite (bind_ok _ _ _ _ _ Ha).
    unfold prop. rewrite Hobj. unfold lift, bind. now rewrite Herr.
  - intros response -> Hobj Herr.
    rewrite (bind_ok _ _ _ _ _ Ha).
    unfold prop. rewrite Hobj. unfold lift, bind. now rewrite Herr.
Qed.

Lemma submitFeedback_propagates_witness :
  let out := fst (submitFeedback reporting_client "no-such-id" 4 ["blurry"]
                    (mkWorld tt [])) in
  (forall e,
     Ok (JObj [("data", JNull);
               ("error", JObj [("message", JStr "no rows updated");
                               ("code", JStr "PGRST116")])]) = Throw e ->
     out = Throw e)
  /\ (forall response,
        Ok (JObj [("data", JNull);
                  ("error", JObj [("message", JStr "no rows updated");
                                  ("code", JStr "PGRST116")])]) = Ok response ->
        nullish response = false ->
        truthy (opt_get response "error") = true ->
        out = Throw (opt_get response "error"))
  /\ (forall response,
        Ok (JObj [("data", JNull);
                  ("error", JObj [("message", JStr "no rows updated");
                                  ("code", JStr "PGRST116")])]) = Ok response ->
        nullish response = false ->
        truthy (opt_get response "error") = false ->
        out = Ok tt).
Proof.
  apply (submitFeedback_propagates reporting_client "no-such-id" 4 ["blurry"]
           (mkWorld tt []) _ tt).
  reflexivity.
Defined.

(** ** Generation in offline mode *)

Section OfflineRender.
Context {W : Type}.
Variable generateContent :
  GenerateContentRequest -> W -> Res GenerateContentResponse * W.
Variable API_KEY : option string.
Variable PHOTOGRAPHY_PRESETS : string -> option string.
Variable PHOTOGRAPHY_PRESETS_CINEMATIC : string.
Variable STRUCTURE_FIDELITY_PROMPT : string.
Variable REALISM_MODIFIERS : string.

(** A call fulfilled at the first attempt needs no retry. *)
Lemma callWithRetry_default_first_success {T : Type}
    (fn : @operation W T) (s : World W) (v : T) (w' : W) :
  fn (remote s) = (Ok v, w') ->
  callWithRetry_default fn s = (Ok v, mkWorld w' (trace s ++ [EvCall])).
Proof.
  intros Hfn. unfold callWithRetry_default, callWithRetry.
  change (Z.to_nat 5) with 5%nat.
  now apply retry_loop_success.
Qed.

(** Step 1 always yields a master prompt: the failure of the reasoning call
    is caught. *)
Lemma masterPrompt_step_returns sourceImage o base injection
    (s : World W) :
  exists p s',
    masterPrompt_step generateContent PHOTOGRAPHY_PRESETS
      PHOTOGRAPHY_PRESETS_CINEMATIC STRUCTURE_FIDELITY_PROMPT
      REALISM_MODIFIERS sourceImage o base injection s = (Ok p, s').
Proof.
  unfold masterPrompt_step.
  destruct (has_text (hiddenAIContext o)).
  - eexists. eexists. reflexivity.
  - unfold reasoning_step, try_catch, bind.
    destruct (callWithRetry_default _ s) as [[resp | e] s1];
      eexists; eexists; reflexivity.
Qed.

(** C2, as amended. With the offline client, for every options and master
    prompt: [saveRenderHistory] returns the placeholder identifier
    [offline-mode-id] that the proxy answers to [single()] (not [null]);
    [getLearningContext] returns empty examples and empty constraints; and a
    generation call, given an API key and an image model that answers with
    an image, completes: it builds its master prompt without learned
    examples or constraints, sends the render request of that prompt once,
    and returns the first image of the answer with that placeholder as the
    render identifier. *)
Theorem offline_mode (sourceImage : FileData) (o : RenderOptions)
    (masterPrompt cat sty : string) (s : World W) :
  has_text API_KEY = true ->
  (forall req w,
     model req = "gemini-3-pro-image-preview" ->
     exists resp w',
       generateContent req w = (Ok resp, w') /\ first_image resp <> None) ->
  saveRenderHistory createMockChain o masterPrompt s
  = (Ok (JStr "offline-mode-id"), s)
  /\ getLearningContext createMockChain cat sty s = (Ok empty_learning, s)
  /\ exists prompt s1 resp w2 url,
       masterPrompt_step generateContent PHOTOGRAPHY_PRESETS
         PHOTOGRAPHY_PRESETS_CINEMATIC STRUCTURE_FIDELITY_PROMPT
         REALISM_MODIFIERS sourceImage o
         (baseDescription o (getEmpowermentPrompt o))
         (learningPromptInjection o empty_learning) s
       = (Ok prompt, s1)
       /\ generateContent (render_request prompt sourceImage) (remote s1)
          = (Ok resp, w2)
       /\ first_image resp = Some url
       /\ generateWeddingRender createMockChain generateContent API_KEY
            PHOTOGRAPHY_PRESETS PHOTOGRAPHY_PRESETS_CINEMATIC
            STRUCTURE_FIDELITY_PROMPT REALISM_MODIFIERS sourceImage o s
          = (Ok (mkResult url (JStr "offline-mode-id")),
             mkWorld w2 (trace s1 ++ [EvCall])).
Proof.
  intros Hkey Himage.
  split; [apply saveRenderHistory_offline |].
  split; [apply getLearningContext_offline |].
  unfold generateWeddingRender. rewrite Hkey. cbn [negb].
  rewrite (bind_ok _ _ _ _ _
             (getLearningContext_offline (category o) (style o) s)).
  destruct (masterPrompt_step_returns sourceImage o
              (baseDescription o (getEmpowermentPrompt o))
              (learningPromptInjection o empty_learning) s)
    as (p & s1 & Hstep).
  rewrite (bind_ok _ _ _ _ _ Hstep).
  destruct (Himage (render_request p sourceImage) (remote s1) eq_refl)
    as (resp & w2 & Hgen & Himg).
  destruct (first_image resp) as [url |] eqn:Hurl; [| congruence].
  exists p, s1, resp, w2, url.
  split; [exact Hstep |]. split; [exact Hgen |]. split; [exact Hurl |].
  apply try_catch_ok.
  rewrite (bind_ok _ _ _ _ _
             (callWithRetry_default_first_success _ s1 resp w2 Hgen)).
  rewrite Hurl.
  rewrite (bind_ok _ _ _ _ _ (saveRenderHistory_offline o p _)).
  reflexivity.
Qed.

End OfflineRender.

Lemma offline_mode_witness :
  saveRenderHistory createMockChain options_all_none "prompt"
    (mkWorld tt [])
  = (Ok (JStr "offline-mode-id"), mkWorld tt [])
  /\ getLearningContext createMockChain "stage" "rustic" (mkWorld tt [])
     = (Ok empty_learning, mkWorld tt [])
  /\ exists prompt s1 resp w2 url,
       masterPrompt_step sample_generateContent sample_presets
         "cinematic 35mm" "keep the structure" "photorealistic"
         sample_image options_all_none
         (baseDescription options_all_none
            (getEmpowermentPrompt options_all_none))
         (learningPromptInjection options_all_none empty_learning)
         (mkWorld tt [])
       = (Ok prompt, s1)
       /\ sample_generateContent (render_request prompt sample_image)
            (remote s1)
          = (Ok resp, w2)
       /\ first_image resp = Some url
       /\ generateWeddingRender createMockChain sample_generateContent
            (Some "key") sample_presets "cinematic 35mm"
            "keep the structure" "photorealistic" sample_image
            options_all_none (mkWorld tt [])
          = (Ok (mkResult url (JStr "offline-mode-id")),
             mkWorld w2 (trace s1 ++ [EvCall])).
Proof.
  apply (offline_mode sample_generateContent (Some "key") sample_presets
           "cinematic 35mm" "keep the structure" "photorealistic"
           sample_image options_all_none "prompt" "stage" "rustic"
           (mkWorld tt [])).
  - reflexivity.
  - intros req w Hmodel. unfold sample_generateContent.
    rewrite Hmodel. cbn [String.eqb].
    eexists. exists w. split; [vm_compute; reflexivity | discriminate].
Defined.

(** C2, as stated, fails: in offline mode [saveRenderHistory] does not
    return [null]. *)
Lemma saveRenderHistory_offline_not_null :
  ~ (forall (o : RenderOptions) (p : string) (s : World unit),
       fst (saveRenderHistory createMockChain o p s) = Ok JNull).
Proof.
  intros H.
  specialize (H options_all_none "prompt" (mkWorld tt [])).
  rewrite saveRenderHistory_offline in H. discriminate H.
Qed.

(** ** getLearningContext over any client *)

Section LearningFacts.
Context {W : Type}.
Variable supabase : client W.

Lemma await_query_eq q (s : World W) r w' :
  supabase q (remote s) = (r, w') ->
  await_query supabase q s = (r, mkWorld w' (trace s)).
Proof. unfold await_query. now intros ->. Qed.

(** The function returns what its [try] block returns, and the empty context
    when the block throws. *)
Lemma getLearningContext_result cat sty (s : World W) :
  fst (getLearningContext supabase cat sty s)
  = Ok match fst (getLearningContext_body supabase cat sty s) with
       | Ok lc => lc
       | Throw _ => empty_learning
       end.
Proof.
  unfold getLearningContext, try_catch.
  now destruct (getLearningContext_body supabase cat sty s) as [[lc | e] s'].
Qed.

Lemma getLearningContext_body_first_rejected cat sty (s : World W) e w1 :
  supabase (positive_query cat sty) (remote s) = (Throw e, w1) ->
  fst (getLearningContext_body supabase cat sty s) = Throw e.
Proof.
  intros H1. unfold getLearningContext_body.
  now rewrite (bind_throw _ _ _ _ _ (await_query_eq _ _ _ _ H1)).
Qed.

(** The block after both reads were answered: the rest is pure. *)
Lemma getLearningContext_body_answered cat sty (s : World W) r1 w1 r2 w2 :
  supabase (positive_query cat sty) (remote s) = (Ok r1, w1) ->
  supabase (negative_query cat) w1 = (Ok r2, w2) ->
  fst (getLearningContext_body supabase cat sty s)
  = rbind (prop r1 "data") (fun positive =>
      rbind (prop r2 "data") (fun negative =>
        rbind (negative_tags negative) (fun allNegativeTags =>
          rbind (examples_of positive) (fun ex =>
            Ok (mkLearning ex
                  (join ", " (firstn 5 (dedup allNegativeTags)))))))).
Proof.
  intros H1 H2. unfold getLearningContext_body.
  rewrite (bind_ok _ _ _ _ _ (await_query_eq _ _ _ _ H1)).
  unfold lift at 1. unfold bind at 1.
  destruct (prop r1 "data") as [positive | e]; [| reflexivity].
  cbn [rbind].
  rewrite (bind_ok _ _ _ _ _
             (await_query_eq (negative_query cat) (mkWorld w1 (trace s))
                _ _ H2)).
  unfold lift, bind, ret.
  destruct (prop r2 "data") as [negative | e]; [| reflexivity].
  cbn [rbind].
  destruct (negative_tags negative) as [tags | e]; [| reflexivity].
  cbn [rbind].
  now destruct (examples_of positive) as [ex | e].
Qed.

Lemma getLearningContext_body_second_rejected cat sty (s : World W)
    r1 w1 e w2 :
  supabase (positive_query cat sty) (remote s) = (Ok r1, w1) ->
  supabase (negative_query cat) w1 = (Throw e, w2) ->
  exists e', fst (getLearningContext_body supabase cat sty s) = Throw e'.
Proof.
  intros H1 H2. unfold getLearningContext_body.
  rewrite (bind_ok _ _ _ _ _ (await_query_eq _ _ _ _ H1)).
  unfold lift at 1. unfold bind at 1.
  destruct (prop r1 "data") as [positive | e1]; [| now exists e1].
  rewrite (bind_throw _ _ _ _ _
             (await_query_eq (negative_query cat) (mkWorld w1 (trace s))
                _ _ H2)).
  now exists e.
Qed.

Lemma prop_of_object r k v :
  opt_get r k = v -> v <> JUndefined -> prop r k = Ok v.
Proof.
  intros Hget Hv. unfold prop.
  destruct r; cbn in *; try congruence.
Qed.

(** C8. [getLearningContext] never throws: it returns a context, which is
    the empty one when a read is rejected; its examples are the empty string
    when the read of the high-rated records answers no record, and its
    constraints are the empty string when the read of the low-rated tagged
    records answers no record. *)
Theorem getLearningContext_never_throws (cat sty : string) (s : World W) :
  exists lc,
    fst (getLearningContext supabase cat sty s) = Ok lc
    /\ (forall e w1,
          supabase (positive_query cat sty) (remote s) = (Throw e, w1) ->
          lc = empty_learning)
    /\ (forall r1 w1 e w2,
          supabase (positive_query cat sty) (remote s) = (Ok r1, w1) ->
          supabase (negative_query cat) w1 = (Throw e, w2) ->
          lc = empty_learning)
    /\ (forall r1 w1,
          supabase (positive_query cat sty) (remote s) = (Ok r1, w1) ->
          opt_get r1 "data" = JArr [] ->
          examples lc = "")
    /\ (forall r1 w1 r2 w2,
          supabase (positive_query cat sty) (remote s) = (Ok r1, w1) ->
          supabase (negative_query cat) w1 = (Ok r2, w2) ->
          opt_get r2 "data" = JArr [] ->
          constraints lc = "").
Proof.
  eexists. split; [apply getLearningContext_result |].
  split; [| split; [| split]].
  - intros e w1 H1.
    now rewrite (getLearningContext_body_first_rejected _ _ _ _ _ H1).
  - intros r1 w1 e w2 H1 H2.
    destruct (getLearningContext_body_second_rejected _ _ _ _ _ _ _ H1 H2)
      as [e' ->].
    reflexivity.
  - intros r1 w1 H1 Hdata.
    destruct (supabase (negative_query cat) w1) as [[r2 | e] w2] eqn:H2.
    + rewrite (getLearningContext_body_answered _ _ _ _ _ _ _ H1 H2).
      rewrite (prop_of_object r1 "data" (JArr []) Hdata) by discriminate.
      cbn [rbind examples_of map_res join].
      destruct (prop r2 "data") as [negative | e]; [| reflexivity].
      cbn [rbind].
      now destruct (negative_tags negative) as [tags | e].
    + destruct (getLearningContext_body_second_rejected _ _ _ _ _ _ _ H1 H2)
        as [e' ->].
      reflexivity.
  - intros r1 w1 r2 w2 H1 H2 Hdata.
    rewrite (getLearningContext_body_answered _ _ _ _ _ _ _ H1 H2).
    rewrite (prop_of_object r2 "data" (JArr []) Hdata) by discriminate.
    destruct (prop r1 "data") as [positive | e]; [| reflexivity].
    cbn [rbind negative_tags map_res List.concat dedup firstn join].
    now destruct (examples_of positive) as [ex | e].
Qed.

End LearningFacts.

(** ** The filtered read and the learning context *)

Lemma join_strings sep (l : list string) :
  join sep (map JStr l) = String.concat sep l.
Proof.
  unfold join. rewrite map_map. cbn [nullish to_string].
  now rewrite map_id.
Qed.

Lemma filter_map_swap {A B} (f : B -> bool) (g : A -> B) (l : list A) :
  filter f (map g l) = map g (filter (fun x => f (g x)) l).
Proof.
  induction l as [| x l IH]; [reflexivity |].
  cbn [map filter]. rewrite IH. now destruct (f (g x)).
Qed.

Lemma dedup_strings (l : list string) :
  dedup (map JStr l) = map JStr (distinct l).
Proof.
  induction l as [| x l IH]; [reflexivity |].
  cbn [map dedup distinct]. rewrite IH. f_equal.
  exact (filter_map_swap (fun y => negb (same_value_zero (JStr x) y)) JStr
           (distinct l)).
Qed.

Lemma map_res_ok {A B C} (f : B -> Res C) (h : A -> B) (g : A -> C)
    (l : list A) :
  (forall x, f (h x) = Ok (g x)) -> map_res f (map h l) = Ok (map g l).
Proof.
  intros Hf. induction l as [| x l IH]; [reflexivity |].
  cbn [map_res map]. now rewrite Hf, IH.
Qed.

(** The examples read off the rows of a response. *)
Lemma examples_of_rows (rows : list RenderRecord) :
  examples_of
    (JArr (map (fun r => JObj [("master_prompt", column r "master_prompt")])
             rows))
  = Ok (String.concat example_separator (map master_prompt rows)).
Proof.
  unfold examples_of.
  rewrite (map_res_ok _ _ (fun r => JStr (master_prompt r))) by reflexivity.
  cbn [rbind].
  rewrite <- (map_map master_prompt JStr), join_strings.
  fold example_separator.
  now destruct (String.concat example_separator (map master_prompt rows)).
Qed.

(** The tags read off the rows of a response. *)
Lemma negative_tags_rows (rows : list RenderRecord) :
  negative_tags
    (JArr (map (fun r => JObj [("feedback_tags", column r "feedback_tags")])
             rows))
  = Ok (map JStr (flat_map tags_of rows)).
Proof.
  unfold negative_tags.
  rewrite (map_res_ok _ _ (fun r => map JStr (tags_of r))).
  - cbn [rbind]. f_equal.
    induction rows as [| r rows IH]; [reflexivity |].
    cbn [map List.concat flat_map]. now rewrite IH, map_app.
  - intros r. unfold tags_of.
    change (prop (JObj [("feedback_tags", column r "feedback_tags")])
              "feedback_tags")
      with (@Ok value (match feedback_tags r with
                       | Some tags => JArr (map JStr tags)
                       | None => JNull
                       end)).
    now destruct (feedback_tags r).
Qed.

Lemma satisfies_example cat sty r :
  satisfies [sql_eq "category" (JStr cat); sql_eq "style" (JStr sty);
             sql_eq "rating" (JNum 5)] r
  = is_example cat sty r.
Proof.
  unfold satisfies, is_example, sql_eq. cbn [forallb].
  change (column r "category") with (JStr (rec_category r)).
  change (column r "style") with (JStr (rec_style r)).
  change (column r "rating")
    with (match rating r with Some n => JNum n | None => JNull end).
  cbn [nullish negb same_value_zero andb].
  destruct (rating r) as [n |]; cbn [nullish negb same_value_zero andb];
    now rewrite ?andb_true_r, ?andb_false_r, ?andb_assoc.
Qed.

Lemma satisfies_complaint cat r :
  satisfies [sql_eq "category" (JStr cat); sql_lt "rating" (JNum 3);
             sql_not_null "feedback_tags"] r
  = is_complaint cat r.
Proof.
  unfold satisfies, is_complaint, sql_eq, sql_lt, sql_not_null.
  cbn [forallb].
  change (column r "category") with (JStr (rec_category r)).
  change (column r "feedback_tags")
    with (match feedback_tags r with
          | Some tags => JArr (map JStr tags)
          | None => JNull
          end).
  change (column r "rating")
    with (match rating r with Some n => JNum n | None => JNull end).
  cbn [nullish negb same_value_zero andb].
  destruct (rating r) as [n |], (feedback_tags r) as [tags |];
    cbn [nullish negb andb];
    now rewrite ?andb_true_r, ?andb_false_r.
Qed.

(** The chain [getLearningContext] sends for the examples asks for the
    five-star records of (category, style), most recent first, three at
    most. *)
Lemma run_read_positive table cat sty :
  run_read table (positive_query cat sty)
  = Some (JObj [("data",
                 JArr (map (fun r => JObj [("master_prompt",
                                            column r "master_prompt")])
                         (chosen_examples table cat sty)));
                ("error", JNull)]).
Proof.
  unfold run_read, chosen_examples. cbn.
  now rewrite (filter_ext _ _ (satisfies_example cat sty)).
Qed.

(** The chain it sends for the constraints asks for the low-rated, tagged
    records of the category, ten at most. *)
Lemma run_read_negative table cat :
  run_read table (negative_query cat)
  = Some (JObj [("data",
                 JArr (map (fun r => JObj [("feedback_tags",
                                            column r "feedback_tags")])
                         (chosen_complaints table cat)));
                ("error", JNull)]).
Proof.
  unfold run_read, chosen_complaints. cbn.
  now rewrite (filter_ext _ _ (satisfies_complaint cat)).
Qed.

(** *** Ordering by creation time *)

Lemma insert_recent_perm r l : Permutation (insert_recent r l) (r :: l).
Proof.
  induction l as [| x l IH]; [reflexivity |].
  cbn [insert_recent]. destruct (created_at x <=? created_at r).
  - reflexivity.
  - rewrite IH. apply perm_swap.
Qed.

Lemma most_recent_first_perm l : Permutation (most_recent_first l) l.
Proof.
  induction l as [| r l IH]; [reflexivity |].
  cbn [most_recent_first]. rewrite insert_recent_perm. now constructor.
Qed.

Lemma insert_recent_sorted r l :
  StronglySorted at_least_as_recent l ->
  StronglySorted at_least_as_recent (insert_recent r l).
Proof.
  induction 1 as [| x l Hsorted IH Hall]; cbn [insert_recent].
  - repeat constructor.
  - destruct (created_at x <=? created_at r) eqn:Hcmp.
    + apply Z.leb_le in Hcmp. constructor.
      * now constructor.
      * constructor; [exact Hcmp |].
        eapply Forall_impl; [| exact Hall].
        intros y Hy. unfold at_least_as_recent in *. lia.
    + apply Z.leb_gt in Hcmp. constructor; [exact IH |].
      apply (Permutation_Forall (Permutation_sym (insert_recent_perm r l))).
      constructor; [| exact Hall].
      unfold at_least_as_recent. lia.
Qed.

Lemma most_recent_first_sorted l :
  StronglySorted at_least_as_recent (most_recent_first l).
Proof.
  induction l as [| r l IH]; [constructor |].
  cbn [most_recent_first]. now apply insert_recent_sorted.
Qed.

(** In a sorted list every record of a prefix is at least as recent as every
    record after it. *)
Lemma sorted_prefix_recent l :
  StronglySorted at_least_as_recent l ->
  forall k a b,
    In a (firstn k l) -> In b (skipn k l) -> at_least_as_recent a b.
Proof.
  induction 1 as [| x l Hsorted IH Hall]; intros k a b Ha Hb.
  - now rewrite firstn_nil in Ha.
  - destruct k as [| k]; [now cbn in Ha |].
    cbn [firstn skipn] in Ha, Hb. destruct Ha as [<- | Ha].
    + rewrite Forall_forall in Hall. apply Hall.
      rewrite <- (firstn_skipn k l). apply in_or_app. now right.
    + now apply (IH k).
Qed.

(** The examples chosen: three at most, each a five-star record of the
    (category, style), and none of the records left out is more recent than
    a chosen one. *)
Lemma chosen_examples_most_recent table cat sty :
  (List.length (chosen_examples table cat sty) <= 3)%nat
  /\ (forall r, In r (chosen_examples table cat sty) ->
        In r table /\ is_example cat sty r = true)
  /\ (forall r r',
        In r (chosen_examples table cat sty) ->
        In r' table -> is_example cat sty r' = true ->
        ~ In r' (chosen_examples table cat sty) ->
        at_least_as_recent r r').
Proof.
  unfold chosen_examples.
  set (sorted := most_recent_first (filter (is_example cat sty) table)).
  assert (Hperm : Permutation sorted (filter (is_example cat sty) table))
    by apply most_recent_first_perm.
  split; [apply firstn_le_length |].
  split.
  - intros r Hr. apply filter_In.
    apply (Permutation_in _ Hperm).
    rewrite <- (firstn_skipn 3 sorted). apply in_or_app. now left.
  - intros r r' Hr Hin Hex Hout.
    apply (sorted_prefix_recent sorted (most_recent_first_sorted _) 3);
      [exact Hr |].
    assert (Hs : In r' sorted).
    { apply (Permutation_in _ (Permutation_sym Hperm)).
      apply filter_In. now split. }
    rewrite <- (firstn_skipn 3 sorted) in Hs.
    apply in_app_or in Hs. now destruct Hs.
Qed.

(** The complaints chosen: ten at most, each a low-rated, tagged record of
    the category. *)
Lemma chosen_complaints_matching table cat :
  (List.length (chosen_complaints table cat) <= 10)%nat
  /\ (forall r, In r (chosen_complaints table cat) ->
        In r table /\ is_complaint cat r = true).
Proof.
  unfold chosen_complaints. split; [apply firstn_le_length |].
  intros r Hr. apply filter_In.
  rewrite <- (firstn_skipn 10 (filter (is_complaint cat) table)).
  apply in_or_app. now left.
Qed.

Section ReadClaims.
Context {W : Type}.
Variable supabase : client W.

(** The records the persistence service holds in a remote state. *)
Variable table : W -> list RenderRecord.

(** C7. Over a persistence service that answers the filtered reads,
    [getLearningContext] returns, for every (category, style): as examples
    the instruction texts, joined, of at most the 3 most recent records
    whose category and style match and whose rating is exactly 5; and as
    constraints the first 5 distinct feedback tags, flattened and
    de-duplicated, of at most 10 records of the category with rating below 3
    and a non-null tag set, whatever their style. *)
Theorem getLearningContext_reads (cat sty : string) (s : World W) :
  (forall q w response,
     run_read (table w) q = Some response ->
     supabase q w = (Ok response, w)) ->
  let records := table (remote s) in
  getLearningContext supabase cat sty s
  = (Ok (mkLearning (spec_examples records cat sty)
           (spec_constraints records cat)), s)
  /\ (List.length (chosen_examples records cat sty) <= 3)%nat
  /\ (forall r, In r (chosen_examples records cat sty) ->
        In r records /\ rec_category r = cat /\ rec_style r = sty
        /\ rating r = Some 5)
  /\ (forall r r',
        In r (chosen_examples records cat sty) ->
        In r' records -> is_example cat sty r' = true ->
        ~ In r' (chosen_examples records cat sty) ->
        created_at r' <= created_at r)
  /\ (List.length (chosen_complaints records cat) <= 10)%nat
  /\ (forall r, In r (chosen_complaints records cat) ->
        In r records /\ rec_category r = cat
        /\ (exists n, rating r = Some n /\ n < 3)
        /\ feedback_tags r <> None).
Proof.
  intros Hreads records.
  destruct (chosen_examples_most_recent records cat sty)
    as (Hlen & Hmatch & Hrecent).
  destruct (chosen_complaints_matching records cat) as (Hlen' & Hmatch').
  split; [| split; [exact Hlen | split; [| split; [exact Hrecent | split;
    [exact Hlen' |]]]]].
  - pose proof (Hreads _ (remote s) _ (run_read_positive records cat sty))
      as H1.
    pose proof (Hreads _ (remote s) _ (run_read_negative records cat))
      as H2.
    unfold getLearningContext.
    assert (Hbody : getLearningContext_body supabase cat sty s
                    = (Ok (mkLearning (spec_examples records cat sty)
                             (spec_constraints records cat)), s)).
    { unfold getLearningContext_body.
      rewrite (bind_ok _ _ _ _ _ (await_query_eq _ _ _ _ _ H1)).
      replace (mkWorld (remote s) (trace s)) with s by now destruct s.
      unfold lift at 1. unfold bind at 1. cbn [prop nullish opt_get lookup].
      cbn [String.eqb Ascii.eqb Bool.eqb].
      rewrite (bind_ok _ _ _ _ _ (await_query_eq _ _ _ _ _ H2)).
      replace (mkWorld (remote s) (trace s)) with s by now destruct s.
      unfold lift at 1. unfold bind at 1. cbn [prop nullish opt_get lookup].
      cbn [String.eqb Ascii.eqb Bool.eqb].
      unfold lift, bind, ret.
      rewrite negative_tags_rows, examples_of_rows, dedup_strings.
      rewrite firstn_map, join_strings.
      reflexivity. }
    now rewrite (try_catch_ok _ _ _ _ _ Hbody).
  - intros r Hr. destruct (Hmatch r Hr) as [Hin Hex].
    split; [exact Hin |].
    unfold is_example in Hex.
    apply andb_prop in Hex as [Hcs Hrating].
    apply andb_prop in Hcs as [Hc Hs].
    apply String.eqb_eq in Hc, Hs.
    destruct (rating r) as [n |]; [| discriminate].
    apply Z.eqb_eq in Hrating. now subst n.
  - intros r Hr. destruct (Hmatch' r Hr) as [Hin Hc].
    split; [exact Hin |].
    unfold is_complaint in Hc.
    apply andb_prop in Hc as [Hcr Htags].
    apply andb_prop in Hcr as [Hc Hrating].
    apply String.eqb_eq in Hc.
    destruct (rating r) as [n |]; [| discriminate].
    apply Z.ltb_lt in Hrating.
    split; [exact Hc |]. split; [now exists n |].
    now destruct (feedback_tags r).
Qed.

End ReadClaims.

Lemma getLearningContext_reads_witness :
  let records := sample_table in
  getLearningContext table_client "stage" "rustic" (mkWorld sample_table [])
  = (Ok (mkLearning (spec_examples records "stage" "rustic")
           (spec_constraints records "stage")), mkWorld sample_table [])
  /\ (List.length (chosen_examples records "stage" "rustic") <= 3)%nat
  /\ (forall r, In r (chosen_examples records "stage" "rustic") ->
        In r records /\ rec_category r = "stage" /\ rec_style r = "rustic"
        /\ rating r = Some 5)
  /\ (forall r r',
        In r (chosen_examples records "stage" "rustic") ->
        In r' records -> is_example "stage" "rustic" r' = true ->
        ~ In r' (chosen_examples records "stage" "rustic") ->
        created_at r' <= created_at r)
  /\ (List.length (chosen_complaints records "stage") <= 10)%nat
  /\ (forall r, In r (chosen_complaints records "stage") ->
        In r records /\ rec_category r = "stage"
        /\ (exists n, rating r = Some n /\ n < 3)
        /\ feedback_tags r <> None).
Proof.
  apply (getLearningContext_reads table_client (fun t => t) "stage" "rustic"
           (mkWorld sample_table [])).
  intros q w response Hread. unfold table_client. now rewrite Hread.
Defined.

(** On the sample table: the three most recent five-star prompts of the
    rustic stage, and the distinct tags of its two low-rated renders. *)
Example getLearningContext_sample :
  fst (getLearningContext table_client "stage" "rustic"
         (mkWorld sample_table []))
  = Ok (mkLearning
          (String.concat example_separator
             ["prompt two"; "prompt four"; "prompt six"])
          "too dark, blurry, wrong colors").
Proof. vm_compute. reflexivity. Qed.

(* ================================================================= *)
(** * Part III: further properties of the service and its callers *)
(* ================================================================= *)

(** ** Every run of callWithRetry *)

Section RetryRuns.
Context {W T : Type}.
Variable fn : @operation W T.
Variable retries : Z.

(** One turn whose invocation is rejected with a value the classification
    cannot read: the error of the classification is thrown. *)
Lemma retry_loop_classification_throws fuel i delay lastError s e w' t :
  i < retries ->
  fn (remote s) = (Throw e, w') ->
  isLoadError e = Throw t ->
  retry_loop fn retries (S fuel) i delay lastError s
  = (Throw t, mkWorld w' (trace s ++ [EvCall])).
Proof.
  intros Hi Hfn Hload. simpl.
  apply Z.ltb_lt in Hi. rewrite Hi.
  rewrite (try_catch_throw _ _ _ _ _ (invoke_eq fn _ _ _ Hfn)).
  unfold bind at 1, lift. now rewrite Hload.
Qed.

(** Every run of the loop that takes a turn: [n] rounds rejected with load
    errors, each followed by its warning and its sleep, then one last
    invocation that decides the result. *)
Lemma retry_loop_run fuel :
  forall i delay lastError s,
    retries - i <= Z.of_nat fuel ->
    i < retries ->
    let out := retry_loop fn retries fuel i delay lastError s in
    exists n,
      i + Z.of_nat n < retries
      /\ (forall k, (k < n)%nat ->
            exists e, nth_outcome fn k (remote s) = Throw e
                      /\ isLoadError e = Ok true)
      /\ trace (snd out)
         = (trace s ++ failed_rounds retries i delay n ++ [EvCall])%list
      /\ remote (snd out) = state_after fn (S n) (remote s)
      /\ run_end retries i n (nth_outcome fn n (remote s)) (fst out).
Proof.
  induction fuel as [| fuel IH]; intros i delay lastError s Hfuel Hi out;
    [lia |].
  subst out.
  destruct (fn (remote s)) as [[v | e] w'] eqn:Hfn.
  - exists O. rewrite (retry_loop_success fn retries _ _ _ _ _ v w' Hi Hfn).
    cbn [fst snd trace remote failed_rounds app state_after].
    unfold nth_outcome. cbn [state_after]. rewrite Hfn.
    repeat split; [lia | intros k Hk; lia].
  - destruct (isLoadError e) as [load | t] eqn:Hload.
    + destruct load.
      * destruct (Z.ltb_spec i (retries - 1)) as [Hmore | Hlast].
        -- rewrite (retry_loop_retry fn retries _ _ _ _ _ e w' Hmore Hfn
                      Hload).
           destruct (IH (i + 1) (delay * 2) e
                       (mkWorld w'
                          (trace s ++ [EvCall; EvWarn (i + 1) retries delay;
                                       EvSleep delay]))
                       ltac:(lia) ltac:(lia))
             as (n & Hn & Hfail & Htrace & Hremote & Hend).
           exists (S n). cbn [remote trace] in *.
           split; [lia |].
           split.
           { intros k Hk. destruct k as [| k].
             - exists e. unfold nth_outcome. cbn [state_after].
               rewrite Hfn. now split.
             - destruct (Hfail k ltac:(lia)) as (e' & He' & Hl').
               exists e'. split; [| exact Hl'].
               unfold nth_outcome in *. cbn [state_after].
               now rewrite Hfn. }
           split.
           { rewrite Htrace. cbn [failed_rounds].
             now rewrite <- !app_assoc. }
           split.
           { rewrite Hremote. cbn [state_after]. now rewrite Hfn. }
           unfold run_end in *. unfold nth_outcome in *.
           cbn [state_after]. rewrite Hfn. cbn [snd].
           destruct (fst (fn (state_after fn n w'))) as [v | e'];
             [exact Hend |].
           destruct (isLoadError e') as [load' | t']; [| exact Hend].
           destruct Hend as [Hres Hwhy]. split; [exact Hres |].
           destruct Hwhy as [Hf | Hx]; [now left | right; lia].
        -- exists O.
           rewrite (retry_loop_give_up fn retries _ _ _ _ _ e w' true Hi Hfn
                      Hload ltac:(right; lia)).
           cbn [fst snd trace remote failed_rounds app state_after].
           unfold run_end, nth_outcome. cbn [state_after].
           rewrite Hfn. cbn [fst snd]. rewrite Hload.
           repeat split; [lia | intros k Hk; lia | right; lia].
      * exists O.
        rewrite (retry_loop_give_up fn retries _ _ _ _ _ e w' false Hi Hfn
                   Hload ltac:(now left)).
        cbn [fst snd trace remote failed_rounds app state_after].
        unfold run_end, nth_outcome. cbn [state_after].
        rewrite Hfn. cbn [fst snd]. rewrite Hload.
        repeat split; [lia | intros k Hk; lia | now left].
    + exists O.
      rewrite (retry_loop_classification_throws _ _ _ _ _ e w' t Hi Hfn
                 Hload).
      cbn [fst snd trace remote failed_rounds app state_after].
      unfold run_end, nth_outcome. cbn [state_after].
      rewrite Hfn. cbn [fst snd]. rewrite Hload.
      repeat split; [lia | intros k Hk; lia].
Qed.

End RetryRuns.

Section RetryExtras.
Context {W T : Type}.
Variable fn : @operation W T.

(** X1. Every run of [callWithRetry], whatever the operation does: the
    operation is invoked at most [retries] times, the sleeps are the backoff
    schedule [delay], [2·delay], ... with one sleep less than invocations,
    and the remote state is the one those invocations leave. *)
Theorem callWithRetry_schedule (retries delay : Z) (w : W) :
  let out := callWithRetry fn retries delay (mkWorld w []) in
  (attempts (trace (snd out)) <= Z.to_nat retries)%nat
  /\ delays (trace (snd out))
     = backoff delay (attempts (trace (snd out)) - 1)
  /\ remote (snd out) = state_after fn (attempts (trace (snd out))) w.
Proof.
  intros out. subst out. unfold callWithRetry.
  destruct (Z.ltb_spec 0 retries) as [Hpos | Hneg].
  - destruct (retry_loop_run fn retries (Z.to_nat retries) 0 delay JUndefined
                (mkWorld w []) ltac:(lia) Hpos)
      as (n & Hn & _ & Htrace & Hremote & _).
    cbn [trace remote app] in Htrace, Hremote.
    rewrite Htrace, Hremote, attempts_app, delays_app,
      attempts_failed_rounds, delays_failed_rounds.
    cbn [attempts delays]. rewrite app_nil_r.
    replace (n + 1 - 1)%nat with n by lia.
    replace (n + 1)%nat with (S n) by lia.
    split; [lia | now split].
  - replace (Z.to_nat retries) with O by lia. cbn.
    split; [lia | now split].
Qed.

(** X2. With no attempt allowed ([retries <= 0]) the operation is never
    invoked and the call is rejected with [undefined], the initial value of
    [lastError]. *)
Theorem callWithRetry_no_attempt (retries delay : Z) (s : World W) :
  retries <= 0 ->
  callWithRetry fn retries delay s = (Throw JUndefined, s).
Proof.
  intros Hneg. unfold callWithRetry.
  replace (Z.to_nat retries) with O by lia. reflexivity.
Qed.

(** X3. When the first invocation is rejected with a value the
    classification cannot read (its text is neither a string nor an array,
    as for a rejection with [undefined]), [callWithRetry] throws the error
    of the classification, not the value the operation was rejected with,
    after that one invocation and without sleeping. *)
Theorem callWithRetry_unreadable_error
    (retries delay : Z) (w w' : W) (e t : value) :
  1 <= retries ->
  fn w = (Throw e, w') ->
  isLoadError e = Throw t ->
  let out := callWithRetry fn retries delay (mkWorld w []) in
  fst out = Throw t
  /\ attempts (trace (snd out)) = 1%nat
  /\ delays (trace (snd out)) = [].
Proof.
  intros Hle Hfn Hload out. subst out. unfold callWithRetry.
  replace (Z.to_nat retries) with (S (Z.to_nat retries - 1)) by lia.
  rewrite (retry_loop_classification_throws fn retries _ _ _ _ _ e w' t);
    [| lia | exact Hfn | exact Hload].
  repeat split.
Qed.

(** X4. With the defaults of the call sites (5 attempts, 3000 ms) no run
    invokes the operation more than 5 times, its sleeps are a prefix of
    3000, 6000, 12000, 24000, and it sleeps 45000 ms at most. *)
Theorem callWithRetry_default_bounds (w : W) :
  let out := callWithRetry_default fn (mkWorld w []) in
  (attempts (trace (snd out)) <= 5)%nat
  /\ (exists k, (k <= 4)%nat
                /\ delays (trace (snd out))
                   = firstn k [3000; 6000; 12000; 24000])
  /\ total_delay (trace (snd out)) <= 45000.
Proof.
  intros out. subst out. unfold callWithRetry_default, callWithRetry.
  destruct (retry_loop_run fn 5 (Z.to_nat 5) 0 3000 JUndefined
              (mkWorld w []) ltac:(lia) ltac:(lia))
    as (n & Hn & _ & Htrace & _ & _).
  cbn [trace remote app] in Htrace.
  unfold total_delay.
  rewrite Htrace, attempts_app, delays_app, attempts_failed_rounds,
    delays_failed_rounds.
  cbn [attempts delays]. rewrite app_nil_r.
  assert (Hcases : (n = 0 \/ n = 1 \/ n = 2 \/ n = 3 \/ n = 4)%nat) by lia.
  split; [lia |].
  split; [exists n; split; [lia |] |];
    destruct Hcases as [-> | [-> | [-> | [-> | ->]]]];
    cbn; try reflexivity; lia.
Qed.

(** X5. A fulfilled [callWithRetry] returns a value of the operation: the
    value of its last invocation, every invocation before it having been
    rejected with a load error. *)
Theorem callWithRetry_fulfilled (retries delay : Z) (w : W) (v : T) :
  let out := callWithRetry fn retries delay (mkWorld w []) in
  fst out = Ok v ->
  exists N,
    attempts (trace (snd out)) = N
    /\ (1 <= N)%nat /\ Z.of_nat N <= retries
    /\ (forall k, (k < N - 1)%nat ->
          exists e, nth_outcome fn k w = Throw e /\ isLoadError e = Ok true)
    /\ nth_outcome fn (N - 1) w = Ok v.
Proof.
  intros out Hok. subst out. unfold callWithRetry in *.
  destruct (Z.ltb_spec 0 retries) as [Hpos | Hneg].
  - destruct (retry_loop_run fn retries (Z.to_nat retries) 0 delay JUndefined
                (mkWorld w []) ltac:(lia) Hpos)
      as (n & Hn & Hfail & Htrace & _ & Hend).
    cbn [trace remote app] in Htrace, Hfail, Hend.
    exists (S n). rewrite Htrace, attempts_app, attempts_failed_rounds.
    replace (S n - 1)%nat with n by lia.
    split; [cbn; lia |]. split; [lia |]. split; [lia |].
    split; [exact Hfail |].
    unfold run_end in Hend. rewrite Hok in Hend.
    destruct (nth_outcome fn n w) as [v' | e]; [now rewrite Hend |].
    destruct (isLoadError e) as [load | t];
      [destruct Hend as [Hend _] |]; discriminate Hend.
  - replace (Z.to_nat retries) with O in Hok by lia. discriminate Hok.
Qed.

(** X6. A rejected [callWithRetry] with an attempt allowed: its last
    invocation was rejected, every invocation before it with a load error,
    and what is thrown is the error of that last invocation (which is no
    load error, or came at the last attempt allowed) or else the error of a
    classification that could not read it. *)
Theorem callWithRetry_rejected (retries delay : Z) (w : W) (x : value) :
  1 <= retries ->
  let out := callWithRetry fn retries delay (mkWorld w []) in
  fst out = Throw x ->
  exists N e,
    attempts (trace (snd out)) = N
    /\ (1 <= N)%nat /\ Z.of_nat N <= retries
    /\ (forall k, (k < N - 1)%nat ->
          exists e', nth_outcome fn k w = Throw e'
                     /\ isLoadError e' = Ok true)
    /\ nth_outcome fn (N - 1) w = Throw e
    /\ ((x = e /\ (isLoadError e = Ok false
                   \/ (isLoadError e = Ok true /\ Z.of_nat N = retries)))
        \/ isLoadError e = Throw x).
Proof.
  intros Hle out Hthrow. subst out. unfold callWithRetry in *.
  destruct (retry_loop_run fn retries (Z.to_nat retries) 0 delay JUndefined
              (mkWorld w []) ltac:(lia) ltac:(lia))
    as (n & Hn & Hfail & Htrace & _ & Hend).
  cbn [trace remote app] in Htrace, Hfail, Hend.
  unfold run_end in Hend. rewrite Hthrow in Hend.
  destruct (nth_outcome fn n w) as [v | e] eqn:Hlast; [discriminate Hend |].
  exists (S n), e. rewrite Htrace, attempts_app, attempts_failed_rounds.
  replace (S n - 1)%nat with n by lia.
  split; [cbn; lia |]. split; [lia |]. split; [lia |].
  split; [exact Hfail |]. split; [exact Hlast |].
  destruct (isLoadError e) as [load | t].
  - destruct Hend as [[= ->] Hwhy]. left. split; [reflexivity |].
    destruct load.
    + right. split; [reflexivity |].
      destruct Hwhy as [Hf | Hx]; [discriminate Hf | lia].
    + now left.
  - injection Hend as ->. now right.
Qed.

End RetryExtras.

Lemma callWithRetry_no_attempt_witness :
  callWithRetry flaky_operation 0 3000 (mkWorld 0%nat [])
  = (Throw JUndefined, mkWorld 0%nat []).
Proof.
  apply (callWithRetry_no_attempt flaky_operation 0 3000 (mkWorld 0%nat [])).
  lia.
Defined.

Lemma callWithRetry_unreadable_error_witness :
  let out := callWithRetry undefined_operation 5 3000 (mkWorld 0%nat []) in
  fst out = Throw (TypeError "Cannot read properties of undefined")
  /\ attempts (trace (snd out)) = 1%nat
  /\ delays (trace (snd out)) = [].
Proof.
  apply (callWithRetry_unreadable_error undefined_operation 5 3000 0%nat
           1%nat JUndefined).
  - lia.
  - reflexivity.
  - reflexivity.
Defined.

Lemma callWithRetry_fulfilled_witness :
  exists N,
    attempts (trace (snd (callWithRetry flaky_operation 5 3000
                            (mkWorld 0%nat [])))) = N
    /\ (1 <= N)%nat /\ Z.of_nat N <= 5
    /\ (forall k, (k < N - 1)%nat ->
          exists e, nth_outcome flaky_operation k 0%nat = Throw e
                    /\ isLoadError e = Ok true)
    /\ nth_outcome flaky_operation (N - 1) 0%nat = Ok "rendered".
Proof.
  apply (callWithRetry_fulfilled flaky_operation 5 3000 0%nat "rendered").
  reflexivity.
Defined.

Lemma callWithRetry_rejected_witness :
  exists N e,
    attempts (trace (snd (callWithRetry invalid_operation 5 3000
                            (mkWorld 0%nat [])))) = N
    /\ (1 <= N)%nat /\ Z.of_nat N <= 5
    /\ (forall k, (k < N - 1)%nat ->
          exists e', nth_outcome invalid_operation k 0%nat = Throw e'
                     /\ isLoadError e' = Ok true)
    /\ nth_outcome invalid_operation (N - 1) 0%nat = Throw e
    /\ ((JObj [("message", JStr "API key not valid"); ("code", JNum 400)] = e
         /\ (isLoadError e = Ok false
             \/ (isLoadError e = Ok true /\ Z.of_nat N = 5)))
        \/ isLoadError e
           = Throw (JObj [("message", JStr "API key not valid");
                          ("code", JNum 400)])).
Proof.
  apply (callWithRetry_rejected invalid_operation 5 3000 0%nat
           (JObj [("message", JStr "API key not valid"); ("code", JNum 400)])).
  - lia.
  - reflexivity.
Defined.

(** ** The offline client, for every chain *)

Lemma mock_chain_builder (q : query) :
  (forall c, In c q -> meth c <> m_single) ->
  mock_chain MockChain q = Ok MockChain.
Proof.
  induction q as [| c q IH]; intros Hq; [reflexivity |].
  cbn [mock_chain].
  assert (Hc : mock_call MockChain c = Ok MockChain).
  { assert (Hm : meth c <> m_single) by (apply Hq; now left).
    unfold mock_call. destruct (meth c); try reflexivity. congruence. }
  rewrite Hc. cbn [rbind]. apply IH. intros c' Hc'. apply Hq. now right.
Qed.

Lemma mock_chain_app (q1 q2 : query) (t : mock_value) :
  mock_chain MockChain q1 = Ok t ->
  mock_chain MockChain (q1 ++ q2)%list = mock_chain t q2.
Proof.
  generalize MockChain as t0. revert t.
  induction q1 as [| c q1 IH]; intros t t0 H1.
  - cbn in *. now injection H1 as ->.
  - cbn [app mock_chain] in *.
    destruct (mock_call t0 c) as [t1 | e]; [| discriminate H1].
    cbn [rbind] in *. now apply IH.
Qed.

(** X7. The offline client never rejects and never reports an error,
    whatever builder methods are chained and whatever their arguments: a
    chain without [single()] is answered with an empty list of rows and a
    null error, and a chain closed by [single()] with the placeholder row
    and a null error; the remote state is not touched. *)
Theorem createMockChain_never_fails {W : Type} (q : query) (w : W) :
  (forall c, In c q -> meth c <> m_single) ->
  createMockChain q w = (Ok mock_then_response, w)
  /\ (forall a,
        createMockChain (q ++ [mkCall m_single a])%list w
        = (Ok mock_single_response, w)).
Proof.
  intros Hq. pose proof (mock_chain_builder q Hq) as Hchain.
  unfold createMockChain. split.
  - now rewrite Hchain.
  - intros a. now rewrite (mock_chain_app q _ _ Hchain).
Qed.

Lemma createMockChain_never_fails_witness :
  createMockChain (update_query "no-such-id" 1 ["blurry"]) tt
  = (Ok mock_then_response, tt)
  /\ (forall a,
        createMockChain
          (update_query "no-such-id" 1 ["blurry"] ++ [mkCall m_single a])%list
          tt
        = (Ok mock_single_response, tt)).
Proof.
  apply (createMockChain_never_fails (update_query "no-such-id" 1 ["blurry"])
           tt).
  intros c Hc. cbn in Hc.
  destruct Hc as [<- | [<- | [<- | []]]]; discriminate.
Defined.

(** ** saveRenderHistory over any client *)

(** X8. [saveRenderHistory] never throws, whatever the persistence client
    does: it returns [null] when the insert is rejected, when the response
    reports an error and when the response carries no row, and the [id] of
    the returned row otherwise. *)
Theorem saveRenderHistory_never_throws {W : Type} (supabase : client W)
    (o : RenderOptions) (p : string) (s : World W)
    (answer : Res value) (w' : W) :
  supabase (insert_query o p) (remote s) = (answer, w') ->
  let out := fst (saveRenderHistory supabase o p s) in
  (exists id, out = Ok id)
  /\ (forall e, answer = Throw e -> out = Ok JNull)
  /\ (forall response,
        answer = Ok response ->
        truthy (opt_get response "error") = true -> out = Ok JNull)
  /\ (forall response,
        answer = Ok response ->
        nullish (opt_get response "data") = true -> out = Ok JNull)
  /\ (forall response,
        answer = Ok response ->
        truthy (opt_get response "error") = false ->
        nullish (opt_get response "data") = false ->
        out = Ok (opt_get (opt_get response "data") "id")).
Proof.
  intros Hq out. subst out.
  pose proof (await_query_eq supabase _ s _ _ Hq) as Ha.
  unfold saveRenderHistory, saveRenderHistory_body, try_catch.
  destruct answer as [response | e].
  - rewrite (bind_ok _ _ _ _ _ Ha). unfold lift, bind, throw, prop.
    destruct (nullish response) eqn:Hnull.
    + assert (Hund : forall k, opt_get response k = JUndefined)
        by (intros k; destruct response; try discriminate; reflexivity).
      cbn [fst]. split; [now exists JNull |].
      split; [discriminate |].
      split; [intros r [= <-]; rewrite Hund; discriminate |].
      split; [reflexivity |].
      intros r [= <-] _. rewrite Hund. discriminate.
    + destruct (truthy (opt_get response "error")) eqn:Herr.
      * cbn [fst]. split; [now exists JNull |].
        split; [discriminate |]. split; [reflexivity |].
        split; [reflexivity |].
        intros r [= <-]. congruence.
      * destruct (nullish (opt_get response "data")) eqn:Hdata; cbn [fst].
        -- split; [now exists JNull |].
           split; [discriminate |].
           split; [intros r [= <-]; congruence |].
           split; [reflexivity |].
           intros r [= <-]. congruence.
        -- split; [eexists; reflexivity |].
           split; [discriminate |].
           split; [intros r [= <-]; congruence |].
           split; [intros r [= <-]; congruence |].
           now intros r [= <-].
  - rewrite (bind_throw _ _ _ _ _ Ha). cbn [fst].
    split; [now exists JNull |]. split; [reflexivity |].
    repeat split; discriminate.
Qed.

Lemma saveRenderHistory_never_throws_witness :
  let out := fst (saveRenderHistory reporting_client options_all_concrete
                    "prompt" (mkWorld tt [])) in
  let answer :=
    @Ok value (JObj [("data", JNull);
                     ("error", JObj [("message", JStr "no rows updated");
                                     ("code", JStr "PGRST116")])]) in
  (exists id, out = Ok id)
  /\ (forall e, answer = Throw e -> out = Ok JNull)
  /\ (forall response,
        answer = Ok response ->
        truthy (opt_get response "error") = true -> out = Ok JNull)
  /\ (forall response,
        answer = Ok response ->
        nullish (opt_get response "data") = true -> out = Ok JNull)
  /\ (forall response,
        answer = Ok response ->
        truthy (opt_get response "error") = false ->
        nullish (opt_get response "data") = false ->
        out = Ok (opt_get (opt_get response "data") "id")).
Proof.
  apply (saveRenderHistory_never_throws reporting_client options_all_concrete
           "prompt" (mkWorld tt []) _ tt).
  reflexivity.
Defined.

(** ** generateWeddingRender over any persistence client *)

Section RenderExtras.
Context {W : Type}.
Variable supabase : client W.
Variable generateContent :
  GenerateContentRequest -> W -> Res GenerateContentResponse * W.
Variable API_KEY : option string.
Variable PHOTOGRAPHY_PRESETS : string -> option string.
Variable PHOTOGRAPHY_PRESETS_CINEMATIC : string.
Variable STRUCTURE_FIDELITY_PROMPT : string.
Variable REALISM_MODIFIERS : string.

Lemma getLearningContext_total cat sty (s : World W) :
  exists lc s', getLearningContext supabase cat sty s = (Ok lc, s').
Proof.
  unfold getLearningContext, try_catch.
  destruct (getLearningContext_body supabase cat sty s) as [[lc | e] s'];
    eexists; eexists; reflexivity.
Qed.

Lemma saveRenderHistory_total o p (s : World W) :
  exists id s', saveRenderHistory supabase o p s = (Ok id, s').
Proof.
  unfold saveRenderHistory, try_catch.
  destruct (saveRenderHistory_body supabase o p s) as [[id | e] s'];
    eexists; eexists; reflexivity.
Qed.

Lemma saveRenderHistory_rejected o p (s : World W) :
  (forall q w, exists e w', supabase q w = (Throw e, w')) ->
  exists s', saveRenderHistory supabase o p s = (Ok JNull, s').
Proof.
  intros Hrej.
  destruct (Hrej (insert_query o p) (remote s)) as (e & w' & Hq).
  unfold saveRenderHistory, saveRenderHistory_body.
  rewrite (try_catch_throw _ _ _ _ _
             (bind_throw _ _ _ _ _ (await_query_eq supabase _ s _ _ Hq))).
  eexists. reflexivity.
Qed.

(** X9. Persistence is never fatal to a generation. Whatever the
    persistence client does and whatever becomes of the scene analysis by
    the flash model, with an API key and an image model that answers with an
    image [generateWeddingRender] completes and returns an image of an
    answer of the image model; when the client rejects every request, the
    render identifier it returns is [null]. *)
Theorem generateWeddingRender_survives_persistence
    (sourceImage : FileData) (o : RenderOptions) (s : World W) :
  has_text API_KEY = true ->
  (forall req w,
     model req = "gemini-3-pro-image-preview" ->
     exists resp w',
       generateContent req w = (Ok resp, w') /\ first_image resp <> None) ->
  exists url id s',
    generateWeddingRender supabase generateContent API_KEY
      PHOTOGRAPHY_PRESETS PHOTOGRAPHY_PRESETS_CINEMATIC
      STRUCTURE_FIDELITY_PROMPT REALISM_MODIFIERS sourceImage o s
    = (Ok (mkResult url id), s')
    /\ (exists req w resp w',
          model req = "gemini-3-pro-image-preview"
          /\ generateContent req w = (Ok resp, w')
          /\ first_image resp = Some url)
    /\ ((forall q w, exists e w', supabase q w = (Throw e, w')) ->
        id = JNull).
Proof.
  intros Hkey Himage.
  unfold generateWeddingRender. rewrite Hkey. cbn [negb].
  destruct (getLearningContext_total (category o) (style o) s)
    as (lc & s0 & Hlc).
  rewrite (bind_ok _ _ _ _ _ Hlc).
  destruct (masterPrompt_step_returns generateContent PHOTOGRAPHY_PRESETS
              PHOTOGRAPHY_PRESETS_CINEMATIC STRUCTURE_FIDELITY_PROMPT
              REALISM_MODIFIERS sourceImage o
              (baseDescription o (getEmpowermentPrompt o))
              (learningPromptInjection o lc) s0)
    as (p & s1 & Hstep).
  rewrite (bind_ok _ _ _ _ _ Hstep).
  destruct (Himage (render_request p sourceImage) (remote s1) eq_refl)
    as (resp & w2 & Hgen & Himg).
  destruct (first_image resp) as [url |] eqn:Hurl; [| congruence].
  pose proof (callWithRetry_default_first_success _ s1 resp w2 Hgen)
    as Hcall.
  destruct (saveRenderHistory_total o p (mkWorld w2 (trace s1 ++ [EvCall])))
    as (id & s3 & Hsave).
  exists url, id, s3. split; [| split].
  - apply try_catch_ok.
    rewrite (bind_ok _ _ _ _ _ Hcall), Hurl.
    now rewrite (bind_ok _ _ _ _ _ Hsave).
  - exists (render_request p sourceImage), (remote s1), resp, w2.
    now repeat split.
  - intros Hrej.
    destruct (saveRenderHistory_rejected o p
                (mkWorld w2 (trace s1 ++ [EvCall])) Hrej) as [s3' Hnull].
    congruence.
Qed.

(** X10. Only the first candidate of the answer is read: when the image
    model answers without an image among the parts of its first candidate,
    [generateWeddingRender] is rejected with the error "No image generated
    in the response.", whatever the persistence client does and whatever the
    later candidates hold. *)
Theorem generateWeddingRender_no_image
    (sourceImage : FileData) (o : RenderOptions) (s : World W) :
  has_text API_KEY = true ->
  (forall req w,
     model req = "gemini-3-pro-image-preview" ->
     exists resp w',
       generateContent req w = (Ok resp, w') /\ first_image resp = None) ->
  fst (generateWeddingRender supabase generateContent API_KEY
         PHOTOGRAPHY_PRESETS PHOTOGRAPHY_PRESETS_CINEMATIC
         STRUCTURE_FIDELITY_PROMPT REALISM_MODIFIERS sourceImage o s)
  = Throw (Error "No image generated in the response.").
Proof.
  intros Hkey Himage.
  unfold generateWeddingRender. rewrite Hkey. cbn [negb].
  destruct (getLearningContext_total (category o) (style o) s)
    as (lc & s0 & Hlc).
  rewrite (bind_ok _ _ _ _ _ Hlc).
  destruct (masterPrompt_step_returns generateContent PHOTOGRAPHY_PRESETS
              PHOTOGRAPHY_PRESETS_CINEMATIC STRUCTURE_FIDELITY_PROMPT
              REALISM_MODIFIERS sourceImage o
              (baseDescription o (getEmpowermentPrompt o))
              (learningPromptInjection o lc) s0)
    as (p & s1 & Hstep).
  rewrite (bind_ok _ _ _ _ _ Hstep).
  destruct (Himage (render_request p sourceImage) (remote s1) eq_refl)
    as (resp & w2 & Hgen & Himg).
  pose proof (callWithRetry_default_first_success _ s1 resp w2 Hgen)
    as Hcall.
  unfold try_catch.
  rewrite (bind_ok _ _ _ _ _ Hcall), Himg. reflexivity.
Qed.

End RenderExtras.

Lemma generateWeddingRender_survives_persistence_witness :
  exists url id s',
    generateWeddingRender rejecting_client sample_generateContent
      (Some "key") sample_presets "cinematic 35mm" "keep the structure"
      "photorealistic" sample_image options_all_concrete (mkWorld tt [])
    = (Ok (mkResult url id), s')
    /\ (exists req w resp w',
          model req = "gemini-3-pro-image-preview"
          /\ sample_generateContent req w = (Ok resp, w')
          /\ first_image resp = Some url)
    /\ ((forall q w, exists e w', rejecting_client q w = (Throw e, w')) ->
        id = JNull).
Proof.
  apply (generateWeddingRender_survives_persistence rejecting_client
           sample_generateContent (Some "key") sample_presets
           "cinematic 35mm" "keep the structure" "photorealistic"
           sample_image options_all_concrete (mkWorld tt [])).
  - reflexivity.
  - intros req w Hmodel. unfold sample_generateContent.
    rewrite Hmodel. cbn [String.eqb].
    eexists. exists w. split; [vm_compute; reflexivity | discriminate].
Defined.

Lemma generateWeddingRender_no_image_witness :
  fst (generateWeddingRender rejecting_client
         second_candidate_generateContent (Some "key") sample_presets
         "cinematic 35mm" "keep the structure" "photorealistic"
         sample_image options_all_concrete (mkWorld tt []))
  = Throw (Error "No image generated in the response.").
Proof.
  apply (generateWeddingRender_no_image rejecting_client
           second_candidate_generateContent (Some "key") sample_presets
           "cinematic 35mm" "keep the structure" "photorealistic"
           sample_image options_all_concrete (mkWorld tt [])).
  - reflexivity.
  - intros req w _. eexists. exists w. split; reflexivity.
Defined.

(** ** getEmpowermentPrompt for every selection *)

Lemma autoInstructions_nil_concrete o :
  autoInstructions o = [] -> all_concrete o.
Proof.
  unfold autoInstructions, all_concrete.
  split_sentinels o; cbn; intros H; try discriminate H.
  rewrite <- !String.eqb_neq. now repeat split.
Qed.

Lemma getEmpowermentPrompt_block o :
  autoInstructions o <> [] -> getEmpowermentPrompt o <> "".
Proof.
  unfold getEmpowermentPrompt.
  destruct (autoInstructions o) as [| d ds]; [congruence |].
  cbn. discriminate.
Qed.

(** X11. For every selection: the directives in the block are exactly the
    directives pushed, in order; there are never more than six of them (the
    directive on the textile material and those on the two textile colours
    exclude each other); and the block is the empty string exactly when
    every one of the seven fields holds a concrete value. *)
Theorem getEmpowermentPrompt_directives (o : RenderOptions) :
  directives (getEmpowermentPrompt o) = autoInstructions o
  /\ (List.length (autoInstructions o) <= 6)%nat
  /\ (getEmpowermentPrompt o = "" <-> all_concrete o).
Proof.
  split; [| split].
  - apply directives_of_block.
  - unfold autoInstructions. split_sentinels o; cbn; lia.
  - split.
    + intros Hempty. apply autoInstructions_nil_concrete.
      destruct (autoInstructions o) as [| d ds] eqn:Hd; [reflexivity |].
      exfalso. apply (getEmpowermentPrompt_block o); [| exact Hempty].
      rewrite Hd. discriminate.
    + intros Hall. unfold getEmpowermentPrompt.
      now rewrite (autoInstructions_all_concrete o Hall).
Qed.

(** ** Strings *)

Lemma string_app_assoc (a b c : string) : (a ++ b) ++ c = a ++ b ++ c.
Proof.
  induction a as [| ch a IH]; [reflexivity |].
  cbn. now rewrite IH.
Qed.

Lemma string_app_nil_r (a : string) : a ++ "" = a.
Proof. induction a as [| ch a IH]; [reflexivity |]. cbn. now rewrite IH. Qed.

(** [prefix] and [includes] by what they decide. *)
Lemma prefix_iff (n h : string) :
  String.prefix n h = true <-> exists rest, h = n ++ rest.
Proof.
  revert h. induction n as [| ch n IH]; intros h.
  - split; [intros _; now exists h | intros _; now destruct h].
  - destruct h as [| ch' h]; cbn.
    + split; [discriminate | intros [rest H]; discriminate H].
    + destruct (ascii_dec ch ch') as [<- | Hne].
      * rewrite IH. split; intros [rest H]; exists rest.
        -- now rewrite H.
        -- now injection H.
      * split; [discriminate | intros [rest H]; congruence].
Qed.

Lemma includes_iff (h n : string) :
  includes h n = true <-> exists a b, h = a ++ n ++ b.
Proof.
  induction h as [| ch h IH]; cbn [includes].
  - rewrite orb_false_r, prefix_iff. split.
    + intros [rest H]. now exists "", rest.
    + intros (a & b & H). destruct a; [now exists b | discriminate H].
  - rewrite orb_true_iff, prefix_iff, IH. split.
    + intros [[rest H] | (a & b & H)].
      * now exists "", rest.
      * exists (String ch a), b. cbn. now rewrite H.
    + intros (a & b & H). destruct a as [| ch' a].
      * left. now exists b.
      * right. exists a, b. cbn in H. now injection H.
Qed.

Lemma includes_app_r (a b needle : string) :
  includes b needle = true -> includes (a ++ b) needle = true.
Proof.
  rewrite !includes_iff. intros (x & y & ->).
  exists (a ++ x), y. now rewrite string_app_assoc.
Qed.

Lemma includes_app_l (a b needle : string) :
  includes a needle = true -> includes (a ++ b) needle = true.
Proof.
  rewrite !includes_iff. intros (x & y & ->).
  exists x, (y ++ b). now rewrite !string_app_assoc.
Qed.

Lemma includes_head (needle rest : string) :
  includes (needle ++ rest) needle = true.
Proof. apply includes_iff. now exists "", rest. Qed.

Lemma includes_trans (h m n : string) :
  includes h m = true -> includes m n = true -> includes h n = true.
Proof.
  rewrite !includes_iff. intros (a & b & ->) (c & d & ->).
  exists (a ++ c), (d ++ b). now rewrite !string_app_assoc.
Qed.

(** ** The request of generateIdeaRender *)

Section IdeaParts.
Variable N : Numbers.

Lemma place_assets_eq (assets : list (IdeaAsset N)) :
  forall index requestParts text,
    place_assets index assets requestParts text
    = ((requestParts ++ images_of assets)%list,
       text ++ asset_instructions index assets).
Proof.
  induction assets as [| a assets IH]; intros index requestParts text.
  - cbn. rewrite app_nil_r. f_equal.
    induction text as [| ch text IHt]; [reflexivity |].
    cbn. now rewrite <- IHt.
  - cbn [place_assets]. rewrite IH. cbn [images_of flat_map asset_instructions].
    f_equal.
    + fold (images_of assets).
      destruct (asset_image a); [now rewrite <- app_assoc | reflexivity].
    + now rewrite !string_app_assoc.
Qed.

Lemma idea_request_parts_eq (sketch : FileData) (assets : list (IdeaAsset N)) :
  idea_request_parts sketch assets
  = (InlinePart (mimeType sketch) (base64 sketch) :: images_of assets
     ++ [TextPart (idea_prompt_text assets)])%list.
Proof.
  unfold idea_request_parts, idea_prompt_text.
  rewrite place_assets_eq. reflexivity.
Qed.

Lemma images_of_app (l1 l2 : list (IdeaAsset N)) :
  images_of (l1 ++ l2) = (images_of l1 ++ images_of l2)%list.
Proof. unfold images_of. apply flat_map_app. Qed.

Lemma images_of_length_le (l : list (IdeaAsset N)) :
  (List.length (images_of l) <= List.length l)%nat.
Proof.
  induction l as [| a l IH]; [reflexivity |].
  cbn [images_of flat_map]. fold (images_of l).
  rewrite length_app. destruct (asset_image a); cbn; lia.
Qed.

Lemma images_of_full (l : list (IdeaAsset N)) :
  List.length (images_of l) = List.length l
  <-> (forall b, In b l -> asset_image b <> None).
Proof.
  induction l as [| a l IH]; [cbn; tauto |].
  cbn [images_of flat_map]. fold (images_of l).
  rewrite length_app. pose proof (images_of_length_le l) as Hle.
  destruct (asset_image a) as [img |] eqn:Himg; cbn [List.length Nat.add].
  - split.
    + intros Hlen b [<- | Hb]; [congruence |].
      apply IH; [lia | exact Hb].
    + intros Hall. f_equal. apply IH. intros b Hb. apply Hall. now right.
  - split; [lia |].
    intros Hall. exfalso. apply (Hall a); [now left | exact Himg].
Qed.

Lemma asset_instructions_includes (assets : list (IdeaAsset N)) :
  forall index i a,
    nth_error assets i = Some a ->
    includes (asset_instructions index assets) (asset_opening (index + i) a)
    = true.
Proof.
  induction assets as [| b assets IH]; intros index i a Hnth.
  - now destruct i.
  - destruct i as [| i]; cbn [nth_error asset_instructions] in *.
    + injection Hnth as ->. rewrite Nat.add_0_r.
      apply includes_head.
    + apply includes_app_r, includes_app_r.
      replace (index + S i)%nat with (S index + i)%nat by lia.
      now apply IH.
Qed.

(** X12. The request of [generateIdeaRender] holds the sketch first, then
    the images of the assets that carry one, in order, then the prompt. The
    instruction of an asset with an image, at index [i], names part
    [#(i + 2)]; its image is the part numbered two more than the number of
    earlier assets that carry an image. So the part named is the part that
    holds the image exactly when every earlier asset carries an image. *)
Theorem generateIdeaRender_part_numbers (sketch : FileData)
    (assets : list (IdeaAsset N)) (i : nat) (a : IdeaAsset N)
    (img : FileData) :
  nth_error assets i = Some a ->
  asset_image a = Some img ->
  let parts := idea_request_parts sketch assets in
  let position := S (List.length (images_of (firstn i assets))) in
  parts = (InlinePart (mimeType sketch) (base64 sketch) :: images_of assets
           ++ [TextPart (idea_prompt_text assets)])%list
  /\ nth_error parts position = Some (InlinePart (mimeType img) (base64 img))
  /\ includes (idea_prompt_text assets)
       ("[OBJECT " ++ dec (Z.of_nat i + 1)
        ++ "]: Use the image provided in Part #" ++ dec (Z.of_nat i + 2))
     = true
  /\ (S position = (i + 2)%nat
      <-> forall b, In b (firstn i assets) -> asset_image b <> None).
Proof.
  intros Hnth Himg parts position. subst parts position.
  rewrite idea_request_parts_eq.
  split; [reflexivity |]. split; [| split].
  - cbn [nth_error].
    assert (Hsplit : images_of assets
                     = (images_of (firstn i assets)
                        ++ images_of (skipn i assets))%list)
      by now rewrite <- images_of_app, firstn_skipn.
    rewrite Hsplit, <- app_assoc, nth_error_app2 by lia.
    rewrite Nat.sub_diag.
    assert (Hskip : skipn i assets = a :: skipn (S i) assets).
    { clear - Hnth. revert i Hnth.
      induction assets as [| b assets IH]; intros [| i] H;
        try discriminate H.
      - now injection H as ->.
      - cbn. now apply IH. }
    rewrite Hskip. cbn [images_of flat_map]. now rewrite Himg.
  - apply (includes_trans _ (asset_opening i a)).
    + unfold idea_prompt_text, idea_masterPrompt.
      apply includes_app_r, includes_app_l, includes_app_r.
      exact (asset_instructions_includes assets 0 i a Hnth).
    + unfold asset_opening. rewrite Himg.
      apply includes_iff.
      exists newline, (" as a visual reference." ++ newline).
      now rewrite !string_app_assoc.
  - pose proof (images_of_full (firstn i assets)) as Hfull.
    assert (Hlen : List.length (firstn i assets) = i).
    { apply firstn_length_le. apply Nat.lt_le_incl.
      apply nth_error_Some. congruence. }
    rewrite Hlen in Hfull. rewrite <- Hfull. lia.
Qed.

End IdeaParts.

Lemma generateIdeaRender_part_numbers_witness :
  let parts := idea_request_parts sample_image sample_assets in
  let position := S (List.length (images_of (firstn 2 sample_assets))) in
  parts = (InlinePart (mimeType sample_image) (base64 sample_image)
           :: images_of sample_assets
           ++ [TextPart (idea_prompt_text sample_assets)])%list
  /\ nth_error parts position
     = Some (InlinePart (mimeType (mkFile "dmFzZQ==" "image/jpeg"))
               (base64 (mkFile "dmFzZQ==" "image/jpeg")))
  /\ includes (idea_prompt_text sample_assets)
       ("[OBJECT " ++ dec (Z.of_nat 2 + 1)
        ++ "]: Use the image provided in Part #" ++ dec (Z.of_nat 2 + 2))
     = true
  /\ (S position = (2 + 2)%nat
      <-> forall b, In b (firstn 2 sample_assets) -> asset_image b <> None).
Proof.
  apply (generateIdeaRender_part_numbers sample_numbers sample_image
           sample_assets 2
           (@mkAsset sample_numbers "a3" 80%float 70%float
              (Some (mkFile "dmFzZQ==" "image/jpeg")) "vase")
           (mkFile "dmFzZQ==" "image/jpeg")).
  - reflexivity.
  - reflexivity.
Defined.

(** On the sample assets the second carries no image: the instruction of
    the third names part #4, which is the prompt, while its image is
    part #3. *)
Example generateIdeaRender_sample_parts :
  idea_request_parts sample_image sample_assets
  = [InlinePart "image/png" "c2tldGNo";
     InlinePart "image/png" "YXJjaA==";
     InlinePart "image/jpeg" "dmFzZQ==";
     TextPart (idea_prompt_text sample_assets)]
  /\ includes (idea_prompt_text sample_assets)
       "[OBJECT 3]: Use the image provided in Part #4 as a visual reference."
     = true.
Proof. split; vm_compute; reflexivity. Qed.

(** ** What the generation functions return *)

(** The literals of the service as doubles, and the aspect ratios asked for
    a landscape, a square and a portrait image. *)
Example aspectRatio_of_samples :
  literal "1.5" = 1.5%float
  /\ literal "0.6" = 0.6%float
  /\ literal "35" = 35%float
  /\ aspectRatio_of sample_numbers sample_sized_image = "16:9"
  /\ aspectRatio_of sample_numbers
       (@mkSized sample_numbers "image/png" "c2tldGNo"
          (Some 1450%float) (Some 1000%float)) = "4:3"
  /\ aspectRatio_of sample_numbers
       (@mkSized sample_numbers "image/png" "c2tldGNo"
          (Some 1000%float) (Some 1000%float)) = "3:4"
  /\ aspectRatio_of sample_numbers
       (@mkSized sample_numbers "image/png" "c2tldGNo"
          (Some 900%float) (Some 1600%float)) = "9:16"
  /\ aspectRatio_of sample_numbers
       (@mkSized sample_numbers "image/png" "c2tldGNo"
          (Some 0%float) (Some 1600%float)) = "16:9".
Proof. repeat split; vm_compute; reflexivity. Qed.

Lemma part_image_data_url p url : part_image p = Some url -> data_url url.
Proof.
  unfold part_image, data_url.
  destruct (inlineData p) as [d |]; [| discriminate].
  destruct (inlineBytes d) as [bytes |]; [| discriminate].
  destruct (bytes =? "")%string eqn:Hb; cbn [negb]; [discriminate |].
  intros [= <-]. apply String.eqb_neq in Hb.
  eexists. exists bytes. split; [reflexivity | exact Hb].
Qed.

Lemma first_some_found {A B} (f : A -> option B) l y :
  first_some f l = Some y -> exists x, In x l /\ f x = Some y.
Proof.
  induction l as [| x l IH]; [discriminate |].
  cbn [first_some]. destruct (f x) as [y' |] eqn:Hfx.
  - intros [= <-]. exists x. split; [now left | exact Hfx].
  - intros H. destruct (IH H) as (x' & Hin & Hx'). exists x'.
    split; [now right | exact Hx'].
Qed.

Lemma first_image_data_url r url : first_image r = Some url -> data_url url.
Proof.
  unfold first_image.
  destruct (candidates r) as [[| c cs] |]; try discriminate.
  destruct (content_parts c) as [ps |]; [| discriminate].
  intros H. destruct (first_some_found _ _ _ H) as (p & _ & Hp).
  now apply (part_image_data_url p).
Qed.

Lemma first_part_image_data_url r url :
  first_part_image r = Some url -> data_url url.
Proof.
  unfold first_part_image.
  destruct (candidates r) as [[| c cs] |]; try discriminate.
  destruct (content_parts c) as [[| p ps] |]; try discriminate.
  apply part_image_data_url.
Qed.

Lemma all_images_data_url r url : In url (all_images r) -> data_url url.
Proof.
  unfold all_images. destruct (candidates r) as [cs |]; [| intros []].
  rewrite in_flat_map. intros (c & _ & Hc).
  unfold candidate_images in Hc.
  destruct (content_parts c) as [ps |]; [| destruct Hc].
  apply in_flat_map in Hc as (p & _ & Hp).
  destruct (part_image p) as [u |] eqn:Hu; [| destruct Hp].
  destruct Hp as [<- | []]. now apply (part_image_data_url p).
Qed.

(** What [callWithRetry] returns is a value the operation returned. *)
Lemma callWithRetry_default_value {W T} (op : @operation W T)
    (s s' : World W) (v : T) :
  callWithRetry_default op s = (Ok v, s') ->
  exists w w', op w = (Ok v, w').
Proof.
  unfold callWithRetry_default, callWithRetry. intros Hrun.
  destruct (retry_loop_run op 5 (Z.to_nat 5) 0 3000 JUndefined s
              ltac:(lia) ltac:(lia)) as (n & _ & _ & _ & _ & Hend).
  rewrite Hrun in Hend. cbn [fst] in Hend. unfold run_end, nth_outcome in Hend.
  destruct (op (state_after op n (remote s))) as [[v' | e] w'] eqn:Hop;
    cbn [fst] in Hend.
  - injection Hend as <-. now exists (state_after op n (remote s)), w'.
  - destruct (isLoadError e) as [load | t];
      [destruct Hend as [Hend _] |]; discriminate Hend.
Qed.

Section GenerationResults.
Context {W : Type}.
Variable generateContent :
  GenerateContentRequest -> W -> Res GenerateContentResponse * W.
Variable generateImage :
  ImageRequest -> W -> Res GenerateContentResponse * W.
Variable API_KEY : option string.
Variable N : Numbers.

(** The shape shared by the functions: the call under retry, then a reading
    of the response, with a [catch] that rethrows. *)
Lemma rethrow_fulfilled {A B} (c : M W A) (k : A -> M W B)
    (s s' : World W) (b : B) :
  try_catch (bind c k) (fun e => throw e) s = (Ok b, s') ->
  exists a s1, c s = (Ok a, s1) /\ k a s1 = (Ok b, s').
Proof.
  unfold try_catch, bind, throw.
  destruct (c s) as [[a | e] s1]; [| discriminate].
  destruct (k a s1) as [[b' | e] s2] eqn:Hk; [| discriminate].
  intros [= <- <-]. now exists a, s1.
Qed.

(** X13. Whatever the image model answers, a fulfilled [generateSketch],
    [generateAdvancedEdit] or [generateIdeaRender] returns a [data:] URL
    with a payload that is not empty: the image of the first part of the
    first candidate of an answer of the model. *)
Theorem single_image_results :
  (forall base64 mime style res (s s' : World W) url,
     generateSketch generateContent API_KEY base64 mime style res s
     = (Ok url, s') ->
     data_url url
     /\ exists req w resp w',
          generateContent req w = (Ok resp, w')
          /\ first_part_image resp = Some url)
  /\ (forall src mime mode second points extra (s s' : World W) url,
        generateAdvancedEdit generateContent API_KEY N src mime mode second
          points extra s = (Ok url, s') ->
        data_url url
        /\ exists req w resp w',
             generateContent req w = (Ok resp, w')
             /\ first_part_image resp = Some url)
  /\ (forall sketch assets onStatus (s s' : World W) url,
        generateIdeaRender generateContent API_KEY N sketch assets onStatus s
        = (Ok url, s') ->
        data_url url
        /\ exists req w resp w',
             generateContent req w = (Ok resp, w')
             /\ first_part_image resp = Some url).
Proof.
  split; [| split].
  - intros base64 mime style res s s' url. unfold generateSketch.
    destruct (has_text API_KEY); cbn [negb]; [| discriminate].
    intros H. apply rethrow_fulfilled in H as (resp & s1 & Hcall & Hk).
    destruct (first_part_image resp) as [u |] eqn:Hu; [| discriminate Hk].
    injection Hk as <- <-.
    split; [now apply (first_part_image_data_url resp) |].
    destruct (callWithRetry_default_value _ _ _ _ Hcall) as (w & w' & Hop).
    eexists. exists w, resp, w'. split; [exact Hop | exact Hu].
  - intros src mime mode second points extra s s' url.
    unfold generateAdvancedEdit.
    destruct (has_text API_KEY); cbn [negb]; [| discriminate].
    unfold bind at 1, lift.
    destruct (prepare_edit mode second points extra)
      as [[[more sys] prompt] | e]; [| discriminate].
    intros H. apply rethrow_fulfilled in H as (resp & s1 & Hcall & Hk).
    destruct (first_part_image resp) as [u |] eqn:Hu; [| discriminate Hk].
    injection Hk as <- <-.
    split; [now apply (first_part_image_data_url resp) |].
    destruct (callWithRetry_default_value _ _ _ _ Hcall) as (w & w' & Hop).
    eexists. exists w, resp, w'. split; [exact Hop | exact Hu].
  - intros sketch assets onStatus s s' url. unfold generateIdeaRender.
    destruct (has_text API_KEY); cbn [negb]; [| discriminate].
    unfold bind at 1.
    destruct (report_status _ _ s) as [[[] | e] s0]; [| discriminate].
    unfold bind at 1.
    destruct (report_status _ _ s0) as [[[] | e] s0']; [| discriminate].
    intros H. apply rethrow_fulfilled in H as (resp & s1 & Hcall & Hk).
    destruct (first_part_image resp) as [u |] eqn:Hu; [| discriminate Hk].
    injection Hk as <- <-.
    split; [now apply (first_part_image_data_url resp) |].
    destruct (callWithRetry_default_value _ _ _ _ Hcall) as (w & w' & Hop).
    eexists. exists w, resp, w'. split; [exact Hop | exact Hu].
Qed.

(** X14. A fulfilled [generateHighQualityImage] never returns an empty
    list: it returns every image of every candidate of an answer of the
    model, in order, each a [data:] URL with a payload; an answer without
    any image is an error. *)
Theorem generateHighQualityImage_results (prompt resolution : string)
    (sourceImage : SizedImage N) (s s' : World W) (urls : list string) :
  generateHighQualityImage generateImage API_KEY N prompt resolution
    sourceImage s = (Ok urls, s') ->
  urls <> []
  /\ (forall url, In url urls -> data_url url)
  /\ exists req w resp w',
       generateImage req w = (Ok resp, w') /\ urls = all_images resp.
Proof.
  unfold generateHighQualityImage.
  destruct (has_text API_KEY); cbn [negb]; [| discriminate].
  intros H. apply rethrow_fulfilled in H as (resp & s1 & Hcall & Hk).
  destruct (all_images resp) as [| u us] eqn:Hall;
    [cbn in Hk; discriminate Hk |].
  cbn in Hk. injection Hk as <- <-.
  split; [discriminate |]. split.
  - intros url Hin. apply (all_images_data_url resp). now rewrite Hall.
  - destruct (callWithRetry_default_value _ _ _ _ Hcall) as (w & w' & Hop).
    eexists. exists w, resp, w'. split; [exact Hop | now rewrite Hall].
Qed.

(** X15. A fulfilled [generatePromptFromImageAndText] never returns the
    empty text: the text of the answer, or the fallback sentence when the
    answer has none. *)
Theorem generatePromptFromImageAndText_text (image : FileData)
    (instruction : string) (s s' : World W) (text : string) :
  generatePromptFromImageAndText generateContent API_KEY image instruction s
  = (Ok text, s') ->
  text <> ""
  /\ exists req w resp w',
       generateContent req w = (Ok resp, w')
       /\ (response_text resp = Some text
           \/ (has_text (response_text resp) = false
               /\ text = "Không thể phân tích ảnh.")).
Proof.
  unfold generatePromptFromImageAndText.
  destruct (has_text API_KEY); cbn [negb]; [| discriminate].
  intros H. apply rethrow_fulfilled in H as (resp & s1 & Hcall & Hk).
  destruct (callWithRetry_default_value _ _ _ _ Hcall) as (w & w' & Hop).
  unfold ret in Hk.
  destruct (has_text (response_text resp)) eqn:Htext.
  - destruct (response_text resp) as [t |] eqn:Ht; [| discriminate Htext].
    injection Hk as <- <-. cbn [has_text] in Htext.
    split.
    + intros ->. discriminate Htext.
    + eexists. exists w, resp, w'. split; [exact Hop |]. left. exact Ht.
  - injection Hk as <- <-. split; [discriminate |].
    eexists. exists w, resp, w'. split; [exact Hop |]. now right.
Qed.

(** X16. Without an API key none of the generation functions reaches the
    remote model or the persistence service: each is rejected at once with
    its own error, and neither the remote state nor the trace changes. *)
Theorem generation_requires_key (s : World W) :
  has_text API_KEY = false ->
  (forall supabase presets cinematic fidelity realism img o,
     generateWeddingRender supabase generateContent API_KEY presets
       cinematic fidelity realism img o s
     = (Throw (Error "API Key is missing. Please set REACT_APP_GEMINI_API_KEY or process.env.API_KEY"), s))
  /\ (forall image instruction,
        generatePromptFromImageAndText generateContent API_KEY image
          instruction s
        = (Throw (Error "API Key is missing."), s))
  /\ (forall prompt resolution sourceImage,
        generateHighQualityImage generateImage API_KEY N prompt resolution
          sourceImage s
        = (Throw (Error "API Key is missing. Please set REACT_APP_GEMINI_API_KEY or process.env.API_KEY"), s))
  /\ (forall src mime mode second points extra,
        generateAdvancedEdit generateContent API_KEY N src mime mode second
          points extra s
        = (Throw (Error "API Key is missing."), s))
  /\ (forall base64 mime style res,
        generateSketch generateContent API_KEY base64 mime style res s
        = (Throw (Error "API Key missing"), s))
  /\ (forall sketch assets onStatus,
        generateIdeaRender generateContent API_KEY N sketch assets onStatus s
        = (Throw (Error "API Key missing"), s)).
Proof.
  intros Hkey.
  unfold generateWeddingRender, generatePromptFromImageAndText,
    generateHighQualityImage, generateAdvancedEdit, generateSketch,
    generateIdeaRender.
  rewrite Hkey. cbn [negb]. repeat split.
Qed.

End GenerationResults.

Lemma generateHighQualityImage_results_witness :
  ["data:image/png;base64,b25l"; "data:image/png;base64,dHdv"] <> []
  /\ (forall url,
        In url ["data:image/png;base64,b25l"; "data:image/png;base64,dHdv"] ->
        data_url url)
  /\ exists req w resp w',
       sample_generateImage req w = (Ok resp, w')
       /\ ["data:image/png;base64,b25l"; "data:image/png;base64,dHdv"]
          = all_images resp.
Proof.
  apply (generateHighQualityImage_results sample_generateImage (Some "key")
           sample_numbers "sharper" "4K" sample_sized_image
           (mkWorld tt []) (mkWorld tt [EvCall])).
  reflexivity.
Defined.

Lemma generatePromptFromImageAndText_text_witness :
  "a description" <> ""
  /\ exists req w resp w',
       second_candidate_generateContent req w = (Ok resp, w')
       /\ (response_text resp = Some "a description"
           \/ (has_text (response_text resp) = false
               /\ "a description" = "Không thể phân tích ảnh.")).
Proof.
  apply (generatePromptFromImageAndText_text second_candidate_generateContent
           (Some "key") sample_image "describe the scene"
           (mkWorld tt []) (mkWorld tt [EvCall])).
  reflexivity.
Defined.

Lemma generation_requires_key_witness :
  (forall supabase presets cinematic fidelity realism img o,
     generateWeddingRender supabase sample_generateContent None presets
       cinematic fidelity realism img o (mkWorld tt [])
     = (Throw (Error "API Key is missing. Please set REACT_APP_GEMINI_API_KEY or process.env.API_KEY"), mkWorld tt []))
  /\ (forall image instruction,
        generatePromptFromImageAndText sample_generateContent None image
          instruction (mkWorld tt [])
        = (Throw (Error "API Key is missing."), mkWorld tt []))
  /\ (forall prompt resolution sourceImage,
        generateHighQualityImage sample_generateImage None sample_numbers
          prompt resolution sourceImage (mkWorld tt [])
        = (Throw (Error "API Key is missing. Please set REACT_APP_GEMINI_API_KEY or process.env.API_KEY"), mkWorld tt []))
  /\ (forall src mime mode second points extra,
        generateAdvancedEdit sample_generateContent None sample_numbers src
          mime mode second points extra (mkWorld tt [])
        = (Throw (Error "API Key is missing."), mkWorld tt []))
  /\ (forall base64 mime style res,
        generateSketch sample_generateContent None base64 mime style res
          (mkWorld tt [])
        = (Throw (Error "API Key missing"), mkWorld tt []))
  /\ (forall sketch assets onStatus,
        generateIdeaRender sample_generateContent None sample_numbers sketch
          assets onStatus (mkWorld tt [])
        = (Throw (Error "API Key missing"), mkWorld tt [])).
Proof.
  apply (generation_requires_key sample_generateContent sample_generateImage
           None sample_numbers (mkWorld tt [])).
  reflexivity.
Defined.

(** ** generateAdvancedEdit and the data of its modes *)

Section EditModes.
Context {W : Type}.
Variable generateContent :
  GenerateContentRequest -> W -> Res GenerateContentResponse * W.
Variable API_KEY : option string.
Variable N : Numbers.

(** X17. With an API key, [generateAdvancedEdit] refuses a mode that lacks
    its data before it reaches the model: the mode [NOTE] without the
    annotated image, and the mode [SWAP] without the replacement image or
    without click points; neither the remote state nor the trace changes.
    An empty list of points is accepted, and the prompt then names no
    place. *)
Theorem generateAdvancedEdit_requires_data
    (src mime : string) (points : option (list (ClickPoint N)))
    (second : option FileData) (extra : option string) (s : World W) :
  has_text API_KEY = true ->
  generateAdvancedEdit generateContent API_KEY N src mime "NOTE" None points
    extra s
  = (Throw (Error "Annotated image required"), s)
  /\ (second = None \/ points = None ->
      generateAdvancedEdit generateContent API_KEY N src mime "SWAP" second
        points extra s
      = (Throw (Error "Swap data required"), s))
  /\ (forall img,
        prepare_edit (N := N) "SWAP" (Some img) (Some []) extra
        = Ok ([InlinePart (mimeType img) (base64 img)],
              "AI object replacement specialist.",
              "TASK: OBJECT REPLACEMENT at .")).
Proof.
  intros Hkey. unfold generateAdvancedEdit. rewrite Hkey. cbn [negb].
  split; [reflexivity |]. split.
  - intros [-> | ->]; [reflexivity |]. now destruct second.
  - intros img. reflexivity.
Qed.

End EditModes.

Lemma generateAdvancedEdit_requires_data_witness :
  generateAdvancedEdit sample_generateContent (Some "key") sample_numbers
    "c2tldGNo" "image/png" "NOTE" None None None (mkWorld tt [])
  = (Throw (Error "Annotated image required"), mkWorld tt [])
  /\ (@None FileData = None \/ @None (list (ClickPoint sample_numbers)) = None ->
      generateAdvancedEdit sample_generateContent (Some "key") sample_numbers
        "c2tldGNo" "image/png" "SWAP" None None None (mkWorld tt [])
      = (Throw (Error "Swap data required"), mkWorld tt []))
  /\ (forall img,
        prepare_edit (N := sample_numbers) "SWAP" (Some img) (Some []) None
        = Ok ([InlinePart (mimeType img) (base64 img)],
              "AI object replacement specialist.",
              "TASK: OBJECT REPLACEMENT at .")).
Proof.
  apply (generateAdvancedEdit_requires_data sample_generateContent
           (Some "key") sample_numbers "c2tldGNo" "image/png" None None None
           (mkWorld tt [])).
  reflexivity.
Defined.

(** ** The selection of feedback tags *)

Lemma selected_In t l : selected t l = true <-> In t l.
Proof.
  unfold selected. rewrite existsb_exists. split.
  - intros (x & Hx & Heq). apply String.eqb_eq in Heq. now subst.
  - intros H. exists t. split; [exact H | apply String.eqb_refl].
Qed.

Lemma selected_app t l1 l2 :
  selected t (l1 ++ l2) = selected t l1 || selected t l2.
Proof. apply existsb_app. Qed.

Lemma selected_filter_other t tag l :
  selected t (filter (fun x => negb (x =? tag)%string) l)
  = negb (t =? tag)%string && selected t l.
Proof.
  apply eq_iff_eq_true.
  rewrite andb_true_iff, !selected_In, filter_In. tauto.
Qed.

(** One click: the tag clicked changes side, the others stay. *)
Lemma selected_toggleTag t tag l :
  selected t (toggleTag tag l)
  = if (t =? tag)%string then negb (selected t l) else selected t l.
Proof.
  unfold toggleTag. fold (selected tag l).
  destruct (selected tag l) eqn:Hsel.
  - rewrite selected_filter_other.
    destruct (t =? tag)%string eqn:Ht; [| reflexivity].
    apply String.eqb_eq in Ht. subst t. now rewrite Hsel.
  - rewrite selected_app. unfold selected at 2. cbn [existsb].
    rewrite orb_false_r.
    destruct (t =? tag)%string eqn:Ht; [| apply orb_false_r].
    apply String.eqb_eq in Ht. subst t. now rewrite Hsel.
Qed.

Lemma toggleTag_NoDup tag l : NoDup l -> NoDup (toggleTag tag l).
Proof.
  intros Hl. unfold toggleTag. fold (selected tag l).
  destruct (selected tag l) eqn:Hsel.
  - now apply NoDup_filter.
  - apply NoDup_app; [exact Hl | repeat constructor; intros [] |].
    intros x Hx [<- | []].
    apply selected_In in Hx. congruence.
Qed.

Lemma click_tags_selected clicks :
  forall t selection,
    selected t (click_tags clicks selection)
    = xorb (selected t selection)
        (Nat.odd (count_occ string_dec clicks t)).
Proof.
  induction clicks as [| tag clicks IH]; intros t selection.
  - cbn. now rewrite xorb_false_r.
  - cbn [click_tags fold_left]. fold (click_tags clicks (toggleTag tag selection)).
    rewrite IH, selected_toggleTag. cbn [count_occ].
    destruct (string_dec tag t) as [-> | Hne].
    + rewrite String.eqb_refl, Nat.odd_succ, <- Nat.negb_odd.
      destruct (selected t selection), (Nat.odd _); reflexivity.
    + assert (Ht : (t =? tag)%string = false)
        by (apply String.eqb_neq; congruence).
      now rewrite Ht.
Qed.

(** X18. After any sequence of clicks on the tags of the widget, from the
    empty selection it starts with: no tag is selected twice, and a tag is
    selected exactly when it was clicked an odd number of times. *)
Theorem toggleTag_clicks (clicks : list string) (t : string) :
  NoDup (click_tags clicks [])
  /\ (In t (click_tags clicks [])
      <-> Nat.odd (count_occ string_dec clicks t) = true).
Proof.
  split.
  - assert (H : forall sel, NoDup sel -> NoDup (click_tags clicks sel)).
    { induction clicks as [| tag clicks IH]; intros sel Hsel; [exact Hsel |].
      cbn [click_tags fold_left]. apply IH. now apply toggleTag_NoDup. }
    apply H. constructor.
  - rewrite <- selected_In, click_tags_selected. cbn [selected existsb].
    now rewrite xorb_false_l.
Qed.

(** Filtering a tag out of a list that does not hold it changes nothing. *)
Lemma filter_other_id (tag : string) (l : list string) :
  ~ In tag l -> filter (fun t => negb (t =? tag)%string) l = l.
Proof.
  intros Hnot. apply forallb_filter_id, forallb_forall.
  intros x Hx. apply negb_true_iff, String.eqb_neq. congruence.
Qed.

Lemma selected_false t l : ~ In t l -> selected t l = false.
Proof.
  intros Hnot. destruct (selected t l) eqn:H; [| reflexivity].
  apply selected_In in H. contradiction.
Qed.

(** Selecting a tag that is not selected appends it. *)
Lemma toggleTag_select tag l : ~ In tag l -> toggleTag tag l = (l ++ [tag])%list.
Proof.
  intros Hnot. unfold toggleTag. fold (selected tag l).
  now rewrite (selected_false tag l Hnot).
Qed.

(** Clearing a selected tag filters it out. *)
Lemma toggleTag_clear tag l :
  In tag l -> toggleTag tag l = filter (fun t => negb (t =? tag)%string) l.
Proof.
  intros Hin. unfold toggleTag. fold (selected tag l).
  apply selected_In in Hin. now rewrite Hin.
Qed.

(** X19. Clicking a tag twice in a row, in a selection without duplicates:
    when the tag was not selected the selection is the same list again;
    when it was selected, the tag has moved from its place to the end, the
    other tags keeping their order. Either way the same tags are
    selected. *)
Theorem toggleTag_twice (tag : string) (prev : list string) :
  NoDup prev ->
  (~ In tag prev -> toggleTag tag (toggleTag tag prev) = prev)
  /\ (forall before after,
        prev = (before ++ tag :: after)%list ->
        toggleTag tag (toggleTag tag prev) = (before ++ after ++ [tag])%list)
  /\ Permutation (toggleTag tag (toggleTag tag prev)) prev.
Proof.
  intros Hnd.
  assert (Hout : ~ In tag prev -> toggleTag tag (toggleTag tag prev) = prev).
  { intros Hnot. rewrite (toggleTag_select tag prev Hnot).
    rewrite toggleTag_clear by (apply in_or_app; right; now left).
    rewrite filter_app. cbn [filter]. rewrite String.eqb_refl. cbn [negb].
    rewrite app_nil_r. now apply filter_other_id. }
  split; [exact Hout |]. split.
  - intros before after ->.
    apply NoDup_remove_2 in Hnd.
    assert (Hb : ~ In tag before) by (intros H; apply Hnd, in_or_app; now left).
    assert (Ha : ~ In tag after) by (intros H; apply Hnd, in_or_app; now right).
    rewrite (toggleTag_clear tag (before ++ tag :: after))
      by (apply in_or_app; right; now left).
    rewrite filter_app. cbn [filter]. rewrite String.eqb_refl. cbn [negb].
    rewrite (filter_other_id tag before Hb), (filter_other_id tag after Ha).
    rewrite (toggleTag_select tag (before ++ after) Hnd).
    now rewrite <- app_assoc.
  - destruct (in_dec string_dec tag prev) as [Hin | Hnot];
      [| now rewrite Hout].
    apply NoDup_Permutation.
    + now apply toggleTag_NoDup, toggleTag_NoDup.
    + exact Hnd.
    + intros x. rewrite <- !selected_In, !selected_toggleTag.
      destruct (x =? tag)%string; [now rewrite negb_involutive | reflexivity].
Qed.

Lemma toggleTag_twice_witness :
  toggleTag "Sai màu sắc"
    (toggleTag "Sai màu sắc"
       ["Hoa nhìn giả"; "Sai màu sắc"; "Ánh sáng đẹp"])
  = (["Hoa nhìn giả"] ++ ["Ánh sáng đẹp"] ++ ["Sai màu sắc"])%list
  /\ Permutation
       (toggleTag "Sai màu sắc"
          (toggleTag "Sai màu sắc"
             ["Hoa nhìn giả"; "Sai màu sắc"; "Ánh sáng đẹp"]))
       ["Hoa nhìn giả"; "Sai màu sắc"; "Ánh sáng đẹp"].
Proof.
  assert (Hnd : NoDup ["Hoa nhìn giả"; "Sai màu sắc"; "Ánh sáng đẹp"]).
  { repeat constructor; cbn; intros H;
      repeat (destruct H as [H | H]; [discriminate H |]); exact H. }
  destruct (toggleTag_twice "Sai màu sắc"
              ["Hoa nhìn giả"; "Sai màu sắc"; "Ánh sáng đẹp"] Hnd)
    as (_ & Hmoved & Hsame).
  split; [| exact Hsame].
  apply (Hmoved ["Hoa nhìn giả"] ["Ánh sáng đẹp"]). reflexivity.
Defined.

(** ** Submitting a rating *)

Section RatingFacts.
Context {W : Type}.
Variable supabase : client W.

(** X20. [handleSubmit] always settles, whatever the persistence client and
    the reward callback do. Without a render identifier it does nothing.
    With one it ends with [isSubmitting] cleared, and either shows the
    success and sets the 2-second timer, after the feedback was stored, or
    raises the alert and leaves the success flag as it was; when storing the
    feedback fails, it raises the alert and the reward callback is not
    run. *)
Theorem handleSubmit_settles (renderId : string)
    (onReward : option (Z -> M W unit)) (st : RatingState) (s : World W) :
  handleSubmit supabase "" onReward st s = (Ok st, s)
  /\ (renderId <> "" ->
      let stored :=
        submitFeedback supabase renderId (star_rating st) (selectedTags st) s
      in
      exists st' s',
        handleSubmit supabase renderId onReward st s = (Ok st', s')
        /\ isSubmitting st' = false
        /\ star_rating st' = star_rating st
        /\ selectedTags st' = selectedTags st
        /\ ((isSuccess st' = true /\ alerts st' = alerts st
             /\ timers st' = (timers st ++ [2000])%list
             /\ fst stored = Ok tt)
            \/ (isSuccess st' = isSuccess st
                /\ alerts st'
                   = (alerts st ++ ["Có lỗi xảy ra khi gửi đánh giá."])%list
                /\ timers st' = timers st))
        /\ (forall e, fst stored = Throw e ->
              alerts st'
              = (alerts st ++ ["Có lỗi xảy ra khi gửi đánh giá."])%list
              /\ isSuccess st' = isSuccess st
              /\ s' = snd stored)).
Proof.
  split; [reflexivity |].
  intros Hid stored. subst stored. unfold handleSubmit.
  apply String.eqb_neq in Hid. rewrite Hid.
  unfold try_catch, bind, ret.
  destruct (submitFeedback supabase renderId (star_rating st)
              (selectedTags st) s) as [[[] | e] s1].
  - destruct (match onReward with
              | Some reward => reward 1
              | None => fun s0 => (Ok tt, s0)
              end s1) as [[[] | e] s2].
    + eexists. eexists. split; [reflexivity |]. cbn.
      do 3 (split; [reflexivity |]).
      split; [left; now repeat split | intros e He; discriminate He].
    + eexists. eexists. split; [reflexivity |]. cbn.
      do 3 (split; [reflexivity |]).
      split; [right; now repeat split | intros e' He; discriminate He].
  - eexists. eexists. split; [reflexivity |]. cbn.
    do 3 (split; [reflexivity |]).
    split; [right; now repeat split | intros e' He; now repeat split].
Qed.

End RatingFacts.

Lemma handleSubmit_settles_witness :
  handleSubmit reporting_client "" None sample_rating_state (mkWorld tt [])
  = (Ok sample_rating_state, mkWorld tt [])
  /\ (let stored :=
        submitFeedback reporting_client "no-such-id"
          (star_rating sample_rating_state)
          (selectedTags sample_rating_state) (mkWorld tt [])
      in
      exists st' s',
        handleSubmit reporting_client "no-such-id" None sample_rating_state
          (mkWorld tt []) = (Ok st', s')
        /\ isSubmitting st' = false
        /\ star_rating st' = star_rating sample_rating_state
        /\ selectedTags st' = selectedTags sample_rating_state
        /\ ((isSuccess st' = true /\ alerts st' = alerts sample_rating_state
             /\ timers st' = (timers sample_rating_state ++ [2000])%list
             /\ fst stored = Ok tt)
            \/ (isSuccess st' = isSuccess sample_rating_state
                /\ alerts st'
                   = (alerts sample_rating_state
                      ++ ["Có lỗi xảy ra khi gửi đánh giá."])%list
                /\ timers st' = timers sample_rating_state))
        /\ (forall e, fst stored = Throw e ->
              alerts st'
              = (alerts sample_rating_state
                 ++ ["Có lỗi xảy ra khi gửi đánh giá."])%list
              /\ isSuccess st' = isSuccess sample_rating_state
              /\ s' = snd stored)).
Proof.
  split.
  - apply (handleSubmit_settles reporting_client "no-such-id" None
             sample_rating_state (mkWorld tt [])).
  - apply (handleSubmit_settles reporting_client "no-such-id" None
             sample_rating_state (mkWorld tt [])).
    discriminate.
Defined.

(** The offline client answers the update of any record. *)
Lemma submitFeedback_offline_storage {W : Type} (renderId : string)
    (stars : Z) (tags : list string) (s : World W) :
  submitFeedback createMockChain renderId stars tags s = (Ok tt, s).
Proof.
  unfold submitFeedback.
  rewrite (bind_ok _ _ _ _ _
             (await_offline_chain (update_query renderId stars tags) s
                eq_refl)).
  reflexivity.
Qed.

(** X21. With the offline client every rating is shown as a success and
    rewarded, whatever the render identifier, the stars and the tags,
    although the client stores nothing: the reward callback runs with one
    credit, the success flag and the timer are set. *)
Theorem handleSubmit_offline {W : Type} (renderId : string)
    (reward : Z -> M W unit) (st : RatingState) (s s1 : World W) :
  renderId <> "" ->
  reward 1 s = (Ok tt, s1) ->
  handleSubmit createMockChain renderId (Some reward) st s
  = (Ok (mkRating (star_rating st) (selectedTags st) false true (alerts st)
           (timers st ++ [2000])), s1).
Proof.
  intros Hid Hreward. unfold handleSubmit.
  apply String.eqb_neq in Hid. rewrite Hid.
  apply try_catch_ok.
  rewrite (bind_ok _ _ _ _ _
             (submitFeedback_offline_storage renderId (star_rating st)
                (selectedTags st) s)).
  now rewrite (bind_ok _ _ _ _ _ Hreward).
Qed.

Lemma handleSubmit_offline_witness :
  handleSubmit createMockChain "offline-mode-id" (Some counting_reward)
    sample_rating_state (mkWorld 7 [])
  = (Ok (mkRating (star_rating sample_rating_state)
           (selectedTags sample_rating_state) false true
           (alerts sample_rating_state)
           (timers sample_rating_state ++ [2000])), mkWorld 8 []).
Proof.
  apply (handleSubmit_offline "offline-mode-id" counting_reward
           sample_rating_state (mkWorld 7 []) (mkWorld 8 [])).
  - discriminate.
  - reflexivity.
Defined.

(** ** Editing the pinned assets *)

Lemma removeAsset_other {N : Numbers} (id : string)
    (assets : list (IdeaAsset N)) :
  (forall a, In a assets -> asset_id a <> id) -> removeAsset id assets = assets.
Proof.
  intros Hother. unfold removeAsset.
  apply forallb_filter_id, forallb_forall.
  intros a Ha. apply negb_true_iff, String.eqb_neq. now apply Hother.
Qed.

Lemma updateAssetImage_other {N : Numbers} (id : string) (file : FileData)
    (assets : list (IdeaAsset N)) :
  (forall a, In a assets -> asset_id a <> id) ->
  updateAssetImage id file assets = assets.
Proof.
  intros Hother. unfold updateAssetImage.
  rewrite <- (map_id assets) at 2. apply map_ext_in.
  intros a Ha. apply Hother, String.eqb_neq in Ha. now rewrite Ha.
Qed.

(** Among distinct identifiers, the assets around the asset of an identifier
    carry other identifiers. *)
Lemma distinct_ids_around {N : Numbers} (a : IdeaAsset N)
    (before after : list (IdeaAsset N)) :
  NoDup (map asset_id (before ++ a :: after)) ->
  (forall b, In b before -> asset_id b <> asset_id a)
  /\ (forall b, In b after -> asset_id b <> asset_id a).
Proof.
  rewrite map_app. cbn [map]. intros Hnd. apply NoDup_remove_2 in Hnd.
  split; intros b Hb Heq; apply Hnd, in_or_app; rewrite <- Heq;
    [left | right]; now apply in_map.
Qed.

(** X22. In a list of assets with distinct identifiers: [removeAsset] takes
    out the asset of the identifier and leaves every other asset where it
    was, in order; [updateAssetImage] puts in its place the asset of the
    same identifier, place and label with the new image, and leaves every
    other asset as it was; for an identifier that no asset carries both
    leave the list as it is; and removing an identifier after updating its
    image is removing it. *)
Theorem asset_list_edits {N : Numbers} (id : string) (file : FileData)
    (assets : list (IdeaAsset N)) :
  NoDup (map asset_id assets) ->
  (forall before a after,
     assets = (before ++ a :: after)%list ->
     asset_id a = id ->
     removeAsset id assets = (before ++ after)%list
     /\ updateAssetImage id file assets
        = (before
           ++ mkAsset id (asset_x a) (asset_y a) (Some file) (asset_label a)
              :: after)%list)
  /\ ((forall a, In a assets -> asset_id a <> id) ->
      removeAsset id assets = assets
      /\ updateAssetImage id file assets = assets)
  /\ removeAsset id (updateAssetImage id file assets) = removeAsset id assets.
Proof.
  intros Hnd. split; [| split].
  - intros before a after -> Hid.
    destruct (distinct_ids_around a before after Hnd) as [Hb Ha].
    rewrite Hid in Hb, Ha. split.
    + unfold removeAsset. rewrite filter_app. cbn [filter].
      rewrite Hid, String.eqb_refl. cbn [negb].
      fold (removeAsset id before). fold (removeAsset id after).
      now rewrite (removeAsset_other id before Hb),
        (removeAsset_other id after Ha).
    + unfold updateAssetImage. rewrite map_app. cbn [map].
      rewrite Hid, String.eqb_refl.
      fold (updateAssetImage id file before).
      fold (updateAssetImage id file after).
      now rewrite (updateAssetImage_other id file before Hb),
        (updateAssetImage_other id file after Ha).
  - intros Hother. split;
      [now apply removeAsset_other | now apply updateAssetImage_other].
  - clear Hnd. unfold updateAssetImage, removeAsset.
    induction assets as [| a assets IH]; [reflexivity |].
    cbn [map filter].
    destruct (asset_id a =? id)%string eqn:Ha; cbn [asset_id].
    + rewrite Ha. cbn [negb]. exact IH.
    + rewrite Ha. cbn [negb]. now rewrite IH.
Qed.

Lemma asset_list_edits_witness :
  (removeAsset "a2" sample_assets
   = ([ @mkAsset sample_numbers "a1" 20%float 30%float
          (Some (mkFile "YXJjaA==" "image/png")) "arch" ]
      ++ [ @mkAsset sample_numbers "a3" 80%float 70%float
             (Some (mkFile "dmFzZQ==" "image/jpeg")) "vase" ])%list
   /\ updateAssetImage "a2" sample_image sample_assets
      = ([ @mkAsset sample_numbers "a1" 20%float 30%float
             (Some (mkFile "YXJjaA==" "image/png")) "arch" ]
         ++ @mkAsset sample_numbers "a2" 50%float 50%float
              (Some sample_image) "aisle"
            :: [ @mkAsset sample_numbers "a3" 80%float 70%float
                   (Some (mkFile "dmFzZQ==" "image/jpeg")) "vase" ])%list)
  /\ removeAsset "a2" (updateAssetImage "a2" sample_image sample_assets)
     = removeAsset "a2" sample_assets.
Proof.
  assert (Hnd : NoDup (map asset_id sample_assets)).
  { repeat constructor; cbn; intros H;
      repeat (destruct H as [H | H]; [discriminate H |]); exact H. }
  destruct (asset_list_edits "a2" sample_image sample_assets Hnd)
    as (Hat & _ & Hboth).
  split; [| exact Hboth].
  apply (Hat [ @mkAsset sample_numbers "a1" 20%float 30%float
                 (Some (mkFile "YXJjaA==" "image/png")) "arch" ]
           (@mkAsset sample_numbers "a2" 50%float 50%float None "aisle")
           [ @mkAsset sample_numbers "a3" 80%float 70%float
               (Some (mkFile "dmFzZQ==" "image/jpeg")) "vase" ]);
    reflexivity.
Defined.

(** ** The learning context over the filtered read, in detail *)

Lemma distinct_In (l : list string) t : In t (distinct l) <-> In t l.
Proof.
  induction l as [| x l IH]; [reflexivity |].
  cbn [distinct In]. rewrite filter_In, IH, negb_true_iff, String.eqb_neq.
  destruct (string_dec x t) as [-> | Hne]; [tauto |].
  split; [tauto | intros [H | H]; [tauto | right; split; [exact H | exact Hne]]].
Qed.

Lemma distinct_NoDup (l : list string) : NoDup (distinct l).
Proof.
  induction l as [| x l IH]; [constructor |].
  cbn [distinct]. constructor.
  - rewrite filter_In, negb_true_iff, String.eqb_neq. tauto.
  - now apply NoDup_filter.
Qed.

Lemma firstn_NoDup {A} (n : nat) (l : list A) : NoDup l -> NoDup (firstn n l).
Proof.
  intros H. rewrite <- (firstn_skipn n l) in H.
  now apply NoDup_app_remove_r in H.
Qed.

Lemma firstn_In {A} (n : nat) (l : list A) x : In x (firstn n l) -> In x l.
Proof.
  intros H. rewrite <- (firstn_skipn n l). apply in_or_app. now left.
Qed.

Section ReadDetails.
Context {W : Type}.
Variable supabase : client W.
Variable table : W -> list RenderRecord.
Hypothesis reads :
  forall q w response,
    run_read (table w) q = Some response -> supabase q w = (Ok response, w).

Lemma getLearningContext_over_reads (cat sty : string) (s : World W) :
  getLearningContext supabase cat sty s
  = (Ok (mkLearning (spec_examples (table (remote s)) cat sty)
           (spec_constraints (table (remote s)) cat)), s).
Proof.
  pose proof (reads _ (remote s) _
                (run_read_positive (table (remote s)) cat sty)) as H1.
  pose proof (reads _ (remote s) _
                (run_read_negative (table (remote s)) cat)) as H2.
  unfold getLearningContext. apply try_catch_ok.
  unfold getLearningContext_body.
  rewrite (bind_ok _ _ _ _ _ (await_query_eq _ _ _ _ _ H1)).
  replace (mkWorld (remote s) (trace s)) with s by now destruct s.
  unfold lift at 1. unfold bind at 1. cbn [prop nullish opt_get lookup].
  cbn [String.eqb Ascii.eqb Bool.eqb].
  rewrite (bind_ok _ _ _ _ _ (await_query_eq _ _ _ _ _ H2)).
  replace (mkWorld (remote s) (trace s)) with s by now destruct s.
  unfold lift at 1. unfold bind at 1. cbn [prop nullish opt_get lookup].
  cbn [String.eqb Ascii.eqb Bool.eqb].
  unfold lift, bind, ret.
  rewrite negative_tags_rows, examples_of_rows, dedup_strings.
  rewrite firstn_map, join_strings.
  reflexivity.
Qed.

(** X23. Over a persistence service that answers the filtered reads, the
    constraints [getLearningContext] returns are the join of at most five
    tags, no tag twice, each a feedback tag of a record of the category
    rated below 3; and the reads leave the remote state and the trace as
    they were. *)
Theorem getLearningContext_constraint_tags (cat sty : string)
    (s : World W) :
  let records := table (remote s) in
  let tags := constraint_tags records cat in
  exists lc,
    getLearningContext supabase cat sty s = (Ok lc, s)
    /\ constraints lc = String.concat ", " tags
    /\ (List.length tags <= 5)%nat
    /\ NoDup tags
    /\ (forall t, In t tags ->
          exists r n,
            In r records /\ rec_category r = cat
            /\ rating r = Some n /\ n < 3
            /\ exists given, feedback_tags r = Some given /\ In t given).
Proof.
  intros records tags. subst records tags.
  eexists. split; [apply getLearningContext_over_reads |].
  cbn [constraints]. split; [reflexivity |].
  unfold constraint_tags.
  split; [apply firstn_le_length |].
  split; [apply firstn_NoDup, distinct_NoDup |].
  intros t Ht. apply firstn_In, distinct_In, in_flat_map in Ht
    as (r & Hr & Htag).
  destruct (chosen_complaints_matching (table (remote s)) cat) as [_ Hmatch].
  destruct (Hmatch r Hr) as [Hin Hc].
  unfold is_complaint in Hc.
  apply andb_prop in Hc as [Hcr Htags].
  apply andb_prop in Hcr as [Hcat Hrating].
  apply String.eqb_eq in Hcat.
  destruct (rating r) as [n |] eqn:Hn; [| discriminate].
  apply Z.ltb_lt in Hrating.
  unfold tags_of in Htag.
  destruct (feedback_tags r) as [given |] eqn:Hg; [| destruct Htag].
  exists r, n. repeat split; try assumption. now exists given.
Qed.

End ReadDetails.

Lemma getLearningContext_constraint_tags_witness :
  let records := sample_table in
  let tags := constraint_tags records "stage" in
  exists lc,
    getLearningContext table_client "stage" "rustic"
      (mkWorld sample_table []) = (Ok lc, mkWorld sample_table [])
    /\ constraints lc = String.concat ", " tags
    /\ (List.length tags <= 5)%nat
    /\ NoDup tags
    /\ (forall t, In t tags ->
          exists r n,
            In r records /\ rec_category r = "stage"
            /\ rating r = Some n /\ n < 3
            /\ exists given, feedback_tags r = Some given /\ In t given).
Proof.
  apply (getLearningContext_constraint_tags table_client (fun t => t)).
  intros q w response Hread. unfold table_client. now rewrite Hread.
Defined.

(** ** The learning block of the prompt *)

(** X24. The block [generateWeddingRender] builds from a learning context
    carries the examples verbatim when there are any and the sentence "No
    specific patterns yet." when there are none, and the constraints behind
    "Avoid these specific issues complained by users: " when there are any
    and the sentence "No specific constraints." when there are none; so
    with the empty context that [getLearningContext] falls back to, it
    carries both sentences. *)
Theorem learningPromptInjection_blocks (o : RenderOptions)
    (lc : LearningContext) :
  let block := learningPromptInjection o lc in
  (examples lc <> "" -> includes block (examples lc) = true)
  /\ (examples lc = "" -> includes block "No specific patterns yet." = true)
  /\ (constraints lc <> "" ->
      includes block
        ("Avoid these specific issues complained by users: "
         ++ constraints lc) = true)
  /\ (constraints lc = "" ->
      includes block "No specific constraints." = true)
  /\ includes (learningPromptInjection o empty_learning)
       "No specific patterns yet." = true
  /\ includes (learningPromptInjection o empty_learning)
       "No specific constraints." = true.
Proof.
  intros block. subst block. unfold learningPromptInjection.
  split; [| split; [| split; [| split; [| split]]]].
  - intros Hex. apply String.eqb_neq in Hex. rewrite Hex. cbn [negb].
    do 5 apply includes_app_r. apply includes_head.
  - intros Hex. rewrite Hex. cbn [String.eqb negb].
    do 5 apply includes_app_r. apply includes_head.
  - intros Hco. apply String.eqb_neq in Hco. rewrite Hco. cbn [negb].
    do 7 apply includes_app_r. apply includes_head.
  - intros Hco. rewrite Hco. cbn [String.eqb negb].
    do 7 apply includes_app_r. apply includes_head.
  - cbn [examples empty_learning String.eqb negb].
    do 5 apply includes_app_r. apply includes_head.
  - cbn [constraints empty_learning String.eqb negb].
    do 7 apply includes_app_r. apply includes_head.
Qed.

Lemma learningPromptInjection_blocks_witness :
  let lc := mkLearning "prompt two" "blurry, too dark" in
  let block := learningPromptInjection options_all_concrete lc in
  (examples lc <> "" -> includes block (examples lc) = true)
  /\ (examples lc = "" -> includes block "No specific patterns yet." = true)
  /\ (constraints lc <> "" ->
      includes block
        ("Avoid these specific issues complained by users: "
         ++ constraints lc) = true)
  /\ (constraints lc = "" ->
      includes block "No specific constraints." = true)
  /\ includes (learningPromptInjection options_all_concrete empty_learning)
       "No specific patterns yet." = true
  /\ includes (learningPromptInjection options_all_concrete empty_learning)
       "No specific constraints." = true.
Proof.
  apply (learningPromptInjection_blocks options_all_concrete
           (mkLearning "prompt two" "blurry, too dark")).
Defined.
